(** * Altavista: business rules of the condominium back end

    A shallow embedding of the model methods of [app_altavista/models]
    (reservations, administration fees, payments, the financial ledger,
    maintenance and reserve funds) together with the properties they are
    documented to have.

    Conventions of the embedding.
    - A Python method that mutates [self] and the database is a computation
      in the state-and-exception monad [Py.M]: the state is the pair of the
      in-memory instance and the tables it touches.  A raised exception keeps
      the state reached at the raise, as in Python.
    - A [Decimal] is the rational it denotes ([Q]); its comparison is
      numeric, hence [Qeq].  Module [Decimal] has the rounding of the default
      context (28 significant digits, ties to even) and the adaptation of a
      value to a [DecimalField] column.  The methods of the funds and of
      the fees round and store as Python and the framework do; the tables
      of the other models hold the rows with the numbers of the instance,
      which are the numbers of the columns whenever these fit them
      ([Decimal.en_columna]).
    - [CharField] values are strings; the methods compare them with [==].
    - [datetime.date] follows the pure-Python implementation of the standard
      library (year, month, day; proleptic Gregorian ordinals).
    - [models.Model.save] of the framework is an insert-or-update on the table
      of the model (module [Django]). *)

From Stdlib Require Import ZArith QArith Lqa Qround Qabs Qpower.
From Stdlib Require Import String List Bool Lia.
From stdpp Require Import base option gmap strings.
Import ListNotations.

(** * Python values, truthiness and exceptions *)

Module Py.

Inductive exn :=
| ValueError (msg : string)
| TypeError (msg : string)
| OverflowError (msg : string)
| InvalidOperation (msg : string).

(** Outcome of running a method from a state: a returned value or a
    raised exception, both with the state reached. *)
Inductive result (S A : Type) :=
| Ok (a : A) (s : S)
| Raise (e : exn) (s : S).
Arguments Ok {S A} a s.
Arguments Raise {S A} e s.

Definition M (S A : Type) : Type := S -> result S A.

Definition ret {S A} (a : A) : M S A := fun s => Ok a s.

Definition bind {S A B} (m : M S A) (k : A -> M S B) : M S B :=
  fun s => match m s with
           | Ok a s' => k a s'
           | Raise e s' => Raise e s'
           end.

Definition raise {S A} (e : exn) : M S A := fun s => Raise e s.
Definition get {S} : M S S := fun s => Ok s s.
Definition put {S} (s : S) : M S unit := fun _ => Ok tt s.

#[global] Instance M_ret {S} : MRet (M S) := fun A => @ret S A.
#[global] Instance M_bind {S} : MBind (M S) := fun A B k m => @bind S A B m k.

(** Outcome of a method that only reads. *)
Inductive outcome (A : Type) :=
| Return (a : A)
| Raises (e : exn).
Arguments Return {A} a.
Arguments Raises {A} e.

(** The state reached by a run, whatever its outcome. *)
Definition final {S A} (r : result S A) : S :=
  match r with Ok _ s => s | Raise _ s => s end.

(** Methods are run on the pair (instance, tables). *)
Definition self {O T} : M (O * T) O := fun s => Ok (fst s) s.
Definition set_self {O T} (o : O) : M (O * T) unit := fun s => Ok tt (o, snd s).
Definition tables {O T} : M (O * T) T := fun s => Ok (snd s) s.
Definition set_tables {O T} (t : T) : M (O * T) unit := fun s => Ok tt (fst s, t).

(** Run a method of [self] against a part of the tables. *)
Definition on_self {O T T' A} (proj : T -> T') (upd : T' -> T -> T)
    (m : M (O * T') A) : M (O * T) A :=
  fun s => match m (fst s, proj (snd s)) with
           | Ok a (o', t') => Ok a (o', upd t' (snd s))
           | Raise e (o', t') => Raise e (o', upd t' (snd s))
           end.

(** Run a method of another object [o] against a part of the tables
    (selected by [proj], written back by [upd]); the callee's instance
    is returned to the caller. *)
Definition call {O T O' T'} (proj : T -> T') (upd : T' -> T -> T)
    (o : O') (m : M (O' * T') unit) : M (O * T) O' :=
  fun s => match m (o, proj (snd s)) with
           | Ok _ (o', t') => Ok o' (fst s, upd t' (snd s))
           | Raise e (_, t') => Raise e (fst s, upd t' (snd s))
           end.

(** [bool(x)] for the values the methods test. *)
Definition str_truthy (s : string) : bool := negb (String.eqb s "").
Definition opt_truthy {A} (t : A -> bool) (o : option A) : bool :=
  match o with Some a => t a | None => false end.
Definition int_truthy (z : Z) : bool := negb (z =? 0)%Z.
Definition dec_truthy (q : Q) : bool := negb (Qeq_bool q 0).

(** [x or ""] on a nullable text field. *)
Definition or_empty (o : option string) : string :=
  match o with Some s => if str_truthy s then s else "" | None => "" end.

Definition nl : string := String (Ascii.ascii_of_nat 10) EmptyString.

(** Decimal comparisons. *)
Definition dec_le (a b : Q) : bool := Qle_bool a b.
Definition dec_lt (a b : Q) : bool := negb (Qle_bool b a).

(** Comparison of tuples of integers, as [(a, b, c) < (a', b', c')]. *)
Fixpoint tuple_ltb (a b : list Z) : bool :=
  match a, b with
  | [], [] => false
  | [], _ :: _ => true
  | _ :: _, [] => false
  | x :: a', y :: b' => (x <? y)%Z || ((x =? y)%Z && tuple_ltb a' b')
  end.

End Py.
Export Py.

(** * [datetime.date], [datetime.time] and [calendar.monthrange] *)

Module PyDate.
Local Open Scope Z_scope.

Record date := mkdate { year : Z; month : Z; day : Z }.

Definition MINYEAR : Z := 1.
Definition MAXYEAR : Z := 9999.
Definition _MAXORDINAL : Z := 3652059.

Definition _DAYS_IN_MONTH : list Z :=
  [-1; 31; 28; 31; 30; 31; 30; 31; 31; 30; 31; 30; 31].
Definition _DAYS_BEFORE_MONTH : list Z :=
  [-1; 0; 31; 59; 90; 120; 151; 181; 212; 243; 273; 304; 334].

Definition index (l : list Z) (i : Z) : Z := nth (Z.to_nat i) l 0.

Definition _is_leap (y : Z) : bool :=
  (y mod 4 =? 0) && (negb (y mod 100 =? 0) || (y mod 400 =? 0)).

Definition _days_before_year (y : Z) : Z :=
  let y := y - 1 in y * 365 + y / 4 - y / 100 + y / 400.

Definition _days_in_month (y m : Z) : Z :=
  if (m =? 2) && _is_leap y then 29 else index _DAYS_IN_MONTH m.

Definition _days_before_month (y m : Z) : Z :=
  index _DAYS_BEFORE_MONTH m + (if (m >? 2) && _is_leap y then 1 else 0).

Definition _ymd2ord (y m d : Z) : Z :=
  _days_before_year y + _days_before_month y m + d.

Definition _DI400Y : Z := 146097.
Definition _DI100Y : Z := 36524.
Definition _DI4Y : Z := 1461.

Definition _ord2ymd (n : Z) : Z * Z * Z :=
  let n := n - 1 in
  let n400 := n / _DI400Y in
  let n := n mod _DI400Y in
  let y := n400 * 400 + 1 in
  let n100 := n / _DI100Y in
  let n := n mod _DI100Y in
  let n4 := n / _DI4Y in
  let n := n mod _DI4Y in
  let n1 := n / 365 in
  let n := n mod 365 in
  let y := y + n100 * 100 + n4 * 4 + n1 in
  if (n1 =? 4) || (n100 =? 4) then (y - 1, 12, 31)
  else
    let leapyear := (n1 =? 3) && (negb (n4 =? 24) || (n100 =? 3)) in
    let m := Z.shiftr (n + 50) 5 in
    let preceding :=
      index _DAYS_BEFORE_MONTH m + (if (m >? 2) && leapyear then 1 else 0) in
    if preceding >? n then
      let m := m - 1 in
      let preceding :=
        preceding
        - (index _DAYS_IN_MONTH m + (if (m =? 2) && leapyear then 1 else 0)) in
      (y, m, n - preceding + 1)
    else (y, m, n - preceding + 1).

(** [_check_date_fields]: the constructor accepts exactly these. *)
Definition _check_date_fields (y m d : Z) : bool :=
  (MINYEAR <=? y) && (y <=? MAXYEAR) && (1 <=? m) && (m <=? 12)
  && (1 <=? d) && (d <=? _days_in_month y m).

(** [datetime.date(y, m, d)]; [None] stands for the [ValueError]. *)
Definition new (y m d : Z) : option date :=
  if _check_date_fields y m d then Some (mkdate y m d) else None.

Definition valid (d : date) : Prop :=
  _check_date_fields (year d) (month d) (day d) = true.

Definition toordinal (d : date) : Z := _ymd2ord (year d) (month d) (day d).

Definition fromordinal (n : Z) : date :=
  let '(y, m, d) := _ord2ymd n in mkdate y m d.

Definition weekday (d : date) : Z := (toordinal d + 6) mod 7.

(** [d + timedelta(days=k)]; [None] stands for the [OverflowError]. *)
Definition add_days (d : date) (k : Z) : option date :=
  let o := toordinal d + k in
  if (0 <? o) && (o <=? _MAXORDINAL) then Some (fromordinal o) else None.

(** [(d1 - d2).days] *)
Definition sub_days (d1 d2 : date) : Z := toordinal d1 - toordinal d2.

Definition ltb (a b : date) : bool :=
  tuple_ltb [year a; month a; day a] [year b; month b; day b].
Definition leb (a b : date) : bool := negb (ltb b a).
Definition eqb (a b : date) : bool :=
  (year a =? year b) && (month a =? month b) && (day a =? day b).

(** [calendar.monthrange(y, m)[1]] for a month in 1..12. *)
Definition monthrange_ndays (y m : Z) : Z :=
  index _DAYS_IN_MONTH m + (if (m =? 2) && _is_leap y then 1 else 0).

(** [datetime.time] without time zone, compared as the tuple
    (hour, minute, second, microsecond). *)
Record time := mktime { hour : Z; minute : Z; second : Z; microsecond : Z }.

Definition time_ltb (a b : time) : bool :=
  tuple_ltb [hour a; minute a; second a; microsecond a]
            [hour b; minute b; second b; microsecond b].
Definition time_leb (a b : time) : bool := negb (time_ltb b a).

Record datetime := mkdatetime { dt_date : date; dt_time : time }.

(** Values kept in the [_initial_values] dictionaries of the models. *)
Inductive pyval :=
| VStr (s : string)
| VDate (d : date)
| VTime (t : time).

End PyDate.
Export PyDate.

(** * [decimal.Decimal] and the [DecimalField] columns *)

Module Decimal.

(** A numeric attribute of an instance: a [Decimal], as a column loaded
    from the database or a value given by the caller, or a [float], as
    the default [0.0] of a field.  Both carry the number they denote. *)
Inductive numero :=
| Dec (q : Q)
| Float (f : Q).

Definition pow10 (k : Z) : Q := Qpower 10 k.

(** Rounding to the nearest integer, ties to the even one
    ([ROUND_HALF_EVEN], the rounding of the default context). *)
Definition redondeo_par (q : Q) : Z :=
  let f := Qfloor q in
  match (q - inject_Z f ?= 1 # 2)%Q with
  | Lt => f
  | Gt => (f + 1)%Z
  | Eq => if Z.even f then f else (f + 1)%Z
  end.

(** The number [q.quantize(Decimal(1).scaleb(-decimal_places))] denotes. *)
Definition cuantizar (decimal_places : Z) (q : Q) : Q :=
  Qred (inject_Z (redondeo_par (q * pow10 decimal_places))
        * pow10 (- decimal_places)).

(** Number of decimal digits of a positive integer. *)
Fixpoint digitos_desde (fuel : nat) (z : Z) : Z :=
  match fuel with
  | O => 1
  | S f => if (z <? 10)%Z then 1 else (1 + digitos_desde f (z / 10))%Z
  end.

Definition digitos (z : Z) : Z := digitos_desde (Z.to_nat (Z.log2 z)) z.

(** [q.adjusted()] of a number other than zero: the exponent of its
    first significant digit. *)
Definition exponente (q : Q) : Z :=
  let e := (digitos (Z.abs (Qnum q)) - digitos (Zpos (Qden q)))%Z in
  if Qle_bool (pow10 e) (Qabs q) then e else (e - 1)%Z.

(** The default context: 28 significant digits. *)
Definition prec : Z := 28.

(** The rounding every arithmetic operation applies to its exact
    result. *)
Definition redondear (q : Q) : Q :=
  if Qeq_bool q 0 then q else cuantizar (prec - 1 - exponente q) q.

Definition add (a b : Q) : Q := redondear (a + b).
Definition sub (a b : Q) : Q := redondear (a - b).
Definition mul (a b : Q) : Q := redondear (a * b).
(** Division by a number other than zero. *)
Definition div (a b : Q) : Q := redondear (a / b).

(** [django.db.backends.utils.format_number]: the value
    [DecimalField.get_db_prep_save] hands to the database through
    [BaseDatabaseOperations.adapt_decimalfield_value].  The number is
    quantized to the decimal places of the column in a context whose
    precision is [max_digits]; a coefficient of more digits signals
    [InvalidOperation]. *)
Definition format_number (max_digits decimal_places : Z) (q : Q) : outcome Q :=
  let coeficiente := redondeo_par (q * pow10 decimal_places) in
  if (10 ^ max_digits <=? Z.abs coeficiente)%Z
  then Raises
         (InvalidOperation "[<class 'decimal.InvalidOperation'>]")
  else Return (cuantizar decimal_places q).

(** The numbers a column holds: at most [decimal_places] decimals and
    [max_digits] digits. *)
Definition cabe (max_digits decimal_places : Z) (q : Q) : bool :=
  let s := (q * pow10 decimal_places)%Q in
  Qeq_bool (inject_Z (Qfloor s)) s
  && (Z.abs (Qfloor s) <? 10 ^ max_digits)%Z.

Definition en_columna (max_digits decimal_places : Z) (q : Q) : Prop :=
  cabe max_digits decimal_places q = true.

End Decimal.

#[global] Arguments Decimal.redondear : simpl never.
#[global] Arguments Decimal.cuantizar : simpl never.
#[global] Arguments Decimal.format_number : simpl never.
#[global] Arguments Decimal.cabe : simpl never.

(** * The part of the framework the models rely on *)

Module Django.

(** What [models.Model] gives every model: a primary key, unset until
    the first save. *)
Class Model (R : Type) := {
  pk : R -> option nat;
  with_pk : nat -> R -> R
}.

Section Table.
Context {R : Type} `{Model R}.

Definition has_pk (k : nat) (r : R) : bool :=
  match pk r with Some k' => Nat.eqb k k' | None => false end.

(** The next value of the auto-increment key. *)
Definition next_pk (tbl : list R) : nat :=
  S (fold_right Nat.max 0%nat (omap pk tbl)).

(** [objects.get(id=k)]; [None] stands for [DoesNotExist]. *)
Definition objects_get (k : option nat) (tbl : list R) : option R :=
  match k with
  | Some k => find (has_pk k) tbl
  | None => None
  end.

(** [super().save()]: update the row with the instance's key, insert
    when there is none.  The row is the instance as it is: for a model
    with [DecimalField] columns that is the row of the database when the
    numbers of the instance fit the columns ([Decimal.en_columna]);
    [super_save_decimal] below adapts them. *)
Definition super_save : M (R * list R) unit :=
  fun s =>
    let '(o, tbl) := s in
    match pk o with
    | Some k =>
        if existsb (has_pk k) tbl
        then Ok tt (o, map (fun r => if has_pk k r then o else r) tbl)
        else Ok tt (o, tbl ++ [o])
    | None =>
        let o' := with_pk (next_pk tbl) o in
        Ok tt (o', tbl ++ [o'])
    end.

(** [super().save()] of a model whose [DecimalField] columns are adapted
    on the way to the database: [prep] is [get_db_prep_save] on those
    columns.  The row written holds the adapted values and the instance
    keeps its own; an exception of the adaptation leaves the table as it
    was. *)
Definition super_save_decimal (prep : R -> outcome R) : M (R * list R) unit :=
  fun s =>
    let '(o, tbl) := s in
    match prep o with
    | Raises e => Raise e (o, tbl)
    | Return row =>
        match pk o with
        | Some k =>
            if existsb (has_pk k) tbl
            then Ok tt (o, map (fun r => if has_pk k r then row else r) tbl)
            else Ok tt (o, tbl ++ [row])
        | None =>
            let k := next_pk tbl in
            Ok tt (with_pk k o, tbl ++ [with_pk k row])
        end
    end.
End Table.

#[global] Arguments super_save : simpl never.
#[global] Arguments super_save_decimal : simpl never.

End Django.

(** * finanzas.py *)

Module IngresoGasto.

Record t := mk {
  pk : option nat;
  fecha : option date;
  tipo : string;
  categoria : string;
  descripcion : string;
  monto : Q;
  proveedor : option nat;
  pago : option nat;
  estado : string
}.

Definition set_pk (k : nat) (x : t) : t :=
  mk (Some k) (fecha x) (tipo x) (categoria x) (descripcion x) (monto x)
     (proveedor x) (pago x) (estado x).
Definition set_monto (q : Q) (x : t) : t :=
  mk (pk x) (fecha x) (tipo x) (categoria x) (descripcion x) q
     (proveedor x) (pago x) (estado x).
Definition set_estado (e : string) (x : t) : t :=
  mk (pk x) (fecha x) (tipo x) (categoria x) (descripcion x) (monto x)
     (proveedor x) (pago x) e.
Definition set_descripcion (d : string) (x : t) : t :=
  mk (pk x) (fecha x) (tipo x) (categoria x) d (monto x)
     (proveedor x) (pago x) (estado x).

#[global] Instance model : Django.Model t :=
  {| Django.pk := pk; Django.with_pk := set_pk |}.

(** The ledger: the table of the model. *)
Abbreviation table := (list t).

Definition save : M (t * table) unit :=
  x ← self;
  if dec_le (monto x) 0 then
    raise (ValueError "El monto debe ser positivo")
  else
    (if String.eqb (tipo x) "gasto" && dec_lt 0 (monto x)
     then set_self (set_monto (- monto x) x)
     else mret tt);;
    Django.super_save.

#[global] Arguments save : simpl never.

(** What the column [monto], [DecimalField(max_digits=12,
    decimal_places=2)], holds of a row that [super().save()] writes. *)
Definition get_db_prep_save (x : t) : outcome t :=
  match Decimal.format_number 12 2 (monto x) with
  | Return m => Return (set_monto m x)
  | Raises e => Raises e
  end.

(** [IngresoGasto.objects.create(...)], run on the ledger alone. *)
Definition objects_create (x : t) : M table t :=
  fun tbl => match save (x, tbl) with
             | Ok _ (x', tbl') => Ok x' tbl'
             | Raise e (_, tbl') => Raise e tbl'
             end.

Definition anular (motivo : option string) : M (t * table) bool :=
  x ← self;
  if String.eqb (estado x) "anulado" then mret false
  else
    set_self (set_estado "anulado" x);;
    (if opt_truthy str_truthy motivo then
       x ← self;
       set_self
         (set_descripcion
            (descripcion x ++ nl ++ "[ANULADO] " ++ default "" motivo) x)
     else mret tt);;
    save;;
    mret true.

End IngresoGasto.

Module MovimientoFondo.

Record t := mk {
  pk : option nat;
  fondo : option nat;
  tipo : string;
  monto : Q;
  descripcion : string
}.

Definition set_pk (k : nat) (x : t) : t :=
  mk (Some k) (fondo x) (tipo x) (monto x) (descripcion x).

#[global] Instance model : Django.Model t :=
  {| Django.pk := pk; Django.with_pk := set_pk |}.

(** The row of an instance: [monto] is [DecimalField(max_digits=12,
    decimal_places=2)]. *)
Definition get_db_prep_save (x : t) : outcome t :=
  match Decimal.format_number 12 2 (monto x) with
  | Return m => Return (mk (pk x) (fondo x) (tipo x) m (descripcion x))
  | Raises e => Raises e
  end.

(** [MovimientoFondo.objects.create(...)]: the model has no [save] of
    its own. *)
Definition objects_create (x : t) : M (list t) t :=
  fun tbl => match Django.super_save_decimal get_db_prep_save (x, tbl) with
             | Ok _ (x', tbl') => Ok x' tbl'
             | Raise e (_, tbl') => Raise e tbl'
             end.

End MovimientoFondo.

Module FondoReserva.

Record t := mk {
  pk : option nat;
  nombre : string;
  monto_objetivo : Q;
  monto_actual : Q;
  estado : string;
  porcentaje_cuota : Q
}.

Definition set_pk (k : nat) (x : t) : t :=
  mk (Some k) (nombre x) (monto_objetivo x) (monto_actual x) (estado x)
     (porcentaje_cuota x).
Definition set_monto_actual (q : Q) (x : t) : t :=
  mk (pk x) (nombre x) (monto_objetivo x) q (estado x) (porcentaje_cuota x).

#[global] Instance model : Django.Model t :=
  {| Django.pk := pk; Django.with_pk := set_pk |}.

(** The tables the fund methods write. *)
Record db := mkdb {
  fondos : list t;
  movimientos : list MovimientoFondo.t
}.
Definition set_fondos (f : list t) (d : db) : db := mkdb f (movimientos d).
Definition set_movimientos (m : list MovimientoFondo.t) (d : db) : db :=
  mkdb (fondos d) m.

(** The row of an instance: [monto_objetivo] and [monto_actual] are
    [DecimalField(max_digits=12, decimal_places=2)], [porcentaje_cuota]
    is [DecimalField(max_digits=5, decimal_places=2)]; the columns are
    adapted in the order of the fields. *)
Definition get_db_prep_save (x : t) : outcome t :=
  match Decimal.format_number 12 2 (monto_objetivo x) with
  | Raises e => Raises e
  | Return objetivo =>
      match Decimal.format_number 12 2 (monto_actual x) with
      | Raises e => Raises e
      | Return actual =>
          match Decimal.format_number 5 2 (porcentaje_cuota x) with
          | Raises e => Raises e
          | Return porcentaje =>
              Return (mk (pk x) (nombre x) objetivo actual (estado x) porcentaje)
          end
      end
  end.

(** [self.save()]: the model has no [save] of its own. *)
Definition save : M (t * db) unit :=
  on_self fondos set_fondos (Django.super_save_decimal get_db_prep_save).

(** [self.monto_actual += monto] and [self.monto_actual -= monto] are
    the addition and the subtraction of [Decimal]. *)
Definition registrar_aporte (monto : Q) (descripcion : option string)
  : M (t * db) MovimientoFondo.t :=
  if dec_le monto 0 then raise (ValueError "El monto debe ser positivo")
  else
    x ← self;
    set_self (set_monto_actual (Decimal.add (monto_actual x) monto) x);;
    save;;
    x ← self;
    d ← tables;
    match MovimientoFondo.objects_create
            (MovimientoFondo.mk None (pk x) "ingreso" monto
               (if opt_truthy str_truthy descripcion
                then default "" descripcion
                else "Aporte al fondo " ++ nombre x))
            (movimientos d) with
    | Ok mv tbl => set_tables (set_movimientos tbl d);; mret mv
    | Raise e tbl => set_tables (set_movimientos tbl d);; raise e
    end.

Definition registrar_uso (monto : Q) (descripcion : string)
  : M (t * db) MovimientoFondo.t :=
  if dec_le monto 0 then raise (ValueError "El monto debe ser positivo")
  else
    x ← self;
    if dec_lt (monto_actual x) monto then
      raise (ValueError "No hay suficiente dinero en el fondo")
    else
      set_self (set_monto_actual (Decimal.sub (monto_actual x) monto) x);;
      save;;
      x ← self;
      d ← tables;
      match MovimientoFondo.objects_create
              (MovimientoFondo.mk None (pk x) "gasto" monto descripcion)
              (movimientos d) with
      | Ok mv tbl => set_tables (set_movimientos tbl d);; mret mv
      | Raise e tbl => set_tables (set_movimientos tbl d);; raise e
      end.

End FondoReserva.

(** * vivienda.py and administracion.py *)

Module ViviendaRow.

Record t := mk {
  pk : option nat;
  manzana : string;
  numero : string;
  coeficiente_propiedad : Q
}.

End ViviendaRow.

Module CuotaAdministracion.

Record t := mk {
  pk : option nat;
  año : Z;
  mes : Z;
  valor_base : Q;
  fecha_vencimiento : date;
  (** [DecimalField(max_digits=5, decimal_places=2, default=0.0)]: an
      instance built without the field holds the float [0.0]. *)
  recargo_mora : Decimal.numero
}.

(** The default of [recargo_mora]. *)
Definition recargo_mora_default : Decimal.numero := Decimal.Float 0.

(** [get_nombre_mes] is a static method with one required parameter. *)
Definition get_nombre_mes (mes : Z) : string :=
  let meses :=
    ["Enero"; "Febrero"; "Marzo"; "Abril"; "Mayo"; "Junio"; "Julio";
     "Agosto"; "Septiembre"; "Octubre"; "Noviembre"; "Diciembre"] in
  let mes := Z.max 1 (Z.min mes 12) in
  nth (Z.to_nat (mes - 1)) meses "".

(** [__str__] formats [self.get_nombre_mes()] first: the static method
    is called without its parameter, which raises before any text is
    produced. *)
Definition __str__ (x : t) : outcome string :=
  Raises
    (TypeError "get_nombre_mes() missing 1 required positional argument: 'mes'").

(** [timezone.now().date()] is the parameter [hoy]. *)
Definition esta_vencida (x : t) (hoy : date) : bool :=
  PyDate.ltb (fecha_vencimiento x) hoy.

Definition calcular_valor_vivienda (x : t) (vivienda : ViviendaRow.t) : Q :=
  Decimal.mul (valor_base x) (ViviendaRow.coeficiente_propiedad vivienda).

(** [self.recargo_mora / 100] is a [Decimal] for a [Decimal] and a float
    for a float; the product of the [Decimal] [valor_base] and a float
    is a [TypeError]. *)
Definition calcular_valor_con_mora (x : t) (vivienda : ViviendaRow.t)
    (hoy : date) : outcome Q :=
  let valor_base := calcular_valor_vivienda x vivienda in
  if esta_vencida x hoy then
    match recargo_mora x with
    | Decimal.Dec recargo_mora =>
        let recargo := Decimal.mul valor_base (Decimal.div recargo_mora 100) in
        Return (Decimal.add valor_base recargo)
    | Decimal.Float _ =>
        Raises
          (TypeError
             "unsupported operand type(s) for *: 'decimal.Decimal' and 'float'")
    end
  else Return valor_base.

End CuotaAdministracion.

Module Vivienda.
Include ViviendaRow.

Definition __str__ (x : t) : string :=
  "Casa " ++ manzana x ++ "-" ++ numero x.

Definition calcular_valor_cuota (x : t) (cuota : CuotaAdministracion.t) : Q :=
  Decimal.mul (CuotaAdministracion.valor_base cuota) (coeficiente_propiedad x).

End Vivienda.

Module PagoAdministracion.

Record t := mk {
  pk : option nat;
  vivienda : Vivienda.t;
  cuota : CuotaAdministracion.t;
  fecha_pago : date;
  monto_pagado : Q;
  estado : string;
  observaciones : option string;
  (** The attribute is absent ([None]) until [save] assigns it. *)
  _initial_values : option (gmap string pyval)
}.

Definition set_pk (k : nat) (x : t) : t :=
  mk (Some k) (vivienda x) (cuota x) (fecha_pago x) (monto_pagado x)
     (estado x) (observaciones x) (_initial_values x).
Definition set_monto_pagado (q : Q) (x : t) : t :=
  mk (pk x) (vivienda x) (cuota x) (fecha_pago x) q
     (estado x) (observaciones x) (_initial_values x).
Definition set_estado (e : string) (x : t) : t :=
  mk (pk x) (vivienda x) (cuota x) (fecha_pago x) (monto_pagado x)
     e (observaciones x) (_initial_values x).
Definition set__initial_values (v : gmap string pyval) (x : t) : t :=
  mk (pk x) (vivienda x) (cuota x) (fecha_pago x) (monto_pagado x)
     (estado x) (observaciones x) (Some v).

#[global] Instance model : Django.Model t :=
  {| Django.pk := pk; Django.with_pk := set_pk |}.

Record db := mkdb {
  pagos : list t;
  ingresos : IngresoGasto.table
}.
Definition set_pagos (p : list t) (d : db) : db := mkdb p (ingresos d).
Definition set_ingresos (i : IngresoGasto.table) (d : db) : db :=
  mkdb (pagos d) i.

(** A row fetched from the table is a fresh instance: the attributes
    that are not columns are absent. *)
Definition from_db (row : t) : t :=
  mk (pk row) (vivienda row) (cuota row) (fecha_pago row) (monto_pagado row)
     (estado row) (observaciones row) None.

(** [not self.pk] *)
Definition pk_truthy (k : option nat) : bool :=
  match k with Some (S _) => true | _ => false end.

(** [self._initial_values.get("estado") == "confirmado"], false when the
    attribute is absent. *)
Definition initially_confirmado (x : t) : bool :=
  match _initial_values x with
  | Some d =>
      match d !! "estado" with
      | Some (VStr e) => String.eqb e "confirmado"
      | _ => false
      end
  | None => false
  end.

Definition hasattr__initial_values (x : t) : bool :=
  match _initial_values x with Some _ => true | None => false end.

Definition _registrar_ingreso : M (t * db) unit :=
  x ← self;
  match CuotaAdministracion.__str__ (cuota x) with
  | Raises e => raise e
  | Return cuota_str =>
      d ← tables;
      match IngresoGasto.objects_create
              (IngresoGasto.mk None (Some (fecha_pago x)) "ingreso"
                 "cuota_administracion"
                 ("Pago de cuota de administración - "
                  ++ Vivienda.__str__ (vivienda x) ++ " - " ++ cuota_str)
                 (monto_pagado x) None (pk x) "registrado")
              (ingresos d) with
      | Ok _ tbl => set_tables (set_ingresos tbl d)
      | Raise e tbl => set_tables (set_ingresos tbl d);; raise e
      end
  end.

(** The loop of [_anular_ingreso] over the rows selected beforehand. *)
Fixpoint anular_cada (rows : list IngresoGasto.t) : M IngresoGasto.table unit :=
  match rows with
  | [] => mret tt
  | ingreso :: rest =>
      fun tbl =>
        match IngresoGasto.save (IngresoGasto.set_estado "anulado" ingreso, tbl) with
        | Ok _ (_, tbl') => anular_cada rest tbl'
        | Raise e (_, tbl') => Raise e tbl'
        end
  end.

Definition _anular_ingreso : M (t * db) unit :=
  x ← self;
  d ← tables;
  let ingresos_ :=
    filter (fun i => bool_decide (IngresoGasto.pago i = pk x)
                     && String.eqb (IngresoGasto.tipo i) "ingreso")
           (ingresos d) in
  match anular_cada ingresos_ (ingresos d) with
  | Ok _ tbl => set_tables (set_ingresos tbl d)
  | Raise e tbl => set_tables (set_ingresos tbl d);; raise e
  end.

Definition save : M (t * db) unit :=
  x ← self;
  (if negb (pk_truthy (pk x)) && negb (dec_truthy (monto_pagado x)) then
     set_self
       (set_monto_pagado
          (CuotaAdministracion.calcular_valor_vivienda (cuota x) (vivienda x)) x)
   else mret tt);;
  x ← self;
  (if String.eqb (estado x) "confirmado"
      && (negb (hasattr__initial_values x) || negb (initially_confirmado x))
   then _registrar_ingreso else mret tt);;
  x ← self;
  (if hasattr__initial_values x && initially_confirmado x
      && String.eqb (estado x) "rechazado"
   then _anular_ingreso else mret tt);;
  x ← self;
  d ← tables;
  set_self
    (set__initial_values
       (match Django.objects_get (pk x) (pagos d) with
        | Some row => {[ "estado" := VStr (estado row) ]}
        | None => ∅
        end) x);;
  on_self pagos set_pagos Django.super_save.

End PagoAdministracion.

(** * area_comun.py and reserva.py *)

(** The fragment of the query language used by the availability check:
    [models.Q(column__lookup=value, ...)], [|] and [models.F(column)]. *)
Module Query.

Inductive rhs :=
| Val (v : time)
| F (column : string).

Inductive lookup := lt | gt | lte | gte.

Record kw := mkkw { column : string; op : lookup; arg : rhs }.

Inductive q :=
| Q_ (kws : list kw)
| Or (a b : q).

Section Eval.
Context {R : Type} (col : string -> R -> option time).

Definition eval_rhs (a : rhs) (r : R) : option time :=
  match a with
  | Val v => Some v
  | F c => col c r
  end.

Definition cmp (o : lookup) (a b : time) : bool :=
  match o with
  | lt => time_ltb a b
  | gt => time_ltb b a
  | lte => time_leb a b
  | gte => time_leb b a
  end.

(** One keyword: the row's column compared with the right-hand side,
    itself evaluated on the same row when it is an [F]. *)
Definition eval_kw (k : kw) (r : R) : bool :=
  match col (column k) r, eval_rhs (arg k) r with
  | Some a, Some b => cmp (op k) a b
  | _, _ => false
  end.

Fixpoint eval (e : q) (r : R) : bool :=
  match e with
  | Q_ kws => forallb (fun k => eval_kw k r) kws
  | Or a b => eval a r || eval b r
  end.
End Eval.

End Query.

Module AreaComunRow.

Record t := mk {
  pk : option nat;
  nombre : string;
  requiere_reserva : bool;
  horario_apertura : option time;
  horario_cierre : option time;
  esta_activa : bool;
  tarifa : Q
}.

End AreaComunRow.

Module Reserva.

Record t := mk {
  pk : option nat;
  area : AreaComunRow.t;
  propietario : nat;
  fecha_reserva : date;
  hora_inicio : time;
  hora_fin : time;
  estado : string;
  observaciones : option string;
  fecha_confirmacion : option datetime;
  confirmada_por : option nat;
  costo : Q;
  pagada : bool;
  _initial_values : option (gmap string pyval)
}.

Definition set_pk (k : nat) (x : t) : t :=
  mk (Some k) (area x) (propietario x) (fecha_reserva x) (hora_inicio x)
     (hora_fin x) (estado x) (observaciones x) (fecha_confirmacion x)
     (confirmada_por x) (costo x) (pagada x) (_initial_values x).
Definition set_estado (e : string) (x : t) : t :=
  mk (pk x) (area x) (propietario x) (fecha_reserva x) (hora_inicio x)
     (hora_fin x) e (observaciones x) (fecha_confirmacion x)
     (confirmada_por x) (costo x) (pagada x) (_initial_values x).
Definition set_observaciones (o : string) (x : t) : t :=
  mk (pk x) (area x) (propietario x) (fecha_reserva x) (hora_inicio x)
     (hora_fin x) (estado x) (Some o) (fecha_confirmacion x)
     (confirmada_por x) (costo x) (pagada x) (_initial_values x).
Definition set_fecha_confirmacion (d : datetime) (x : t) : t :=
  mk (pk x) (area x) (propietario x) (fecha_reserva x) (hora_inicio x)
     (hora_fin x) (estado x) (observaciones x) (Some d)
     (confirmada_por x) (costo x) (pagada x) (_initial_values x).
Definition set_confirmada_por (e : nat) (x : t) : t :=
  mk (pk x) (area x) (propietario x) (fecha_reserva x) (hora_inicio x)
     (hora_fin x) (estado x) (observaciones x) (fecha_confirmacion x)
     (Some e) (costo x) (pagada x) (_initial_values x).
Definition set_costo (c : Q) (x : t) : t :=
  mk (pk x) (area x) (propietario x) (fecha_reserva x) (hora_inicio x)
     (hora_fin x) (estado x) (observaciones x) (fecha_confirmacion x)
     (confirmada_por x) c (pagada x) (_initial_values x).
Definition set__initial_values (v : gmap string pyval) (x : t) : t :=
  mk (pk x) (area x) (propietario x) (fecha_reserva x) (hora_inicio x)
     (hora_fin x) (estado x) (observaciones x) (fecha_confirmacion x)
     (confirmada_por x) (costo x) (pagada x) (Some v).

#[global] Instance model : Django.Model t :=
  {| Django.pk := pk; Django.with_pk := set_pk |}.

(** The time columns a query can name. *)
Definition column (c : string) (r : t) : option time :=
  if String.eqb c "hora_inicio" then Some (hora_inicio r)
  else if String.eqb c "hora_fin" then Some (hora_fin r)
  else None.

(** [timezone.now()] is the parameter [ahora]. *)
Definition save (ahora : datetime) : M (t * list t) unit :=
  x ← self;
  tbl ← tables;
  set_self
    (set__initial_values
       (match Django.objects_get (pk x) tbl with
        | Some row =>
            {[ "fecha_reserva" := VDate (fecha_reserva row);
               "hora_inicio" := VTime (hora_inicio row);
               "hora_fin" := VTime (hora_fin row) ]}
        | None => ∅
        end) x);;
  x ← self;
  (if String.eqb (estado x) "confirmada"
      && negb (opt_truthy (fun _ => true) (fecha_confirmacion x))
   then set_self (set_fecha_confirmacion ahora x) else mret tt);;
  x ← self;
  (if dec_lt 0 (AreaComunRow.tarifa (area x)) && Qeq_bool (costo x) 0
   then set_self (set_costo (AreaComunRow.tarifa (area x)) x) else mret tt);;
  Django.super_save.

Definition cancelar (ahora : datetime) (observacion : option string)
  : M (t * list t) bool :=
  x ← self;
  if negb (existsb (String.eqb (estado x)) ["pendiente"; "confirmada"])
  then mret false
  else
    set_self (set_estado "cancelada" x);;
    (if opt_truthy str_truthy observacion then
       x ← self;
       set_self
         (set_observaciones
            (or_empty (observaciones x) ++ nl ++ "[Cancelación] "
             ++ default "" observacion) x)
     else mret tt);;
    save ahora;;
    mret true.

Definition confirmar (ahora : datetime) (empleado : nat)
    (observacion : option string) : M (t * list t) bool :=
  x ← self;
  if negb (String.eqb (estado x) "pendiente") then mret false
  else
    set_self
      (set_fecha_confirmacion ahora
         (set_confirmada_por empleado (set_estado "confirmada" x)));;
    (if opt_truthy str_truthy observacion then
       x ← self;
       set_self
         (set_observaciones
            (or_empty (observaciones x) ++ nl ++ "[Confirmación] "
             ++ default "" observacion) x)
     else mret tt);;
    save ahora;;
    mret true.

Definition marcar_completada (ahora : datetime) : M (t * list t) bool :=
  x ← self;
  if negb (String.eqb (estado x) "confirmada") then mret false
  else
    set_self (set_estado "completada" x);;
    save ahora;;
    mret true.

Definition marcar_no_asistio (ahora : datetime) : M (t * list t) bool :=
  x ← self;
  if negb (String.eqb (estado x) "confirmada") then mret false
  else
    set_self (set_estado "no_asistio" x);;
    save ahora;;
    mret true.

End Reserva.

Module AreaComun.
Include AreaComunRow.

Import Query.

(** The three alternatives of the collision filter, as written. *)
Definition colision (hora_inicio hora_fin : time) : Query.q :=
  Or (Or
    (Q_ [mkkw "hora_inicio" lt (Val hora_fin);
         mkkw "hora_fin" gt (Val hora_inicio)])
    (Q_ [mkkw "hora_inicio" lt (Val hora_fin);
         mkkw "hora_fin" gt (Val hora_inicio)]))
    (Q_ [mkkw "hora_inicio" lte (F "hora_inicio");
         mkkw "hora_fin" gte (F "hora_fin")]).

(** [self.reservas]: the rows of the reservation table that point to
    this area. *)
Definition reservas (x : t) (tbl : list Reserva.t) : list Reserva.t :=
  filter (fun r => bool_decide (pk (Reserva.area r) = pk x)) tbl.

Definition esta_disponible (x : t) (tbl : list Reserva.t)
    (fecha : date) (hora_inicio hora_fin : time) : bool :=
  if negb (requiere_reserva x) || negb (esta_activa x) then false
  else if
    match horario_apertura x with
    | Some a => time_ltb hora_inicio a
    | None => false
    end
    || match horario_cierre x with
       | Some c => time_ltb c hora_fin
       | None => false
       end
  then false
  else
    let colisiones :=
      existsb
        (fun r => Query.eval Reserva.column (colision hora_inicio hora_fin) r)
        (filter
           (fun r => PyDate.eqb (Reserva.fecha_reserva r) fecha
                     && String.eqb (Reserva.estado r) "confirmada")
           (reservas x tbl)) in
    negb colisiones.

End AreaComun.

(** * incidencia.py *)

Module Incidencia.

Record t := mk {
  pk : option nat;
  titulo : string;
  estado : string;
  fecha_cierre : option datetime
}.

Definition set_pk (k : nat) (x : t) : t :=
  mk (Some k) (titulo x) (estado x) (fecha_cierre x).
Definition set_estado (e : string) (x : t) : t :=
  mk (pk x) (titulo x) e (fecha_cierre x).
Definition set_fecha_cierre (d : option datetime) (x : t) : t :=
  mk (pk x) (titulo x) (estado x) d.

#[global] Instance model : Django.Model t :=
  {| Django.pk := pk; Django.with_pk := set_pk |}.

Definition cerrada (x : t) : bool :=
  existsb (String.eqb (estado x)) ["resuelta"; "cancelada"].

Definition save (ahora : datetime) : M (t * list t) unit :=
  x ← self;
  (if cerrada x && negb (opt_truthy (fun _ => true) (fecha_cierre x))
   then set_self (set_fecha_cierre (Some ahora) x) else mret tt);;
  x ← self;
  (if negb (cerrada x) && opt_truthy (fun _ => true) (fecha_cierre x)
   then set_self (set_fecha_cierre None x) else mret tt);;
  Django.super_save.

#[global] Arguments save : simpl never.

End Incidencia.

Module SeguimientoIncidencia.

Record t := mk {
  pk : option nat;
  incidencia : nat;
  empleado : nat;
  comentario : string;
  estado_actual : string;
  visible_para_propietario : bool
}.

(** The method is written against whatever the process can reach: the
    tables, a mail queue, any other store [T]. *)
Definition notificar_propietario {T : Type} : M (t * T) bool :=
  x ← self;
  if negb (visible_para_propietario x) then mret false
  else mret true.

End SeguimientoIncidencia.

(** * mantenimiento.py *)

Module Mantenimiento.

Record t := mk {
  pk : option nat;
  incidencia : option Incidencia.t;
  proveedor : option nat;
  titulo : string;
  fecha_programada : date;
  fecha_inicio : option date;
  fecha_finalizacion : option date;
  costo_final : option Q;
  estado : string;
  observaciones : option string
}.

Definition set_pk (k : nat) (x : t) : t :=
  mk (Some k) (incidencia x) (proveedor x) (titulo x) (fecha_programada x)
     (fecha_inicio x) (fecha_finalizacion x) (costo_final x) (estado x)
     (observaciones x).
Definition set_incidencia (i : Incidencia.t) (x : t) : t :=
  mk (pk x) (Some i) (proveedor x) (titulo x) (fecha_programada x)
     (fecha_inicio x) (fecha_finalizacion x) (costo_final x) (estado x)
     (observaciones x).
Definition set_fecha_inicio (d : date) (x : t) : t :=
  mk (pk x) (incidencia x) (proveedor x) (titulo x) (fecha_programada x)
     (Some d) (fecha_finalizacion x) (costo_final x) (estado x)
     (observaciones x).
Definition set_fecha_finalizacion (d : date) (x : t) : t :=
  mk (pk x) (incidencia x) (proveedor x) (titulo x) (fecha_programada x)
     (fecha_inicio x) (Some d) (costo_final x) (estado x)
     (observaciones x).
Definition set_estado (e : string) (x : t) : t :=
  mk (pk x) (incidencia x) (proveedor x) (titulo x) (fecha_programada x)
     (fecha_inicio x) (fecha_finalizacion x) (costo_final x) e
     (observaciones x).
Definition set_observaciones (o : string) (x : t) : t :=
  mk (pk x) (incidencia x) (proveedor x) (titulo x) (fecha_programada x)
     (fecha_inicio x) (fecha_finalizacion x) (costo_final x) (estado x)
     (Some o).

#[global] Instance model : Django.Model t :=
  {| Django.pk := pk; Django.with_pk := set_pk |}.

Record db := mkdb {
  mantenimientos : list t;
  incidencias : list Incidencia.t;
  ingresos : IngresoGasto.table
}.
Definition set_mantenimientos (m : list t) (d : db) : db :=
  mkdb m (incidencias d) (ingresos d).
Definition set_incidencias (i : list Incidencia.t) (d : db) : db :=
  mkdb (mantenimientos d) i (ingresos d).
Definition set_ingresos (i : IngresoGasto.table) (d : db) : db :=
  mkdb (mantenimientos d) (incidencias d) i.

Definition is_set {A} (o : option A) : bool :=
  match o with Some _ => true | None => false end.

(** [timezone.now()] is the parameter [ahora]. *)
Definition save (ahora : datetime) : M (t * db) unit :=
  x ← self;
  (if String.eqb (estado x) "en_proceso" && negb (is_set (fecha_inicio x))
   then set_self (set_fecha_inicio (dt_date ahora) x) else mret tt);;
  x ← self;
  (if String.eqb (estado x) "finalizado" && negb (is_set (fecha_finalizacion x))
   then set_self (set_fecha_finalizacion (dt_date ahora) x) else mret tt);;
  x ← self;
  match incidencia x with
  | Some i =>
      if String.eqb (estado x) "finalizado" then
        i' ← call incidencias set_incidencias
               (Incidencia.set_estado "resuelta" i) (Incidencia.save ahora);
        set_self (set_incidencia i' x)
      else mret tt
  | None => mret tt
  end;;
  on_self mantenimientos set_mantenimientos Django.super_save.

#[global] Arguments save : simpl never.



Definition cancelar (ahora : datetime) (motivo : option string)
  : M (t * db) bool :=
  x ← self;
  if existsb (String.eqb (estado x)) ["finalizado"; "cancelado"]
  then mret false
  else
    set_self (set_estado "cancelado" x);;
    (if opt_truthy str_truthy motivo then
       x ← self;
       set_self
         (set_observaciones
            (or_empty (observaciones x) ++ nl ++ "[CANCELACIÓN] "
             ++ default "" motivo) x)
     else mret tt);;
    save ahora;;
    mret true.

End Mantenimiento.

Module ProgramacionMantenimiento.
Local Open Scope Z_scope.

Record t := mk {
  pk : option nat;
  titulo : string;
  frecuencia : string;
  dia_semana : option Z;
  dia_mes : option Z;
  mes : option Z;
  activa : bool;
  ultima_generacion : option date
}.

Definition _ultimo_dia_mes (año mes : Z) : Z := monthrange_ndays año mes.

(** [hoy + datetime.timedelta(days=k)] *)
Definition mas_dias (hoy : date) (k : Z) : outcome date :=
  match add_days hoy k with
  | Some d => Return d
  | None => Raises (OverflowError "result out of range")
  end.

(** [timezone.now().date()] is the parameter [hoy]. *)
Definition _calcular_proxima_fecha (x : t) (hoy : date) : outcome (option date) :=
  if String.eqb (frecuencia x) "diaria" then Return (Some hoy)
  else if String.eqb (frecuencia x) "semanal" then
    match dia_semana x with
    | Some ds =>
        if negb (int_truthy ds) then Return None
        else
          let dias_agregar := (ds - weekday hoy - 1) mod 7 in
          match mas_dias hoy dias_agregar with
          | Return d => Return (Some d)
          | Raises e => Raises e
          end
    | None => Return None
    end
  else if String.eqb (frecuencia x) "quincenal" then
    match dia_semana x with
    | Some ds =>
        if negb (int_truthy ds) then Return None
        else
          let dias_agregar := (ds - weekday hoy - 1) mod 7 in
          match mas_dias hoy dias_agregar with
          | Return proxima =>
              match ultima_generacion x with
              | Some u =>
                  if sub_days proxima u <? 14 then
                    match mas_dias proxima 7 with
                    | Return d => Return (Some d)
                    | Raises e => Raises e
                    end
                  else Return (Some proxima)
              | None => Return (Some proxima)
              end
          | Raises e => Raises e
          end
    | None => Return None
    end
  else if String.eqb (frecuencia x) "mensual" then
    match dia_mes x with
    | Some dm =>
        if negb (int_truthy dm) then Return None
        else
          (* the [try] block; [None] when one of its dates raised *)
          let intento : option date :=
            proxima ← PyDate.new (year hoy) (month hoy) dm;
            if PyDate.ltb proxima hoy then
              if month hoy =? 12 then PyDate.new (year hoy + 1) 1 dm
              else PyDate.new (year hoy) (month hoy + 1) dm
            else Some proxima in
          match intento with
          | Some proxima => Return (Some proxima)
          | None =>
              let '(mes, año) :=
                if month hoy =? 12 then (1, year hoy + 1)
                else (month hoy + 1, year hoy) in
              let dia :=
                if dm >? 28 then Z.min dm (_ultimo_dia_mes año mes) else dm in
              match PyDate.new año mes dia with
              | Some d => Return (Some d)
              | None => Raises (ValueError "date value out of range")
              end
          end
    | None => Return None
    end
  else Return None.

End ProgramacionMantenimiento.

(** * Further methods of the models

    The methods below belong to the same classes as the ones above; each
    module gathers those of one source file.  Columns that no modelled
    method reads are left out of the records, as before. *)

From Stdlib Require Import DecimalString Sorting Permutation.

(** ** Text and queries *)

Module PyStr.

(** [str(n)] for an integer. *)
Definition str_int (z : Z) : string := NilZero.string_of_int (Z.to_int z).



End PyStr.

Module Consultas.

Section OrderBy.
Context {R : Type} (antes : R -> R -> bool).

(** Insertion of a row before the rows that are not before it. *)
Fixpoint insertar (r : R) (l : list R) : list R :=
  match l with
  | [] => [r]
  | r' :: l' => if antes r' r then r' :: insertar r l' else r :: l
  end.

(** [queryset.order_by(...)] for the ascending order whose strict part is
    [antes]; rows that tie keep the order of the table. *)
Fixpoint order_by (l : list R) : list R :=
  match l with
  | [] => []
  | r :: l' => insertar r (order_by l')
  end.
End OrderBy.

(** [aggregate(total=Sum(column))["total"]]: [None] on an empty
    selection. *)
Definition aggregate_sum {R : Type} (column : R -> Q) (rows : list R) : option Q :=
  match rows with
  | [] => None
  | _ => Some (fold_right (fun r a => (column r + a)%Q) 0%Q rows)
  end.

(** [total or 0] *)
Definition or_zero (o : option Q) : Q :=
  match o with
  | Some q => if dec_truthy q then q else 0%Q
  | None => 0%Q
  end.

End Consultas.

(** ** finanzas.py *)

Module Finanzas.

(** The filters of [get_balance_periodo]: the year of the date, the states
    that count and, when a month is given ([if mes:]), the month. *)
Definition filters (año : Z) (mes : option Z) (r : IngresoGasto.t) : bool :=
  match IngresoGasto.fecha r with
  | Some f => (year f =? año)%Z
  | None => false
  end
  && existsb (String.eqb (IngresoGasto.estado r)) ["registrado"; "verificado"]
  && (if opt_truthy int_truthy mes
      then match IngresoGasto.fecha r with
           | Some f => (month f =? default 0%Z mes)%Z
           | None => false
           end
      else true).

(** [cls.objects.filter(tipo=t, **filters).aggregate(total=Sum("monto"))["total"] or 0] *)
Definition total (tipo : string) (año : Z) (mes : option Z)
    (tbl : IngresoGasto.table) : Q :=
  Consultas.or_zero
    (Consultas.aggregate_sum IngresoGasto.monto
       (filter (fun r => String.eqb (IngresoGasto.tipo r) tipo
                         && filters año mes r) tbl)).

Definition get_balance_periodo (tbl : IngresoGasto.table) (año : Z)
    (mes : option Z) : gmap string Q :=
  let ingresos := total "ingreso" año mes tbl in
  let gastos := total "gasto" año mes tbl in
  let balance := (ingresos + gastos)%Q in
  {[ "ingresos" := ingresos; "gastos" := Qabs gastos; "balance" := balance ]}.

End Finanzas.

(** ** administracion.py and its views *)

Module Administracion.

Definition cuota_set_pk (k : nat) (c : CuotaAdministracion.t) : CuotaAdministracion.t :=
  CuotaAdministracion.mk (Some k) (CuotaAdministracion.año c)
    (CuotaAdministracion.mes c) (CuotaAdministracion.valor_base c)
    (CuotaAdministracion.fecha_vencimiento c) (CuotaAdministracion.recargo_mora c).

#[global] Instance cuota_model : Django.Model CuotaAdministracion.t :=
  {| Django.pk := CuotaAdministracion.pk; Django.with_pk := cuota_set_pk |}.

Definition del_periodo (año mes : Z) (c : CuotaAdministracion.t) : bool :=
  (CuotaAdministracion.año c =? año)%Z && (CuotaAdministracion.mes c =? mes)%Z.

(** [generar_cuota_siguiente_mes]; [datetime.date.today()] is the
    parameter [hoy].  The pair (año, mes) is unique in the table, so
    [objects.get] finds one row or none. *)
Definition generar_cuota_siguiente_mes (hoy : date)
  : M (list CuotaAdministracion.t) (option CuotaAdministracion.t) :=
  let '(siguiente_mes, siguiente_año) :=
    if (month hoy =? 12)%Z then (1%Z, (year hoy + 1)%Z)
    else ((month hoy + 1)%Z, year hoy) in
  fun tbl =>
  if existsb (del_periodo siguiente_año siguiente_mes) tbl then Ok None tbl
  else
    match find (del_periodo (year hoy) (month hoy)) tbl with
    | None => Ok None tbl
    | Some cuota_actual =>
        let dia_vencimiento :=
          Z.min (day (CuotaAdministracion.fecha_vencimiento cuota_actual)) 28 in
        match PyDate.new siguiente_año siguiente_mes dia_vencimiento with
        | None => Raise (ValueError "date value out of range") tbl
        | Some fecha_vencimiento =>
            (* the keyword [descripcion] formats [cuota_actual] *)
            match CuotaAdministracion.__str__ cuota_actual with
            | Raises e => Raise e tbl
            | Return _ =>
                match Django.super_save
                        (CuotaAdministracion.mk None siguiente_año siguiente_mes
                           (CuotaAdministracion.valor_base cuota_actual)
                           fecha_vencimiento
                           (CuotaAdministracion.recargo_mora cuota_actual), tbl) with
                | Ok _ (nueva, tbl') => Ok (Some nueva) tbl'
                | Raise e (_, tbl') => Raise e tbl'
                end
            end
        end
    end.

(** The outcome of a model's [clean]. *)
Inductive clean_outcome :=
| Limpio
| ValidationError (campo : option string) (msg : string)
| AttributeError (msg : string).

(** What a view answers: a status and the serialized object or an error
    text. *)
Inductive response (D : Type) :=
| Response (status : Z) (data : D + string).
Arguments Response {D} status data.

Definition status {D} (r : response D) : Z :=
  match r with Response s _ => s end.

(** The instance a view works on: the payment and the column
    [registrado_por], which no model method reads. *)
Record pago_vista := mkvista {
  pago : PagoAdministracion.t;
  registrado_por : option nat
}.

(** [self.save()] of [PagoAdministracion] on the instance of a view. *)
Definition vista_save : M (pago_vista * PagoAdministracion.db) unit :=
  fun s =>
    match PagoAdministracion.save (pago (fst s), snd s) with
    | Ok _ (p, d) => Ok tt (mkvista p (registrado_por (fst s)), d)
    | Raise e (p, d) => Raise e (mkvista p (registrado_por (fst s)), d)
    end.

(** [try: pago.registrado_por = request.user.empleado / except: pass];
    [empleado] is [None] when the user has no employee. *)
Definition asignar_empleado (empleado : option nat)
  : M (pago_vista * PagoAdministracion.db) unit :=
  match empleado with
  | Some e => v ← self; set_self (mkvista (pago v) (Some e))
  | None => mret tt
  end.

Definition pago_set_observaciones (o : string) (x : PagoAdministracion.t)
  : PagoAdministracion.t :=
  PagoAdministracion.mk (PagoAdministracion.pk x) (PagoAdministracion.vivienda x)
    (PagoAdministracion.cuota x) (PagoAdministracion.fecha_pago x)
    (PagoAdministracion.monto_pagado x) (PagoAdministracion.estado x) (Some o)
    (PagoAdministracion._initial_values x).

(** The views.  What [Serializer(obj).data] gives, a value or an
    exception, is left to the serializers: [serializar_cuota] and
    [serializar_pago] stand for them. *)
Section Vistas.
Context {D : Type}.
Context (serializar_cuota : CuotaAdministracion.t -> outcome D).
Context (serializar_pago : pago_vista -> outcome D).

(** [CuotaAdministracionViewSet.generar_siguiente] *)
Definition generar_siguiente (hoy : date)
  : M (list CuotaAdministracion.t) (response D) :=
  Py.bind (generar_cuota_siguiente_mes hoy) (fun nueva_cuota =>
  match nueva_cuota with
  | Some c =>
      match serializar_cuota c with
      | Return data => Py.ret (Response 201 (inl data))
      | Raises e => Py.raise e
      end
  | None =>
      Py.ret (Response 400
                (inr "No se pudo generar la cuota para el siguiente período. Puede que ya exista o no haya cuota actual."))
  end).

(** [PagoAdministracionViewSet.confirmar], from the instance that
    [get_object] fetched. *)
Definition confirmar (empleado : option nat)
  : M (pago_vista * PagoAdministracion.db) (response D) :=
  v ← self;
  if negb (String.eqb (PagoAdministracion.estado (pago v)) "registrado") then
    mret (Response 400
            (inr "Solo se pueden confirmar pagos en estado 'registrado'."))
  else
    set_self (mkvista (PagoAdministracion.set_estado "confirmado" (pago v))
                (registrado_por v));;
    asignar_empleado empleado;;
    vista_save;;
    v ← self;
    match serializar_pago v with
    | Return data => mret (Response 200 (inl data))
    | Raises e => raise e
    end.

(** [PagoAdministracionViewSet.rechazar]; [motivo] is
    [request.data.get("motivo")]. *)
Definition rechazar (empleado : option nat) (motivo : option string)
  : M (pago_vista * PagoAdministracion.db) (response D) :=
  v ← self;
  if negb (String.eqb (PagoAdministracion.estado (pago v)) "registrado") then
    mret (Response 400
            (inr "Solo se pueden rechazar pagos en estado 'registrado'."))
  else
    set_self (mkvista (PagoAdministracion.set_estado "rechazado" (pago v))
                (registrado_por v));;
    (if opt_truthy str_truthy motivo then
       v ← self;
       set_self
         (mkvista
            (pago_set_observaciones
               (or_empty (PagoAdministracion.observaciones (pago v)) ++ nl
                ++ "[RECHAZADO] " ++ default "" motivo) (pago v))
            (registrado_por v))
     else mret tt);;
    asignar_empleado empleado;;
    vista_save;;
    v ← self;
    match serializar_pago v with
    | Return data => mret (Response 200 (inl data))
    | Raises e => raise e
    end.
End Vistas.

End Administracion.

(** ** vivienda.py *)

Module Viviendas.

(** [Vivienda.get_pagos_pendientes] of a stored house; [date.today()] is
    the parameter [hoy].  The fees come in the order of their model,
    latest period first; the subquery selects the payments of the house
    for the fee, whatever their estado. *)
Definition get_pagos_pendientes (x : Vivienda.t)
    (cuotas : list CuotaAdministracion.t) (pagos : list PagoAdministracion.t)
    (hoy : date) : list CuotaAdministracion.t :=
  let pagos_realizados (c : CuotaAdministracion.t) (p : PagoAdministracion.t) :=
    bool_decide (Vivienda.pk (PagoAdministracion.vivienda p) = Vivienda.pk x)
    && bool_decide (CuotaAdministracion.pk (PagoAdministracion.cuota p)
                    = CuotaAdministracion.pk c) in
  filter
    (fun c => negb (existsb (pagos_realizados c) pagos))
    (Consultas.order_by
       (fun a b =>
          tuple_ltb [CuotaAdministracion.año b; CuotaAdministracion.mes b]
                    [CuotaAdministracion.año a; CuotaAdministracion.mes a])
       (filter
          (fun c => PyDate.leb (CuotaAdministracion.fecha_vencimiento c) hoy)
          cuotas)).

End Viviendas.

(** ** reserva.py and area_comun.py *)

Module Reservas.

Definition time_eqb (a b : time) : bool :=
  negb (time_ltb a b) && negb (time_ltb b a).

(** [self._initial_values.get(k) != v] for the three keys that [save]
    records. *)
Definition difiere (iv : gmap string pyval) (k : string) (v : pyval) : bool :=
  match iv !! k, v with
  | Some (VDate a), VDate b => negb (PyDate.eqb a b)
  | Some (VTime a), VTime b => negb (time_eqb a b)
  | Some (VStr a), VStr b => negb (String.eqb a b)
  | _, _ => true
  end.

(** [Reserva.clean]; [self._state.adding] is the parameter [adding],
    [timezone.now().date()] the parameter [today], and [tbl] the table of
    reservations that [esta_disponible] queries. *)
Definition clean (x : Reserva.t) (adding : bool) (tbl : list Reserva.t)
    (today : date) : Administracion.clean_outcome :=
  if time_leb (Reserva.hora_fin x) (Reserva.hora_inicio x) then
    Administracion.ValidationError (Some "hora_fin")
      "La hora de finalización debe ser posterior a la hora de inicio"
  else if negb (PagoAdministracion.pk_truthy (Reserva.pk x))
          && PyDate.ltb (Reserva.fecha_reserva x) today then
    Administracion.ValidationError (Some "fecha_reserva")
      "La fecha de reserva debe ser posterior a la fecha actual"
  else if negb (AreaComun.requiere_reserva (Reserva.area x)) then
    Administracion.ValidationError (Some "area")
      "Esta área común no permite reservas"
  else
    let verificar :=
      if negb (AreaComun.esta_disponible (Reserva.area x) tbl
                 (Reserva.fecha_reserva x) (Reserva.hora_inicio x)
                 (Reserva.hora_fin x))
      then Administracion.ValidationError None
             "El área no está disponible en el horario seleccionado"
      else Administracion.Limpio in
    if negb (PagoAdministracion.pk_truthy (Reserva.pk x)) || adding then verificar
    else
      match Reserva._initial_values x with
      | None =>
          Administracion.AttributeError
            "'Reserva' object has no attribute '_initial_values'"
      | Some iv =>
          if difiere iv "fecha_reserva" (VDate (Reserva.fecha_reserva x))
             || difiere iv "hora_inicio" (VTime (Reserva.hora_inicio x))
             || difiere iv "hora_fin" (VTime (Reserva.hora_fin x))
          then verificar
          else Administracion.Limpio
      end.


(** The tables [registrar_pago] writes. *)
Record db := mkdb {
  reservas : list Reserva.t;
  ingresos : IngresoGasto.table
}.
Definition set_ingresos (i : IngresoGasto.table) (d : db) : db := mkdb (reservas d) i.


(** [ConfiguracionReservas] *)
Record configuracion := mkconfig {
  dias_anticipacion_min : Z;
  dias_anticipacion_max : Z;
  duracion_maxima_horas : Z;
  reservas_max_semana : Z;
  requiere_aprobacion : bool
}.

(** [fecha - datetime.timedelta(days=fecha.weekday())] and that date plus
    six days; [None] stands for the [OverflowError]. *)
Definition inicio_semana (fecha_reserva : date) : option date :=
  add_days fecha_reserva (- weekday fecha_reserva).
Definition fin_semana (fecha_reserva : date) : option date :=
  inicio ← inicio_semana fecha_reserva; add_days inicio 6.

(** The reservations counted against the weekly limit. *)
Definition reservas_semana (tbl : list Reserva.t) (propietario : nat)
    (inicio fin : date) : list Reserva.t :=
  filter
    (fun r => Nat.eqb (Reserva.propietario r) propietario
              && PyDate.leb inicio (Reserva.fecha_reserva r)
              && PyDate.leb (Reserva.fecha_reserva r) fin
              && existsb (String.eqb (Reserva.estado r)) ["pendiente"; "confirmada"])
    tbl.

(** [ConfiguracionReservas.validar_reserva]; [timezone.now().date()] is
    the parameter [hoy]; the duration, a float in the callers, is the
    number it denotes. *)
Definition validar_reserva (c : configuracion) (tbl : list Reserva.t)
    (hoy : date) (propietario : nat) (fecha_reserva : date)
    (duracion_horas : Q) : outcome (bool * string) :=
  let dias_anticipacion := sub_days fecha_reserva hoy in
  if (dias_anticipacion <? dias_anticipacion_min c)%Z then
    Return (false,
            ("Debes reservar con al menos "
             ++ PyStr.str_int (dias_anticipacion_min c)
             ++ " días de anticipación")%string)
  else if (dias_anticipacion >? dias_anticipacion_max c)%Z then
    Return (false,
            ("No puedes reservar con más de "
             ++ PyStr.str_int (dias_anticipacion_max c)
             ++ " días de anticipación")%string)
  else if dec_lt (inject_Z (duracion_maxima_horas c)) duracion_horas then
    Return (false,
            ("La duración máxima permitida es de "
             ++ PyStr.str_int (duracion_maxima_horas c) ++ " horas")%string)
  else if (reservas_max_semana c >? 0)%Z then
    match inicio_semana fecha_reserva, fin_semana fecha_reserva with
    | Some inicio, Some fin =>
        let reservas_semana_ :=
          Z.of_nat (length (reservas_semana tbl propietario inicio fin)) in
        if (reservas_semana_ >=? reservas_max_semana c)%Z then
          Return (false,
                  ("Has alcanzado el límite de "
                   ++ PyStr.str_int (reservas_max_semana c)
                   ++ " reservas por semana")%string)
        else Return (true, "")
    | _, _ => Raises (OverflowError "result out of range")
    end
  else Return (true, "").

(** [AreaComun.get_reservas_del_dia] *)
Definition get_reservas_del_dia (x : AreaComun.t) (tbl : list Reserva.t)
    (fecha : date) : list Reserva.t :=
  Consultas.order_by
    (fun a b => time_ltb (Reserva.hora_inicio a) (Reserva.hora_inicio b))
    (filter
       (fun r => PyDate.eqb (Reserva.fecha_reserva r) fecha
                 && String.eqb (Reserva.estado r) "confirmada")
       (AreaComun.reservas x tbl)).

End Reservas.

(** ** incidencia.py *)

Module Incidencias.

Definition seguimiento_set_pk (k : nat) (s : SeguimientoIncidencia.t)
  : SeguimientoIncidencia.t :=
  SeguimientoIncidencia.mk (Some k) (SeguimientoIncidencia.incidencia s)
    (SeguimientoIncidencia.empleado s) (SeguimientoIncidencia.comentario s)
    (SeguimientoIncidencia.estado_actual s)
    (SeguimientoIncidencia.visible_para_propietario s).

#[global] Instance seguimiento_model : Django.Model SeguimientoIncidencia.t :=
  {| Django.pk := SeguimientoIncidencia.pk; Django.with_pk := seguimiento_set_pk |}.

Record db := mkdb {
  incidencias : list Incidencia.t;
  seguimientos : list SeguimientoIncidencia.t
}.
Definition set_incidencias (i : list Incidencia.t) (d : db) : db :=
  mkdb i (seguimientos d).
Definition set_seguimientos (s : list SeguimientoIncidencia.t) (d : db) : db :=
  mkdb (incidencias d) s.

(** [dict(self.ESTADO_CHOICES).keys()] *)
Definition ESTADO_CHOICES : list string :=
  ["reportada"; "en_proceso"; "resuelta"; "cancelada"].

(** [Incidencia.crear_seguimiento].  The follow-up refers to the incident
    by its key; the framework refuses a related object that has none. *)
Definition crear_seguimiento (ahora : datetime) (empleado : nat)
    (comentario : string) (nuevo_estado : option string)
  : M (Incidencia.t * db) SeguimientoIncidencia.t :=
  (if opt_truthy str_truthy nuevo_estado
      && existsb (String.eqb (default "" nuevo_estado)) ESTADO_CHOICES
   then
     x ← self;
     set_self (Incidencia.set_estado (default "" nuevo_estado) x);;
     on_self incidencias set_incidencias (Incidencia.save ahora)
   else mret tt);;
  x ← self;
  d ← tables;
  match Incidencia.pk x with
  | None =>
      raise (ValueError
               "save() prohibited to prevent data loss due to unsaved related object 'incidencia'.")
  | Some k =>
      match Django.super_save
              (SeguimientoIncidencia.mk None k empleado comentario
                 (Incidencia.estado x) true, seguimientos d) with
      | Ok _ (s, tbl) => set_tables (set_seguimientos tbl d);; mret s
      | Raise e (_, tbl) => set_tables (set_seguimientos tbl d);; raise e
      end
  end.

End Incidencias.

(** ** mantenimiento.py *)

Module Mantenimientos.

Definition cerrado (x : Mantenimiento.t) : bool :=
  existsb (String.eqb (Mantenimiento.estado x)) ["finalizado"; "cancelado"].

(** [Mantenimiento.esta_vencido]; [timezone.now().date()] is [hoy]. *)
Definition esta_vencido (x : Mantenimiento.t) (hoy : date) : bool :=
  if cerrado x then false
  else PyDate.ltb (Mantenimiento.fecha_programada x) hoy.

(** [Mantenimiento.dias_restantes] *)
Definition dias_restantes (x : Mantenimiento.t) (hoy : date) : Z :=
  sub_days (Mantenimiento.fecha_programada x) hoy.

(** [ActividadMantenimiento] *)
Record actividad := mkactividad {
  act_pk : option nat;
  act_mantenimiento : nat;
  act_descripcion : string;
  act_estado : string;
  act_observaciones : option string;
  act_fecha_completada : option date
}.

Definition actividad_set_pk (k : nat) (a : actividad) : actividad :=
  mkactividad (Some k) (act_mantenimiento a) (act_descripcion a) (act_estado a)
    (act_observaciones a) (act_fecha_completada a).

#[global] Instance actividad_model : Django.Model actividad :=
  {| Django.pk := act_pk; Django.with_pk := actividad_set_pk |}.

(** [ActividadMantenimiento.completar] *)
Definition completar (hoy : date) (observaciones : option string)
  : M (actividad * list actividad) bool :=
  a ← self;
  if negb (String.eqb (act_estado a) "pendiente")
     && negb (String.eqb (act_estado a) "en_proceso")
  then mret false
  else
    set_self
      (mkactividad (act_pk a) (act_mantenimiento a) (act_descripcion a)
         "completada" (act_observaciones a) (Some hoy));;
    (if opt_truthy str_truthy observaciones then
       a ← self;
       set_self
         (mkactividad (act_pk a) (act_mantenimiento a) (act_descripcion a)
            (act_estado a)
            (Some (or_empty (act_observaciones a) ++ nl
                   ++ default "" observaciones)%string)
            (act_fecha_completada a))
     else mret tt);;
    Django.super_save;;
    mret true.

Definition programacion_set_pk (k : nat) (x : ProgramacionMantenimiento.t)
  : ProgramacionMantenimiento.t :=
  ProgramacionMantenimiento.mk (Some k) (ProgramacionMantenimiento.titulo x)
    (ProgramacionMantenimiento.frecuencia x)
    (ProgramacionMantenimiento.dia_semana x)
    (ProgramacionMantenimiento.dia_mes x) (ProgramacionMantenimiento.mes x)
    (ProgramacionMantenimiento.activa x)
    (ProgramacionMantenimiento.ultima_generacion x).

Definition set_ultima_generacion (d : date) (x : ProgramacionMantenimiento.t)
  : ProgramacionMantenimiento.t :=
  ProgramacionMantenimiento.mk (ProgramacionMantenimiento.pk x)
    (ProgramacionMantenimiento.titulo x)
    (ProgramacionMantenimiento.frecuencia x)
    (ProgramacionMantenimiento.dia_semana x)
    (ProgramacionMantenimiento.dia_mes x) (ProgramacionMantenimiento.mes x)
    (ProgramacionMantenimiento.activa x) (Some d).

#[global] Instance programacion_model : Django.Model ProgramacionMantenimiento.t :=
  {| Django.pk := ProgramacionMantenimiento.pk;
     Django.with_pk := programacion_set_pk |}.

Record db := mkdb {
  programaciones : list ProgramacionMantenimiento.t;
  mantenimiento_db : Mantenimiento.db
}.
Definition set_programaciones (p : list ProgramacionMantenimiento.t) (d : db) : db :=
  mkdb p (mantenimiento_db d).
Definition set_mantenimiento_db (m : Mantenimiento.db) (d : db) : db :=
  mkdb (programaciones d) m.

(** [ProgramacionMantenimiento.generar_proximo_mantenimiento];
    [timezone.now()] is [ahora].  Of the columns given to the new
    maintenance job the record holds the title, the date and the provider;
    [proveedor_preferido], a column of the programme, is a parameter. *)
Definition generar_proximo_mantenimiento (ahora : datetime)
    (proveedor_preferido : option nat)
  : M (ProgramacionMantenimiento.t * db) (option Mantenimiento.t) :=
  let hoy := dt_date ahora in
  x ← self;
  if negb (ProgramacionMantenimiento.activa x) then mret None
  else if match ProgramacionMantenimiento.ultima_generacion x with
          | Some u => PyDate.eqb u hoy
          | None => false
          end
  then mret None
  else
    match ProgramacionMantenimiento._calcular_proxima_fecha x hoy with
    | Raises e => raise e
    | Return None => mret None
    | Return (Some proxima_fecha) =>
        if PyDate.leb hoy proxima_fecha then
          mantenimiento ← call mantenimiento_db set_mantenimiento_db
            (Mantenimiento.mk None None proveedor_preferido
               (ProgramacionMantenimiento.titulo x) proxima_fecha None None None
               "programado" None)
            (Mantenimiento.save ahora);
          x ← self;
          set_self (set_ultima_generacion hoy x);;
          on_self programaciones set_programaciones Django.super_save;;
          mret (Some mantenimiento)
        else mret None
    end.

End Mantenimientos.

(** * Vocabulary of the statements *)

(** Well-formed dates: what the constructor checks, without the upper
    bound on the year. *)
Definition well_formed (d : date) : Prop :=
  (1 <= year d /\ 1 <= month d <= 12
   /\ 1 <= day d <= _days_in_month (year d) (month d))%Z.


(** The instance as [IngresoGasto.anular] hands it to [save]. *)
Definition anulado_con (motivo : option string) (x : IngresoGasto.t) : IngresoGasto.t :=
  let x1 := IngresoGasto.set_estado "anulado" x in
  if opt_truthy str_truthy motivo
  then IngresoGasto.set_descripcion
         (IngresoGasto.descripcion x1 ++ nl ++ "[ANULADO] " ++ default "" motivo) x1
  else x1.

(** The terminal states of a reservation. *)
Definition terminal (e : string) : Prop :=
  e = "cancelada" \/ e = "completada" \/ e = "no_asistio".

(** The transition methods of a reservation, as requests, and their
    execution one after the other on the same instance. *)
Inductive transicion :=
| Cancelar (observacion : option string)
| Confirmar (empleado : nat) (observacion : option string)
| MarcarCompletada
| MarcarNoAsistio.

Definition ejecutar (ahora : datetime) (op : transicion)
  : M (Reserva.t * list Reserva.t) bool :=
  match op with
  | Cancelar o => Reserva.cancelar ahora o
  | Confirmar e o => Reserva.confirmar ahora e o
  | MarcarCompletada => Reserva.marcar_completada ahora
  | MarcarNoAsistio => Reserva.marcar_no_asistio ahora
  end.

Fixpoint ejecutar_todas (ahora : datetime) (ops : list transicion)
  : M (Reserva.t * list Reserva.t) (list bool) :=
  match ops with
  | [] => mret []
  | op :: rest =>
      b ← ejecutar ahora op;
      bs ← ejecutar_todas ahora rest;
      mret (b :: bs)
  end.

(** The month after that of a date, as (year, month). *)
Definition siguiente_mes (hoy : date) : Z * Z :=
  if (month hoy =? 12)%Z then ((year hoy + 1)%Z, 1%Z)
  else (year hoy, (month hoy + 1)%Z).

(** The monthly rule read as a fixed day: the result has the configured
    day, in the month of today when that is not before today, else in
    the month after. *)
Definition mensual_dia_fijo (x : ProgramacionMantenimiento.t) (hoy : date) : Prop :=
  forall dm, ProgramacionMantenimiento.dia_mes x = Some dm ->
  exists d,
    ProgramacionMantenimiento._calcular_proxima_fecha x hoy = Return (Some d)
    /\ day d = dm
    /\ ((year d = year hoy /\ month d = month hoy /\ PyDate.leb hoy d = true)
        \/ (year d, month d) = siguiente_mes hoy).

(** ** Availability as an overlap test *)

(** A stored reservation overlaps the slot asked for. *)
Definition solapa (r : Reserva.t) (hora_inicio hora_fin : time) : bool :=
  time_ltb (Reserva.hora_inicio r) hora_fin
  && time_ltb hora_inicio (Reserva.hora_fin r).

(** The confirmed reservations of an area on a date. *)
Definition confirmadas (x : AreaComun.t) (tbl : list Reserva.t) (fecha : date)
  : list Reserva.t :=
  filter (fun r => PyDate.eqb (Reserva.fecha_reserva r) fecha
                   && String.eqb (Reserva.estado r) "confirmada")
         (AreaComun.reservas x tbl).

(** The opening hours admit the slot. *)
Definition en_horario (x : AreaComun.t) (hora_inicio hora_fin : time) : bool :=
  match AreaComun.horario_apertura x with
  | Some a => time_leb a hora_inicio
  | None => true
  end
  && match AreaComun.horario_cierre x with
     | Some c => time_leb hora_fin c
     | None => true
     end.

(** Availability as an overlap test: the area takes reservations, is
    active, is open for the slot, and no confirmed reservation of the day
    overlaps it. *)
Definition disponible_por_traslape (x : AreaComun.t) (tbl : list Reserva.t)
    (fecha : date) (hora_inicio hora_fin : time) : bool :=
  AreaComun.requiere_reserva x && AreaComun.esta_activa x
  && en_horario x hora_inicio hora_fin
  && negb (existsb (fun r => solapa r hora_inicio hora_fin)
                   (confirmadas x tbl fecha)).

(** ** Sample data *)

Definition salon : AreaComun.t :=
  AreaComun.mk (Some 1%nat) "Salon social" true
    (Some (mktime 6 0 0 0)) (Some (mktime 22 0 0 0)) true 0.

Definition dia : date := mkdate 2024 5 10.

(** A confirmed reservation of [salon] on [dia], 08:00 to 09:00. *)
Definition reserva_manana : Reserva.t :=
  Reserva.mk (Some 1%nat) salon 7%nat dia (mktime 8 0 0 0) (mktime 9 0 0 0)
    "confirmada" None None None 0 false None.

(** An expense before its first save, and the row that save stores. *)
Definition gasto_nuevo : IngresoGasto.t :=
  IngresoGasto.mk None (Some dia) "gasto" "aseo" "Servicio de aseo" 100
    None None "registrado".

Definition gasto_guardado : IngresoGasto.t :=
  IngresoGasto.mk (Some 1%nat) (Some dia) "gasto" "aseo" "Servicio de aseo"
    (-100) None None "registrado".

Definition casa : Vivienda.t := Vivienda.mk (Some 1%nat) "A" "12" (1 # 100).

Definition cuota_mayo : CuotaAdministracion.t :=
  CuotaAdministracion.mk (Some 1%nat) 2024 5 15000000 (mkdate 2024 5 31)
    (Decimal.Dec 2).

(** A payment as stored, in the given state. *)
Definition pago_en (estado : string) : PagoAdministracion.t :=
  PagoAdministracion.mk (Some 1%nat) casa cuota_mayo dia 150000 estado None None.

(** The ledger entry of that payment. *)
Definition ingreso_del_pago : IngresoGasto.t :=
  IngresoGasto.mk (Some 1%nat) (Some dia) "ingreso" "cuota_administracion"
    "Pago de cuota" 150000 None (Some 1%nat) "registrado".

(** A reserve fund holding 500, and the tables that contain it. *)
Definition fondo_imprevistos : FondoReserva.t :=
  FondoReserva.mk (Some 1%nat) "Fondo de imprevistos" 1000000 500 "activo" 0.

Definition db_fondos : FondoReserva.db :=
  FondoReserva.mkdb [fondo_imprevistos] [].

(** The reservation of [salon] once cancelled. *)
Definition reserva_cancelada : Reserva.t :=
  Reserva.set_estado "cancelada" reserva_manana.

Definition mediodia : datetime := mkdatetime dia (mktime 12 0 0 0).

(** A monthly programme for the 30th and a weekly one for Mondays. *)
Definition programacion_dia_30 : ProgramacionMantenimiento.t :=
  ProgramacionMantenimiento.mk None "Revision de bombas" "mensual"
    None (Some 30%Z) None true None.

Definition programacion_lunes : ProgramacionMantenimiento.t :=
  ProgramacionMantenimiento.mk None "Aseo de piscina" "semanal"
    (Some 1%Z) None None true None.

Definition fin_de_enero : date := mkdate 2023 1 31.

(** A scheduled maintenance job and empty tables. *)
Definition poda : Mantenimiento.t :=
  Mantenimiento.mk None None None "Poda de jardines" dia None None None
    "programado" None.

Definition db_vacia : Mantenimiento.db := Mantenimiento.mkdb [] [] [].

(** ** Vocabulary of the further properties *)

(** The sign convention of the ledger: a stored [gasto] carries a negative
    amount, every other row a positive one. *)
Definition signo_ok (r : IngresoGasto.t) : Prop :=
  if String.eqb (IngresoGasto.tipo r) "gasto"
  then (IngresoGasto.monto r < 0)%Q
  else (0 < IngresoGasto.monto r)%Q.

Definition signos_ok (tbl : IngresoGasto.table) : Prop := Forall signo_ok tbl.

(** A row as the database holds it: its amount fits the column and
    follows the sign convention. *)
Definition asiento_ok (r : IngresoGasto.t) : Prop :=
  signo_ok r /\ Decimal.en_columna 12 2 (IngresoGasto.monto r).

Definition libro_ok (tbl : IngresoGasto.table) : Prop := Forall asiento_ok tbl.

(** A number of at most [dp] decimals whose digits, read as an integer,
    stay below [cota]. *)
Definition decimal_de (dp cota : Z) (q : Q) : Prop :=
  exists k, (q * Decimal.pow10 dp == inject_Z k)%Q /\ (Z.abs k < cota)%Z.

(** The numbers of a fund fit their columns. *)
Definition fondo_en_columnas (x : FondoReserva.t) : Prop :=
  Decimal.en_columna 12 2 (FondoReserva.monto_objetivo x)
  /\ Decimal.en_columna 12 2 (FondoReserva.monto_actual x)
  /\ Decimal.en_columna 5 2 (FondoReserva.porcentaje_cuota x).

(** The table holds the row of the fund, with the balance of the
    instance. *)
Definition fila_del_fondo (x : FondoReserva.t) (fondos : list FondoReserva.t)
  : Prop :=
  exists fila,
    In fila fondos
    /\ FondoReserva.pk fila = FondoReserva.pk x
    /\ (FondoReserva.monto_actual fila == FondoReserva.monto_actual x)%Q.

(** A fund one cent below the largest balance of the column. *)
Definition fondo_al_tope : FondoReserva.t :=
  FondoReserva.mk (Some 1%nat) "Fondo de imprevistos" 1000000
    (999999999999 # 100) "activo" 0.

(** A fee built without [recargo_mora]. *)
Definition cuota_sin_recargo : CuotaAdministracion.t :=
  CuotaAdministracion.mk None 2024 5 15000000 (mkdate 2024 5 31)
    CuotaAdministracion.recargo_mora_default.



(** A figure of the dictionary that [get_balance_periodo] returns. *)
Definition cifra (k : string) (m : gmap string Q) : Q := default 0%Q (m !! k).

Definition meses : list Z := [1; 2; 3; 4; 5; 6; 7; 8; 9; 10; 11; 12]%Z.

(** The sum of a figure over the twelve monthly balances of a year. *)
Definition suma_mensual (k : string) (tbl : IngresoGasto.table) (año : Z) : Q :=
  fold_right
    (fun m a => (cifra k (Finanzas.get_balance_periodo tbl año (Some m)) + a)%Q)
    0%Q meses.

(** Sample ledger: a stored expense and a stored income of May 2024. *)
Definition libro_mayo : IngresoGasto.table := [gasto_guardado; ingreso_del_pago].

(** The net of the movements of a fund: contributions minus uses. *)
Definition neto_movimientos (fondo : option nat) (movs : list MovimientoFondo.t) : Q :=
  fold_right
    (fun mv a =>
       if bool_decide (MovimientoFondo.fondo mv = fondo) then
         if String.eqb (MovimientoFondo.tipo mv) "ingreso"
         then (a + MovimientoFondo.monto mv)%Q
         else (a - MovimientoFondo.monto mv)%Q
       else a)
    0%Q movs.

(** No stored payment is in estado "confirmado". *)
Definition sin_confirmados (pagos : list PagoAdministracion.t) : Prop :=
  Forall (fun p => PagoAdministracion.estado p <> "confirmado") pagos.

(** A view's instance, as [get_object] builds it from a stored payment
    and the value of its column [registrado_por]. *)
Definition get_object (row : PagoAdministracion.t) (registrado_por : option nat)
  : Administracion.pago_vista :=
  Administracion.mkvista (PagoAdministracion.from_db row) registrado_por.

(** The number of calls that returned [True]. *)
Definition exitos (bs : list bool) : nat :=
  fold_right (fun (b : bool) n => if b then S n else n) 0%nat bs.

(** How many transitions a reservation can still make from an estado. *)
Definition rango (e : string) : nat :=
  if String.eqb e "pendiente" then 2%nat
  else if String.eqb e "confirmada" then 1%nat
  else 0%nat.

(** The observations after a note of a transition was appended. *)
Definition con_nota (marca : string) (nota : option string)
    (observaciones : option string) : option string :=
  if opt_truthy str_truthy nota
  then Some (or_empty observaciones ++ nl ++ marca ++ default "" nota)%string
  else observaciones.

(** The day and hours of a reservation. *)
Definition horario (r : Reserva.t) : date * time * time :=
  (Reserva.fecha_reserva r, Reserva.hora_inicio r, Reserva.hora_fin r).

(** The configuration with the defaults of the model. *)
Definition configuracion_inicial : Reservas.configuracion :=
  Reservas.mkconfig 1 30 4 2 true.

(** An open incident and the tables around it. *)
Definition gotera : Incidencia.t := Incidencia.mk (Some 1%nat) "Gotera" "reportada" None.

Definition db_incidencias : Incidencias.db := Incidencias.mkdb [gotera] [].

(** A daily programme and the empty tables. *)
Definition programacion_diaria : ProgramacionMantenimiento.t :=
  ProgramacionMantenimiento.mk (Some 1%nat) "Ronda de vigilancia" "diaria"
    None None None true None.

Definition db_programaciones : Mantenimientos.db :=
  Mantenimientos.mkdb [programacion_diaria] db_vacia.

Definition programacion_quincenal : ProgramacionMantenimiento.t :=
  ProgramacionMantenimiento.mk None "Fumigacion" "quincenal"
    (Some 1%Z) None None true (Some fin_de_enero).

Definition revision : Mantenimientos.actividad :=
  Mantenimientos.mkactividad (Some 1%nat) 1%nat "Revisar bombas" "pendiente"
    None None.

(** A rejected payment of the sample house for the sample fee. *)
Definition pago_rechazado : PagoAdministracion.t := pago_en "rechazado".

(** * Properties *)

(** Unfolding of the monad operations met in the methods. *)
Ltac run :=
  cbv [mbind mret M_bind M_ret Py.bind Py.ret Py.raise Py.self Py.set_self
       Py.tables Py.set_tables Py.on_self Py.call fst snd] in *.

(** ** The calendar *)

Local Open Scope Z_scope.

(** The calendar of a year written in base (400, 100, 4, 1). *)
Lemma days_before_year_decomp (a b c e : Z) :
  0 <= a -> 0 <= b <= 3 -> 0 <= c <= 24 -> 0 <= e <= 3 ->
  _days_before_year (400 * a + 100 * b + 4 * c + e + 1)
  = _DI400Y * a + _DI100Y * b + _DI4Y * c + 365 * e.
Proof.
  intros Ha Hb Hc He. unfold _days_before_year, _DI400Y, _DI100Y, _DI4Y.
  cbv zeta.
  replace (400 * a + 100 * b + 4 * c + e + 1 - 1)
    with (400 * a + 100 * b + 4 * c + e) by lia.
  assert (H4 : (400 * a + 100 * b + 4 * c + e) / 4 = 100 * a + 25 * b + c)
    by (symmetry; apply Z.div_unique with (r := e); lia).
  assert (H100 : (400 * a + 100 * b + 4 * c + e) / 100 = 4 * a + b)
    by (symmetry; apply Z.div_unique with (r := 4 * c + e); lia).
  assert (H400 : (400 * a + 100 * b + 4 * c + e) / 400 = a)
    by (symmetry; apply Z.div_unique with (r := 100 * b + 4 * c + e); lia).
  rewrite H4, H100, H400. lia.
Qed.

Lemma is_leap_decomp (a b c e : Z) :
  0 <= a -> 0 <= b <= 3 -> 0 <= c <= 24 -> 0 <= e <= 3 ->
  _is_leap (400 * a + 100 * b + 4 * c + e + 1)
  = (e =? 3) && (negb (c =? 24) || (b =? 3)).
Proof.
  intros Ha Hb Hc He. unfold _is_leap.
  set (y := 400 * a + 100 * b + 4 * c + e + 1).
  assert (H4 : y mod 4 = (e + 1) mod 4).
  { unfold y. replace (400 * a + 100 * b + 4 * c + e + 1)
      with ((e + 1) + (100 * a + 25 * b + c) * 4) by lia.
    apply Z.mod_add. lia. }
  assert (H100 : y mod 100 = (4 * c + e + 1) mod 100).
  { unfold y. replace (400 * a + 100 * b + 4 * c + e + 1)
      with ((4 * c + e + 1) + (4 * a + b) * 100) by lia.
    apply Z.mod_add. lia. }
  assert (H400 : y mod 400 = (100 * b + 4 * c + e + 1) mod 400).
  { unfold y. replace (400 * a + 100 * b + 4 * c + e + 1)
      with ((100 * b + 4 * c + e + 1) + a * 400) by lia.
    apply Z.mod_add. lia. }
  rewrite H4, H100, H400.
  destruct (Z.eqb_spec e 3) as [->|Hne].
  - cbn [andb]. replace ((3 + 1) mod 4) with 0 by reflexivity. cbn [Z.eqb andb].
    destruct (Z.eqb_spec c 24) as [->|Hc24].
    + replace ((4 * 24 + 3 + 1) mod 100) with 0 by reflexivity. cbn [Z.eqb negb orb].
      destruct (Z.eqb_spec b 3) as [->|Hb3]; [reflexivity|].
      apply Z.eqb_neq. Z.div_mod_to_equations. lia.
    + cbn [negb orb].
      replace ((4 * c + 3 + 1) mod 100 =? 0) with false; [reflexivity|].
      symmetry. apply Z.eqb_neq. Z.div_mod_to_equations. lia.
  - rewrite andb_false_l.
    replace ((e + 1) mod 4 =? 0) with false; [reflexivity|].
    symmetry. apply Z.eqb_neq. Z.div_mod_to_equations. lia.
Qed.

(** Evaluation of table look-ups and tests on literals. *)
Ltac eval_closed :=
  repeat match goal with
  | |- context [PyDate.index ?l ?i] =>
      let v := eval vm_compute in (PyDate.index l i) in
      change (PyDate.index l i) with v
  | |- context [if ?c then _ else _] =>
      let v := eval vm_compute in c in
      match v with
      | true => change c with true
      | false => change c with false
      end; cbv iota
  end.

(** The month estimate of [_ord2ymd] and its correction: from the day of
    the year (from 0) to the month and the days before it. *)
Lemma month_of_day (leap : bool) (r : Z) :
  0 <= r < 365 + (if leap then 1 else 0) ->
  let m := Z.shiftr (r + 50) 5 in
  let preceding :=
    PyDate.index _DAYS_BEFORE_MONTH m + (if (m >? 2) && leap then 1 else 0) in
  exists m' p',
    (if preceding >? r
     then (m - 1,
           preceding - (PyDate.index _DAYS_IN_MONTH (m - 1)
                        + (if (m - 1 =? 2) && leap then 1 else 0)))
     else (m, preceding)) = (m', p')
    /\ 1 <= m' <= 12
    /\ p' = PyDate.index _DAYS_BEFORE_MONTH m' + (if (m' >? 2) && leap then 1 else 0)
    /\ 0 <= r - p'
            < PyDate.index _DAYS_IN_MONTH m' + (if (m' =? 2) && leap then 1 else 0).
Proof.
  intros Hr. rewrite Z.shiftr_div_pow2 by lia. change (2 ^ 5) with 32.
  set (m := (r + 50) / 32). cbv zeta.
  assert (Hq : 32 * m <= r + 50 < 32 * m + 32)
    by (subst m; Z.div_mod_to_equations; lia).
  assert (Hm : m = 1 \/ m = 2 \/ m = 3 \/ m = 4 \/ m = 5 \/ m = 6 \/ m = 7
               \/ m = 8 \/ m = 9 \/ m = 10 \/ m = 11 \/ m = 12)
    by (destruct leap; lia).
  clearbody m.
  destruct Hm as [->|[->|[->|[->|[->|[->|[->|[->|[->|[->|[->| ->]]]]]]]]]]];
    destruct leap; eval_closed;
    match goal with |- context [?p >? r] => destruct (Z.gtb_spec p r) end;
    eexists _, _; (split; [reflexivity|]); eval_closed; lia.
Qed.

Lemma days_in_month_flag (y m : Z) :
  1 <= m <= 12 ->
  _days_in_month y m
  = PyDate.index _DAYS_IN_MONTH m + (if (m =? 2) && _is_leap y then 1 else 0).
Proof.
  intros Hm. unfold _days_in_month.
  destruct (Z.eqb_spec m 2) as [->|Hne]; cbn [andb]; [|lia].
  destruct (_is_leap y); reflexivity.
Qed.

(** [_ord2ymd] yields a well-formed date whose ordinal is the argument. *)
Lemma ord2ymd_spec (n : Z) :
  1 <= n ->
  exists y m d,
    _ord2ymd n = (y, m, d)
    /\ 1 <= y /\ 1 <= m <= 12 /\ 1 <= d <= _days_in_month y m
    /\ _ymd2ord y m d = n.
Proof.
  intros Hn. unfold _ord2ymd. cbv zeta.
  set (n0 := n - 1).
  set (a := n0 / _DI400Y). set (r1 := n0 mod _DI400Y).
  set (b := r1 / _DI100Y). set (r2 := r1 mod _DI100Y).
  set (c := r2 / _DI4Y). set (r3 := r2 mod _DI4Y).
  set (e := r3 / 365). set (r4 := r3 mod 365).
  assert (H1 : n0 = _DI400Y * a + r1 /\ 0 <= r1 < _DI400Y)
    by (subst a r1; unfold _DI400Y; Z.div_mod_to_equations; lia).
  assert (H2 : r1 = _DI100Y * b + r2 /\ 0 <= r2 < _DI100Y)
    by (subst b r2; unfold _DI100Y; Z.div_mod_to_equations; lia).
  assert (H3 : r2 = _DI4Y * c + r3 /\ 0 <= r3 < _DI4Y)
    by (subst c r3; unfold _DI4Y; Z.div_mod_to_equations; lia).
  assert (H4 : r3 = 365 * e + r4 /\ 0 <= r4 < 365)
    by (subst e r4; Z.div_mod_to_equations; lia).
  clearbody a r1 b r2 c r3 e r4.
  unfold _DI400Y, _DI100Y, _DI4Y in H1, H2, H3.
  assert (Ha : 0 <= a) by lia.
  assert (Hb : 0 <= b <= 4) by lia.
  assert (Hc : 0 <= c <= 24) by lia.
  assert (He : 0 <= e <= 4) by lia.
  destruct ((e =? 4) || (b =? 4)) eqn:Hlast.
  - (* the last day of a leap year *)
    assert (Hy : exists b' c',
               0 <= b' <= 3 /\ 0 <= c' <= 24 /\ (c' <> 24 \/ b' = 3)
               /\ a * 400 + 1 + b * 100 + c * 4 + e - 1
                  = 400 * a + 100 * b' + 4 * c' + 3 + 1
               /\ n = 146097 * a + 36524 * b' + 1461 * c' + 365 * 3 + 366).
    { apply orb_true_iff in Hlast as [He4|Hb4].
      - apply Z.eqb_eq in He4. exists b, c. lia.
      - apply Z.eqb_eq in Hb4. exists 3, 24. lia. }
    destruct Hy as (b' & c' & Hb' & Hc' & Hleap & Hyear & Hord).
    eexists _, _, _. split; [reflexivity|].
    rewrite Hyear. unfold _ymd2ord, _days_in_month, _days_before_month.
    rewrite days_before_year_decomp, is_leap_decomp by lia.
    unfold _DI400Y, _DI100Y, _DI4Y.
    assert (Hflag : (3 =? 3) && (negb (c' =? 24) || (b' =? 3)) = true).
    { cbn [Z.eqb andb Pos.eqb].
      destruct Hleap as [Hc24| ->]; [|now rewrite orb_true_r].
      apply Z.eqb_neq in Hc24. now rewrite Hc24. }
    rewrite Hflag. eval_closed. lia.
  - apply orb_false_iff in Hlast as [He4 Hb4].
    apply Z.eqb_neq in He4, Hb4.
    replace (a * 400 + 1 + b * 100 + c * 4 + e)
      with (400 * a + 100 * b + 4 * c + e + 1) by lia.
    set (y := 400 * a + 100 * b + 4 * c + e + 1).
    assert (Hleap : _is_leap y = (e =? 3) && (negb (c =? 24) || (b =? 3)))
      by (apply is_leap_decomp; lia).
    assert (Hdby : _days_before_year y = n - 1 - r4)
      by (unfold y; rewrite days_before_year_decomp by lia;
          unfold _DI400Y, _DI100Y, _DI4Y; lia).
    rewrite <- Hleap.
    destruct (month_of_day (_is_leap y) r4) as (m' & p' & Hsel & Hm' & Hp' & Hd).
    { destruct (_is_leap y); lia. }
    cbv zeta in Hsel.
    match goal with |- context [if ?t then _ else _] =>
      match type of Hsel with (if ?t' then _ else _) = _ =>
        change t with t'; destruct t' end end;
      injection Hsel as <- <-;
      (eexists _, _, _; split; [reflexivity|]);
      rewrite days_in_month_flag by lia;
      unfold _ymd2ord, _days_before_month; rewrite Hdby; lia.
Qed.

Lemma valid_wf (d : date) : valid d -> well_formed d /\ year d <= MAXYEAR.
Proof.
  unfold valid, _check_date_fields, well_formed, MINYEAR. intros H.
  repeat (apply andb_prop in H as [H ?]).
  repeat match goal with H : (_ <=? _) = true |- _ => apply Z.leb_le in H end.
  lia.
Qed.

Lemma wf_valid (d : date) : well_formed d -> year d <= MAXYEAR -> valid d.
Proof.
  unfold valid, _check_date_fields, well_formed, MINYEAR. intros (Hy & Hm & Hd) Hmax.
  repeat (apply andb_true_intro; split); apply Z.leb_le; lia.
Qed.

Lemma days_before_year_succ (y : Z) :
  1 <= y ->
  _days_before_year (y + 1)
  = _days_before_year y + 365 + (if _is_leap y then 1 else 0).
Proof.
  intros Hy. unfold _days_before_year, _is_leap. cbv zeta.
  replace (y + 1 - 1) with y by lia.
  destruct (Z.eqb_spec (y mod 4) 0) as [H4|H4]; cbn [andb];
    [destruct (Z.eqb_spec (y mod 100) 0) as [H100|H100]; cbn [negb orb];
     [destruct (Z.eqb_spec (y mod 400) 0) as [H400|H400]|]|];
    Z.div_mod_to_equations; lia.
Qed.

Lemma days_before_year_mono (y1 y2 : Z) :
  1 <= y1 <= y2 -> _days_before_year y1 <= _days_before_year y2.
Proof.
  intros H. unfold _days_before_year. cbv zeta.
  Z.div_mod_to_equations. lia.
Qed.

Lemma month_cases (m : Z) :
  1 <= m <= 12 ->
  m = 1 \/ m = 2 \/ m = 3 \/ m = 4 \/ m = 5 \/ m = 6 \/ m = 7
  \/ m = 8 \/ m = 9 \/ m = 10 \/ m = 11 \/ m = 12.
Proof. lia. Qed.

Ltac each_month H :=
  apply month_cases in H;
  destruct H as [->|[->|[->|[->|[->|[->|[->|[->|[->|[->|[->| ->]]]]]]]]]]].

(** The days of a year: bounds of a month's days, months in order, and
    the year's length. *)
Lemma days_in_month_pos (y m : Z) : 1 <= m <= 12 -> 28 <= _days_in_month y m <= 31.
Proof.
  intros Hm. unfold _days_in_month. each_month Hm;
    destruct (_is_leap y); eval_closed; lia.
Qed.

Lemma days_before_month_next (y m1 m2 : Z) :
  1 <= m1 -> m1 < m2 -> m2 <= 12 ->
  _days_before_month y m1 + _days_in_month y m1 <= _days_before_month y m2.
Proof.
  intros H1 H12 H2.
  assert (Hm1 : 1 <= m1 <= 12) by lia.
  assert (Hm2 : 1 <= m2 <= 12) by lia.
  unfold _days_before_month, _days_in_month.
  each_month Hm1; each_month Hm2; try lia;
    destruct (_is_leap y); eval_closed; lia.
Qed.

Lemma days_before_month_bounds (y m : Z) :
  1 <= m <= 12 ->
  0 <= _days_before_month y m
  /\ _days_before_month y m + _days_in_month y m
     <= 365 + (if _is_leap y then 1 else 0).
Proof.
  intros Hm. unfold _days_before_month, _days_in_month.
  each_month Hm; destruct (_is_leap y); eval_closed; lia.
Qed.

Lemma ltb_cases (a b : date) :
  PyDate.ltb a b = true
  <-> year a < year b
      \/ (year a = year b
          /\ (month a < month b \/ (month a = month b /\ day a < day b))).
Proof.
  unfold PyDate.ltb. cbn [tuple_ltb].
  rewrite andb_false_r, orb_false_r.
  rewrite orb_true_iff, andb_true_iff, orb_true_iff, andb_true_iff,
    !Z.ltb_lt, !Z.eqb_eq.
  tauto.
Qed.

(** The order of dates is the order of their ordinals. *)
Lemma toordinal_lt (a b : date) :
  well_formed a -> well_formed b -> PyDate.ltb a b = true -> toordinal a < toordinal b.
Proof.
  intros (Hya & Hma & Hda) (Hyb & Hmb & Hdb) Hlt.
  apply ltb_cases in Hlt. unfold toordinal, _ymd2ord.
  pose proof (days_before_month_bounds (year a) (month a) Hma) as [Ha0 Ha1].
  pose proof (days_before_month_bounds (year b) (month b) Hmb) as [Hb0 Hb1].
  destruct Hlt as [Hy | [Hy [Hm | [Hm Hd]]]].
  - pose proof (days_before_year_succ (year a) Hya) as Hs.
    pose proof (days_before_year_mono (year a + 1) (year b) ltac:(lia)) as Hmono.
    lia.
  - pose proof (days_before_month_next (year a) (month a) (month b)
                  ltac:(lia) Hm ltac:(lia)) as Hn.
    rewrite <- Hy. rewrite <- Hy in Hdb. lia.
  - rewrite Hy, Hm. lia.
Qed.

Lemma ltb_total (a b : date) :
  PyDate.ltb a b = false -> a = b \/ PyDate.ltb b a = true.
Proof.
  intros H. destruct (PyDate.ltb b a) eqn:Hba; [now right|left].
  assert (Hab : ~ (PyDate.ltb a b = true)) by congruence.
  assert (Hba' : ~ (PyDate.ltb b a = true)) by congruence.
  rewrite ltb_cases in Hab, Hba'.
  destruct a as [ya ma da], b as [yb mb db]. cbn in *.
  f_equal; lia.
Qed.

Lemma toordinal_ltb (a b : date) :
  well_formed a -> well_formed b -> (PyDate.ltb a b = true <-> toordinal a < toordinal b).
Proof.
  intros Ha Hb. split; [now apply toordinal_lt|].
  intros Hlt. destruct (PyDate.ltb a b) eqn:E; [reflexivity|].
  destruct (ltb_total a b E) as [->|Hba]; [lia|].
  pose proof (toordinal_lt b a Hb Ha Hba). lia.
Qed.

Lemma toordinal_leb (a b : date) :
  well_formed a -> well_formed b -> (PyDate.leb a b = true <-> toordinal a <= toordinal b).
Proof.
  intros Ha Hb. unfold PyDate.leb. rewrite negb_true_iff.
  pose proof (toordinal_ltb b a Hb Ha) as H.
  destruct (PyDate.ltb b a); split; intros Hx; try reflexivity.
  - discriminate.
  - assert (toordinal b < toordinal a) by (now apply H). lia.
  - destruct (Z_lt_le_dec (toordinal b) (toordinal a)) as [Hlt|Hle]; [|lia].
    apply H in Hlt. discriminate.
Qed.

Lemma toordinal_inj (a b : date) :
  well_formed a -> well_formed b -> toordinal a = toordinal b -> a = b.
Proof.
  intros Ha Hb Heq.
  destruct (PyDate.ltb a b) eqn:E.
  - pose proof (toordinal_lt a b Ha Hb E). lia.
  - destruct (ltb_total a b E) as [->|Hba]; [reflexivity|].
    pose proof (toordinal_lt b a Hb Ha Hba). lia.
Qed.

Lemma toordinal_pos (d : date) : well_formed d -> 1 <= toordinal d.
Proof.
  intros (Hy & Hm & Hd). unfold toordinal, _ymd2ord.
  pose proof (days_before_month_bounds (year d) (month d) Hm) as [H0 _].
  pose proof (days_before_year_mono 1 (year d) ltac:(lia)) as H1.
  change (_days_before_year 1) with 0 in H1. lia.
Qed.

Lemma fromordinal_spec (n : Z) :
  1 <= n -> well_formed (fromordinal n) /\ toordinal (fromordinal n) = n.
Proof.
  intros Hn. unfold fromordinal, toordinal, well_formed.
  destruct (ord2ymd_spec n Hn) as (y & m & d & -> & Hy & Hm & Hd & Ho).
  cbn. auto.
Qed.

Lemma fromordinal_toordinal (d : date) :
  well_formed d -> fromordinal (toordinal d) = d.
Proof.
  intros Hd. pose proof (toordinal_pos d Hd) as Hp.
  destruct (fromordinal_spec (toordinal d) Hp) as [Hwf Ho].
  now apply toordinal_inj.
Qed.

Lemma toordinal_max (d : date) : valid d -> toordinal d <= _MAXORDINAL.
Proof.
  intros Hv. apply valid_wf in Hv as [(Hy & Hm & Hd) Hmax].
  unfold toordinal, _ymd2ord, MAXYEAR in *.
  pose proof (days_before_month_bounds (year d) (month d) Hm) as [_ H1].
  pose proof (days_before_year_succ (year d) Hy) as Hs.
  pose proof (days_before_year_mono (year d + 1) 10000 ltac:(lia)) as Hmono.
  change (_days_before_year 10000) with 3652059 in Hmono.
  unfold _MAXORDINAL. lia.
Qed.

Lemma year_bound_of_ordinal (d : date) :
  well_formed d -> toordinal d <= _MAXORDINAL -> year d <= MAXYEAR.
Proof.
  intros (Hy & Hm & Hd) Hmax.
  destruct (Z_le_gt_dec (year d) MAXYEAR) as [H|H]; [exact H|].
  exfalso. unfold toordinal, _ymd2ord, MAXYEAR, _MAXORDINAL in *.
  pose proof (days_before_month_bounds (year d) (month d) Hm) as [H0 _].
  pose proof (days_before_year_mono 10000 (year d) ltac:(lia)) as Hmono.
  change (_days_before_year 10000) with 3652059 in Hmono.
  lia.
Qed.

Lemma fromordinal_valid (n : Z) :
  1 <= n <= _MAXORDINAL -> valid (fromordinal n).
Proof.
  intros [Hn Hmax]. destruct (fromordinal_spec n Hn) as [Hwf Ho].
  apply wf_valid; [exact Hwf|].
  apply year_bound_of_ordinal; [exact Hwf|]. now rewrite Ho.
Qed.
Local Close Scope Z_scope.

(** ** Decimal arithmetic on the numbers the columns hold *)

Section DecimalFacts.
Local Open Scope Q_scope.

Lemma pow10_pos k : 0 < Decimal.pow10 k.
Proof. apply Qpower_0_lt. reflexivity. Qed.

Lemma pow10_add a b :
  Decimal.pow10 (a + b) == Decimal.pow10 a * Decimal.pow10 b.
Proof. apply Qpower_plus. discriminate. Qed.

Lemma pow10_Z k : (0 <= k)%Z -> Decimal.pow10 k == inject_Z (10 ^ k).
Proof. intros Hk. unfold Decimal.pow10. now rewrite Zpower_Qpower. Qed.

Lemma pow10_cancel k : Decimal.pow10 k * Decimal.pow10 (- k) == 1.
Proof. rewrite <- pow10_add, Z.add_opp_diag_r. reflexivity. Qed.

Lemma pow10_lt_inv a b :
  Decimal.pow10 a < Decimal.pow10 b -> (a < b)%Z.
Proof. intros H. apply (Qpower_lt_compat_l_inv 10); [exact H | reflexivity]. Qed.

Lemma redondeo_par_Z q z : q == inject_Z z -> Decimal.redondeo_par q = z.
Proof.
  intros H. unfold Decimal.redondeo_par.
  rewrite (Qfloor_comp _ _ H), Qfloor_Z.
  assert (Hlt : (q - inject_Z z ?= 1 # 2) = Lt).
  { apply -> Qlt_alt. rewrite H. lra. }
  now rewrite Hlt.
Qed.

Lemma redondeo_par_nonneg q : 0 <= q -> (0 <= Decimal.redondeo_par q)%Z.
Proof.
  intros H. unfold Decimal.redondeo_par.
  pose proof (Qfloor_resp_le _ _ H) as Hf. change (Qfloor 0) with 0%Z in Hf.
  destruct (q - inject_Z (Qfloor q) ?= 1 # 2); [destruct (Z.even _)| |]; lia.
Qed.

(** A number with no more decimals than asked for is left as it is. *)
Lemma escala (dp dp' : Z) q k :
  (dp' <= dp)%Z -> q * Decimal.pow10 dp' == inject_Z k ->
  q * Decimal.pow10 dp == inject_Z (k * 10 ^ (dp - dp')).
Proof.
  intros Hle H.
  replace dp with (dp' + (dp - dp'))%Z at 1 by lia.
  rewrite pow10_add, Qmult_assoc, H, inject_Z_mult, pow10_Z by lia.
  reflexivity.
Qed.

Lemma cuantizar_exacto dp q k :
  q * Decimal.pow10 dp == inject_Z k -> Decimal.cuantizar dp q == q.
Proof.
  intros H. unfold Decimal.cuantizar.
  rewrite Qred_correct, (redondeo_par_Z _ _ H), <- H, <- Qmult_assoc,
    pow10_cancel.
  apply Qmult_1_r.
Qed.

Lemma cuantizar_nonneg dp q : 0 <= q -> 0 <= Decimal.cuantizar dp q.
Proof.
  intros H. unfold Decimal.cuantizar. rewrite Qred_correct.
  apply Qmult_le_0_compat; [| apply Qlt_le_weak, pow10_pos].
  change 0 with (inject_Z 0). rewrite <- Zle_Qle.
  apply redondeo_par_nonneg, Qmult_le_0_compat;
    [exact H | apply Qlt_le_weak, pow10_pos].
Qed.

Lemma en_columna_elim md dp q :
  Decimal.en_columna md dp q ->
  exists k, q * Decimal.pow10 dp == inject_Z k /\ (Z.abs k < 10 ^ md)%Z.
Proof.
  unfold Decimal.en_columna, Decimal.cabe. intros H.
  apply andb_prop in H as [Hi Hb].
  exists (Qfloor (q * Decimal.pow10 dp)). split.
  - symmetry. now apply Qeq_bool_eq.
  - now apply Z.ltb_lt.
Qed.

Lemma en_columna_intro md dp q k :
  q * Decimal.pow10 dp == inject_Z k -> (Z.abs k < 10 ^ md)%Z ->
  Decimal.en_columna md dp q.
Proof.
  intros H Hk. unfold Decimal.en_columna, Decimal.cabe. cbv zeta.
  rewrite (Qfloor_comp _ _ H), Qfloor_Z.
  apply andb_true_intro. split.
  - apply Qeq_eq_bool. now symmetry.
  - now apply Z.ltb_lt.
Qed.

Lemma format_number_exacto md dp q :
  Decimal.en_columna md dp q ->
  Decimal.format_number md dp q = Return (Decimal.cuantizar dp q)
  /\ Decimal.cuantizar dp q == q.
Proof.
  intros H. apply en_columna_elim in H as (k & H & Hk).
  unfold Decimal.format_number.
  rewrite (redondeo_par_Z _ _ H).
  destruct (Z.leb_spec (10 ^ md) (Z.abs k)); [lia |].
  split; [reflexivity | exact (cuantizar_exacto _ _ _ H)].
Qed.

Lemma digitos_desde_spec f :
  forall z, (0 < z < 2 ^ (Z.of_nat f + 1))%Z ->
    (1 <= Decimal.digitos_desde f z
     /\ 10 ^ (Decimal.digitos_desde f z - 1) <= z
        < 10 ^ Decimal.digitos_desde f z)%Z.
Proof.
  induction f as [| f IH]; intros z Hz; cbn [Decimal.digitos_desde].
  - change (2 ^ (Z.of_nat 0 + 1))%Z with 2%Z in Hz.
    change (10 ^ (1 - 1))%Z with 1%Z. change (10 ^ 1)%Z with 10%Z. lia.
  - destruct (Z.ltb_spec z 10) as [Hlt | Hge].
    + change (10 ^ (1 - 1))%Z with 1%Z. change (10 ^ 1)%Z with 10%Z. lia.
    + assert (Hp : (2 ^ (Z.of_nat (S f) + 1) = 2 * 2 ^ (Z.of_nat f + 1))%Z).
      { rewrite <- Z.pow_succ_r by lia. f_equal. lia. }
      assert (Hpos : (0 < 2 ^ (Z.of_nat f + 1))%Z) by (apply Z.pow_pos_nonneg; lia).
      destruct (IH (z / 10)%Z) as (H1 & H2 & H3).
      { split.
        - apply Z.div_str_pos. lia.
        - apply Z.div_lt_upper_bound; lia. }
      set (d := Decimal.digitos_desde f (z / 10)) in *.
      replace (1 + d - 1)%Z with (Z.succ (d - 1)) by lia.
      replace (1 + d)%Z with (Z.succ d) by lia.
      rewrite !Z.pow_succ_r by lia.
      pose proof (Z.div_mod z 10 ltac:(lia)) as Hdm.
      pose proof (Z.mod_pos_bound z 10 ltac:(lia)) as Hm.
      lia.
Qed.

Lemma digitos_spec z :
  (0 < z)%Z ->
  (1 <= Decimal.digitos z
   /\ 10 ^ (Decimal.digitos z - 1) <= z < 10 ^ Decimal.digitos z)%Z.
Proof.
  intros Hz. apply digitos_desde_spec.
  rewrite Z2Nat.id by apply Z.log2_nonneg.
  pose proof (Z.log2_spec z Hz) as [_ H].
  replace (Z.log2 z + 1)%Z with (Z.succ (Z.log2 z)) by lia. lia.
Qed.

Lemma Qfrac_le (a b c d : Z) :
  (0 < b)%Z -> (0 < d)%Z -> (a * d <= c * b)%Z ->
  inject_Z a / inject_Z b <= inject_Z c / inject_Z d.
Proof.
  intros Hb Hd H.
  assert (0 < inject_Z b) by (change 0 with (inject_Z 0); now rewrite <- Zlt_Qlt).
  assert (0 < inject_Z d) by (change 0 with (inject_Z 0); now rewrite <- Zlt_Qlt).
  apply Qle_shift_div_l; [assumption |].
  assert (E : inject_Z a / inject_Z b * inject_Z d
              == inject_Z (a * d) / inject_Z b).
  { rewrite inject_Z_mult. field. lra. }
  rewrite E. apply Qle_shift_div_r; [assumption |].
  rewrite <- inject_Z_mult, <- Zle_Qle. exact H.
Qed.

Lemma Qfrac_lt (a b c d : Z) :
  (0 < b)%Z -> (0 < d)%Z -> (a * d < c * b)%Z ->
  inject_Z a / inject_Z b < inject_Z c / inject_Z d.
Proof.
  intros Hb Hd H.
  assert (0 < inject_Z b) by (change 0 with (inject_Z 0); now rewrite <- Zlt_Qlt).
  assert (0 < inject_Z d) by (change 0 with (inject_Z 0); now rewrite <- Zlt_Qlt).
  apply Qlt_shift_div_l; [assumption |].
  assert (E : inject_Z a / inject_Z b * inject_Z d
              == inject_Z (a * d) / inject_Z b).
  { rewrite inject_Z_mult. field. lra. }
  rewrite E. apply Qlt_shift_div_r; [assumption |].
  rewrite <- inject_Z_mult, <- Zlt_Qlt. exact H.
Qed.

Lemma pow10_frac (a b : Z) :
  (0 <= a)%Z -> (0 <= b)%Z ->
  Decimal.pow10 (a - b) == inject_Z (10 ^ a) / inject_Z (10 ^ b).
Proof.
  intros Ha Hb. unfold Decimal.pow10.
  rewrite Qpower_minus by discriminate.
  now rewrite <- !pow10_Z.
Qed.

(** [exponente] is the exponent of the first significant digit. *)
Lemma exponente_spec q :
  ~ q == 0 ->
  Decimal.pow10 (Decimal.exponente q) <= Qabs q
  /\ Qabs q < Decimal.pow10 (Decimal.exponente q + 1).
Proof.
  intros Hq. unfold Decimal.exponente.
  destruct q as [n d]. cbn [Qnum Qden].
  assert (Hn : (0 < Z.abs n)%Z).
  { destruct (Z.eq_dec n 0%Z) as [-> |]; [| lia]. now destruct Hq. }
  destruct (digitos_spec _ Hn) as (Hn1 & Hn2 & Hn3).
  destruct (digitos_spec (Zpos d) ltac:(lia)) as (Hd1 & Hd2 & Hd3).
  set (dn := Decimal.digitos (Z.abs n)) in *.
  set (dd := Decimal.digitos (Zpos d)) in *.
  assert (Habs : Qabs (n # d) == inject_Z (Z.abs n) / inject_Z (Zpos d)).
  { rewrite <- Zabs_Qabs. now rewrite (Qmake_Qdiv (Z.abs n) d). }
  assert (P1 : (0 < 10 ^ (dn - 1))%Z) by (apply Z.pow_pos_nonneg; lia).
  assert (P2 : (0 < 10 ^ (dd - 1))%Z) by (apply Z.pow_pos_nonneg; lia).
  assert (E1 : (10 ^ dn = 10 * 10 ^ (dn - 1))%Z).
  { rewrite <- Z.pow_succ_r by lia. f_equal. lia. }
  assert (E2 : (10 ^ dd = 10 * 10 ^ (dd - 1))%Z).
  { rewrite <- Z.pow_succ_r by lia. f_equal. lia. }
  destruct (Qle_bool (Decimal.pow10 (dn - dd)) (Qabs (n # d))) eqn:Hb.
  - split; [now apply Qle_bool_iff |].
    rewrite Habs.
    replace (dn - dd + 1)%Z with (dn - (dd - 1))%Z by lia.
    rewrite pow10_frac by lia.
    apply Qfrac_lt; [lia | lia | nia].
  - split.
    + rewrite Habs.
      replace (dn - dd - 1)%Z with ((dn - 1) - dd)%Z by lia.
      rewrite pow10_frac by lia.
      apply Qfrac_le; [lia | lia | nia].
    + replace (dn - dd - 1 + 1)%Z with (dn - dd)%Z by lia.
      apply Qnot_le_lt. intros Hle.
      apply Qle_bool_iff in Hle. congruence.
Qed.

Lemma exponente_lt q m :
  ~ q == 0 -> Qabs q < Decimal.pow10 m -> (Decimal.exponente q < m)%Z.
Proof.
  intros Hq Hm. apply pow10_lt_inv.
  destruct (exponente_spec q Hq) as [Hlo _].
  eapply Qle_lt_trans; eassumption.
Qed.

(** An exact result of at most 28 digits is not rounded. *)
Lemma redondear_exacto dp q k :
  q * Decimal.pow10 dp == inject_Z k -> (Z.abs k < 10 ^ Decimal.prec)%Z ->
  Decimal.redondear q == q.
Proof.
  intros H Hk. unfold Decimal.redondear.
  destruct (Qeq_bool q 0) eqn:Hz; [reflexivity |].
  apply Qeq_bool_neq in Hz.
  assert (Hq : q == inject_Z k * Decimal.pow10 (- dp)).
  { rewrite <- H, <- Qmult_assoc, pow10_cancel. now rewrite Qmult_1_r. }
  assert (He : (Decimal.exponente q < Decimal.prec - dp)%Z).
  { apply exponente_lt; [exact Hz |].
    rewrite Hq, Qabs_Qmult.
    rewrite (Qabs_pos (Decimal.pow10 (- dp)))
      by apply Qlt_le_weak, pow10_pos.
    replace (Decimal.prec - dp)%Z with (Decimal.prec + - dp)%Z by lia.
    rewrite pow10_add.
    apply Qmult_lt_compat_r; [apply pow10_pos |].
    rewrite pow10_Z by (unfold Decimal.prec; lia).
    change (inject_Z k) with (k # 1). rewrite <- Zabs_Qabs.
    change (Z.abs k # 1) with (inject_Z (Z.abs k)).
    now rewrite <- Zlt_Qlt. }
  eapply cuantizar_exacto, (escala _ dp); [lia | exact H].
Qed.

Lemma redondear_nonneg q : 0 <= q -> 0 <= Decimal.redondear q.
Proof.
  intros H. unfold Decimal.redondear.
  destruct (Qeq_bool q 0); [exact H | now apply cuantizar_nonneg].
Qed.

Lemma format_number_raises md dp q e :
  Decimal.format_number md dp q = Raises e -> exists msg, e = InvalidOperation msg.
Proof.
  unfold Decimal.format_number.
  destruct (10 ^ md <=? _)%Z; intros [=]. subst e. eauto.
Qed.

Lemma en_columna_comp md dp q q' :
  q == q' -> Decimal.en_columna md dp q -> Decimal.en_columna md dp q'.
Proof.
  intros E H. apply en_columna_elim in H as (k & H & Hk).
  apply (en_columna_intro _ _ _ k); [now rewrite <- E | exact Hk].
Qed.

Lemma en_columna_opp md dp q :
  Decimal.en_columna md dp q -> Decimal.en_columna md dp (- q).
Proof.
  intros H. apply en_columna_elim in H as (k & H & Hk).
  apply (en_columna_intro _ _ _ (- k)%Z); [| lia].
  rewrite inject_Z_opp, <- H. ring.
Qed.

Lemma en_columna_sub md dp a b :
  Decimal.en_columna md dp a -> Decimal.en_columna md dp b ->
  0 <= b -> b <= a -> Decimal.en_columna md dp (a - b).
Proof.
  intros Ha Hb H0 Hle.
  apply en_columna_elim in Ha as (ka & Ha & Hka).
  apply en_columna_elim in Hb as (kb & Hb & Hkb).
  pose proof (pow10_pos dp) as Hp.
  assert (H1 : (0 <= kb)%Z).
  { rewrite Zle_Qle, <- Hb. apply Qmult_le_0_compat; [exact H0 | lra]. }
  assert (H2 : (kb <= ka)%Z).
  { rewrite Zle_Qle, <- Ha, <- Hb. apply Qmult_le_compat_r; [exact Hle | lra]. }
  apply (en_columna_intro _ _ _ (ka - kb)%Z); [| lia].
  unfold Z.sub. rewrite inject_Z_plus, inject_Z_opp, <- Ha, <- Hb. ring.
Qed.

(** A value that fits a column is not rounded by the context. *)
Lemma redondear_en_columna md dp q :
  (0 <= md <= Decimal.prec)%Z -> Decimal.en_columna md dp q ->
  Decimal.redondear q == q.
Proof.
  intros Hmd H. apply en_columna_elim in H as (k & H & Hk).
  apply (redondear_exacto dp q k H).
  eapply Z.lt_le_trans; [exact Hk |].
  apply Z.pow_le_mono_r; lia.
Qed.

(** The digits of exact products, sums and quotients by 100. *)
Lemma de_columna md dp q :
  Decimal.en_columna md dp q -> decimal_de dp (10 ^ md) q.
Proof. exact (en_columna_elim md dp q). Qed.

Lemma de_comp dp cota q q' : q == q' -> decimal_de dp cota q -> decimal_de dp cota q'.
Proof. intros E (k & H & Hk). exists k. split; [now rewrite <- E | exact Hk]. Qed.

Lemma de_redondear dp cota q :
  (cota <= 10 ^ Decimal.prec)%Z -> decimal_de dp cota q ->
  Decimal.redondear q == q.
Proof. intros Hc (k & H & Hk). apply (redondear_exacto dp q k H). lia. Qed.

Lemma de_mul d1 c1 d2 c2 a b :
  decimal_de d1 c1 a -> decimal_de d2 c2 b -> decimal_de (d1 + d2) (c1 * c2) (a * b).
Proof.
  intros (ka & Ha & Hka) (kb & Hb & Hkb). exists (ka * kb)%Z. split.
  - rewrite pow10_add, inject_Z_mult, <- Ha, <- Hb. ring.
  - rewrite Z.abs_mul. nia.
Qed.

Lemma de_add d c1 c2 a b :
  decimal_de d c1 a -> decimal_de d c2 b -> decimal_de d (c1 + c2) (a + b).
Proof.
  intros (ka & Ha & Hka) (kb & Hb & Hkb). exists (ka + kb)%Z. split.
  - rewrite inject_Z_plus, <- Ha, <- Hb. ring.
  - lia.
Qed.

Lemma de_escala d d' c q :
  (d <= d')%Z -> decimal_de d c q -> decimal_de d' (c * 10 ^ (d' - d)) q.
Proof.
  intros Hd (k & H & Hk). exists (k * 10 ^ (d' - d))%Z. split.
  - now apply escala.
  - assert (0 < 10 ^ (d' - d))%Z by (apply Z.pow_pos_nonneg; lia).
    rewrite Z.abs_mul, (Z.abs_eq (10 ^ (d' - d))) by lia. nia.
Qed.

Lemma de_div100 d c q : decimal_de d c q -> decimal_de (d + 2) c (q / 100).
Proof.
  intros (k & H & Hk). exists k. split; [| exact Hk].
  rewrite pow10_add, <- H.
  change (Decimal.pow10 2) with 100. field.
Qed.

End DecimalFacts.

(** ** The framework's save *)

Section SuperSave.
Context {R : Type} `{Django.Model R}.

(** [super().save()] never raises; the instance it leaves is a row of
    the table, and it is the instance given unless a key was assigned. *)
Lemma super_save_ok (o : R) (tbl : list R) :
  exists o' tbl',
    Django.super_save (o, tbl) = Ok tt (o', tbl')
    /\ In o' tbl'
    /\ ((exists k, Django.pk o = Some k /\ o' = o)
        \/ (Django.pk o = None
            /\ o' = Django.with_pk (Django.next_pk tbl) o)).
Proof.
  unfold Django.super_save.
  destruct (Django.pk o) as [k|] eqn:Hk.
  - destruct (existsb (Django.has_pk k) tbl) eqn:Hex.
    + eexists _, _. split; [reflexivity|]. split; [|left; eauto].
      apply existsb_exists in Hex as (r & Hr & Hp).
      apply in_map_iff. exists r. now rewrite Hp.
    + eexists _, _. split; [reflexivity|]. split; [|left; eauto].
      apply in_or_app. right. now left.
  - eexists _, _. split; [reflexivity|]. split; [|right; now split].
    apply in_or_app. right. now left.
Qed.

(** The same on decimal columns: the row written is the adapted one. *)
Lemma super_save_decimal_insert (prep : R -> outcome R) (o row : R)
    (tbl : list R) :
  prep o = Return row -> Django.pk o = None ->
  Django.super_save_decimal prep (o, tbl)
  = Ok tt (Django.with_pk (Django.next_pk tbl) o,
           tbl ++ [Django.with_pk (Django.next_pk tbl) row]).
Proof.
  intros Hp Hk. unfold Django.super_save_decimal. now rewrite Hp, Hk.
Qed.

Lemma super_save_decimal_update (prep : R -> outcome R) (o row : R)
    (tbl : list R) (k : nat) :
  prep o = Return row -> Django.pk o = Some k ->
  exists tbl',
    Django.super_save_decimal prep (o, tbl) = Ok tt (o, tbl') /\ In row tbl'.
Proof.
  intros Hp Hk. unfold Django.super_save_decimal. rewrite Hp, Hk.
  destruct (existsb (Django.has_pk k) tbl) eqn:Hex.
  - eexists. split; [reflexivity|].
    apply existsb_exists in Hex as (r & Hr & Hpk).
    apply in_map_iff. exists r. now rewrite Hpk.
  - eexists. split; [reflexivity|]. apply in_or_app. right. now left.
Qed.

Lemma super_save_decimal_raises (prep : R -> outcome R) (o : R) (e : exn)
    (tbl : list R) :
  prep o = Raises e ->
  Django.super_save_decimal prep (o, tbl) = Raise e (o, tbl).
Proof.
  intros Hp. unfold Django.super_save_decimal. now rewrite Hp.
Qed.
End SuperSave.

(** ** IngresoGasto *)

Lemma dec_le_spec (a b : Q) : dec_le a b = true <-> (a <= b)%Q.
Proof. apply Qle_bool_iff. Qed.

Lemma dec_lt_spec (a b : Q) : dec_lt a b = true <-> (a < b)%Q.
Proof.
  unfold dec_lt. rewrite negb_true_iff.
  split; intros Hx.
  - apply Qnot_le_lt. intros Hle. apply Qle_bool_iff in Hle. congruence.
  - destruct (Qle_bool b a) eqn:E; [|reflexivity].
    apply Qle_bool_iff in E. exfalso. exact (Qlt_not_le _ _ Hx E).
Qed.

(** What [IngresoGasto.save] does when the amount is positive: the sign
    is flipped for a [gasto] and the instance goes to the framework. *)
Lemma IngresoGasto_save_positive (x : IngresoGasto.t) (tbl : IngresoGasto.table) :
  (0 < IngresoGasto.monto x)%Q ->
  IngresoGasto.save (x, tbl) =
    Django.super_save
      (if String.eqb (IngresoGasto.tipo x) "gasto"
       then IngresoGasto.set_monto (- IngresoGasto.monto x) x else x, tbl).
Proof.
  intros Hpos. unfold IngresoGasto.save. run.
  destruct (dec_le (IngresoGasto.monto x) 0) eqn:Hle.
  - apply dec_le_spec in Hle. exfalso. exact (Qlt_not_le _ _ Hpos Hle).
  - apply dec_lt_spec in Hpos. rewrite Hpos, andb_true_r.
    now destruct (String.eqb (IngresoGasto.tipo x) "gasto").
Qed.

Lemma IngresoGasto_save_not_positive (x : IngresoGasto.t) (tbl : IngresoGasto.table) :
  (IngresoGasto.monto x <= 0)%Q ->
  IngresoGasto.save (x, tbl) =
    Raise (ValueError "El monto debe ser positivo") (x, tbl).
Proof.
  intros Hle. unfold IngresoGasto.save. run.
  apply dec_le_spec in Hle. now rewrite Hle.
Qed.




(** The cancellation of a transaction, case by case. *)
Lemma IngresoGasto_anular_already (x : IngresoGasto.t) (tbl : IngresoGasto.table)
    (motivo : option string) :
  IngresoGasto.estado x = "anulado" ->
  IngresoGasto.anular motivo (x, tbl) = Ok false (x, tbl).
Proof.
  intros He. unfold IngresoGasto.anular. run. now rewrite He.
Qed.

Lemma IngresoGasto_anular_unfold (x : IngresoGasto.t) (tbl : IngresoGasto.table)
    (motivo : option string) :
  IngresoGasto.estado x <> "anulado" ->
  IngresoGasto.anular motivo (x, tbl) =
    match IngresoGasto.save (anulado_con motivo x, tbl) with
    | Ok _ s => Ok true s
    | Raise e s => Raise e s
    end.
Proof.
  intros He. unfold IngresoGasto.anular, anulado_con. run.
  destruct (String.eqb (IngresoGasto.estado x) "anulado") eqn:E.
  - apply String.eqb_eq in E. contradiction.
  - destruct (opt_truthy str_truthy motivo); reflexivity.
Qed.

(** With a positive amount the cancellation goes through. *)
Lemma IngresoGasto_anular_positive (x : IngresoGasto.t) (tbl : IngresoGasto.table)
    (motivo : option string) :
  IngresoGasto.estado x <> "anulado" ->
  (0 < IngresoGasto.monto x)%Q ->
  exists x' tbl',
    IngresoGasto.anular motivo (x, tbl) = Ok true (x', tbl')
    /\ In x' tbl'
    /\ IngresoGasto.estado x' = "anulado".
Proof.
  intros He Hpos. rewrite IngresoGasto_anular_unfold by exact He.
  assert (Hm : IngresoGasto.monto (anulado_con motivo x) = IngresoGasto.monto x).
  { unfold anulado_con. now destruct (opt_truthy str_truthy motivo). }
  assert (Hest : IngresoGasto.estado (anulado_con motivo x) = "anulado").
  { unfold anulado_con. now destruct (opt_truthy str_truthy motivo). }
  rewrite IngresoGasto_save_positive by (rewrite Hm; exact Hpos).
  match goal with |- context [Django.super_save (?y, tbl)] =>
    destruct (super_save_ok y tbl) as (x' & tbl' & Hs & Hin & Hshape);
    assert (Hy : IngresoGasto.estado y = "anulado")
      by (destruct (String.eqb _ "gasto"); exact Hest)
  end.
  rewrite Hs. exists x', tbl'. split; [reflexivity|]. split; [exact Hin|].
  destruct Hshape as [(k & _ & ->) | [_ ->]]; exact Hy.
Qed.

(** With an amount that is not positive, as every stored [gasto] has,
    the cancellation raises out of [save]: the instance in memory is
    already marked, the table is not written. *)
Lemma IngresoGasto_anular_not_positive (x : IngresoGasto.t) (tbl : IngresoGasto.table)
    (motivo : option string) :
  IngresoGasto.estado x <> "anulado" ->
  (IngresoGasto.monto x <= 0)%Q ->
  IngresoGasto.anular motivo (x, tbl) =
    Raise (ValueError "El monto debe ser positivo") (anulado_con motivo x, tbl).
Proof.
  intros He Hle. rewrite IngresoGasto_anular_unfold by exact He.
  rewrite IngresoGasto_save_not_positive; [reflexivity|].
  unfold anulado_con. now destruct (opt_truthy str_truthy motivo).
Qed.

(** ** SeguimientoIncidencia *)

(** C8. [notificar_propietario] returns the visibility flag of the
    follow-up and leaves the instance and everything else as they were. *)
Theorem notificar_propietario_spec (T : Type) (x : SeguimientoIncidencia.t) (w : T) :
  SeguimientoIncidencia.notificar_propietario (x, w)
  = Ok (SeguimientoIncidencia.visible_para_propietario x) (x, w).
Proof.
  unfold SeguimientoIncidencia.notificar_propietario. run.
  now destruct (SeguimientoIncidencia.visible_para_propietario x).
Qed.

(** ** FondoReserva *)

Lemma FondoReserva_prep_ok (x : FondoReserva.t) :
  fondo_en_columnas x ->
  exists fila,
    FondoReserva.get_db_prep_save x = Return fila
    /\ FondoReserva.pk fila = FondoReserva.pk x
    /\ (FondoReserva.monto_actual fila == FondoReserva.monto_actual x)%Q.
Proof.
  intros (Ho & Ha & Hp). unfold FondoReserva.get_db_prep_save.
  destruct (format_number_exacto _ _ _ Ho) as [-> _].
  destruct (format_number_exacto _ _ _ Ha) as [-> Ea].
  destruct (format_number_exacto _ _ _ Hp) as [-> _].
  eexists. split; [reflexivity|]. split; [reflexivity|exact Ea].
Qed.

Lemma FondoReserva_prep_raises (x : FondoReserva.t) (e : exn) :
  FondoReserva.get_db_prep_save x = Raises e -> exists msg, e = InvalidOperation msg.
Proof.
  unfold FondoReserva.get_db_prep_save.
  destruct (Decimal.format_number 12 2 (FondoReserva.monto_objetivo x)) eqn:H1;
    [|intros [= <-]; exact (format_number_raises _ _ _ _ H1)].
  destruct (Decimal.format_number 12 2 (FondoReserva.monto_actual x)) eqn:H2;
    [|intros [= <-]; exact (format_number_raises _ _ _ _ H2)].
  destruct (Decimal.format_number 5 2 (FondoReserva.porcentaje_cuota x)) eqn:H3;
    [discriminate|intros [= <-]; exact (format_number_raises _ _ _ _ H3)].
Qed.

(** [save] of a fund whose numbers fit the columns: the row of the
    instance is in the table, with its balance. *)
Lemma FondoReserva_save_ok (x : FondoReserva.t) (d : FondoReserva.db) :
  fondo_en_columnas x ->
  exists x' d',
    FondoReserva.save (x, d) = Ok tt (x', d')
    /\ fila_del_fondo x' (FondoReserva.fondos d')
    /\ FondoReserva.movimientos d' = FondoReserva.movimientos d
    /\ FondoReserva.monto_actual x' = FondoReserva.monto_actual x
    /\ FondoReserva.nombre x' = FondoReserva.nombre x.
Proof.
  intros Hc. destruct (FondoReserva_prep_ok x Hc) as (fila & Hp & Hk & Hm).
  unfold FondoReserva.save. run.
  destruct (FondoReserva.pk x) as [k|] eqn:Hpk.
  - destruct (@super_save_decimal_update _ FondoReserva.model _ x fila (FondoReserva.fondos d) k Hp Hpk)
      as (tbl' & Hs & Hin).
    rewrite Hs. eexists _, _. split; [reflexivity|]. cbn.
    split; [|now repeat split].
    exists fila. split; [exact Hin|]. split; [congruence|exact Hm].
  - rewrite (@super_save_decimal_insert _ FondoReserva.model _ x fila (FondoReserva.fondos d) Hp Hpk).
    eexists _, _. split; [reflexivity|]. cbn.
    split; [|now repeat split].
    eexists. split; [apply in_or_app; right; now left|].
    split; [reflexivity|exact Hm].
Qed.

(** Whatever the numbers, [save] either stores or raises
    [InvalidOperation] out of the adaptation, the table untouched. *)
Lemma FondoReserva_save_any (x : FondoReserva.t) (d : FondoReserva.db) :
  (exists x' d',
     FondoReserva.save (x, d) = Ok tt (x', d')
     /\ FondoReserva.movimientos d' = FondoReserva.movimientos d
     /\ FondoReserva.monto_actual x' = FondoReserva.monto_actual x)
  \/ (exists msg, FondoReserva.save (x, d) = Raise (InvalidOperation msg) (x, d)).
Proof.
  destruct d as [fs ms]. unfold FondoReserva.save. run.
  cbn [FondoReserva.fondos].
  destruct (FondoReserva.get_db_prep_save x) as [fila|e] eqn:Hp.
  - left. destruct (FondoReserva.pk x) as [k|] eqn:Hpk.
    + destruct (@super_save_decimal_update _ FondoReserva.model _ x fila fs k Hp Hpk) as (tbl' & Hs & _).
      rewrite Hs. eexists _, _. split; [reflexivity|]. now split.
    + rewrite (@super_save_decimal_insert _ FondoReserva.model _ x fila fs Hp Hpk).
      eexists _, _. split; [reflexivity|]. now split.
  - right. destruct (FondoReserva_prep_raises x e Hp) as (msg & ->).
    rewrite (@super_save_decimal_raises _ FondoReserva.model _ x _ fs Hp). now exists msg.
Qed.

(** [objects.create] of a movement whose amount fits the column appends
    its row. *)
Lemma MovimientoFondo_create_ok (mv : MovimientoFondo.t)
    (tbl : list MovimientoFondo.t) :
  MovimientoFondo.pk mv = None ->
  Decimal.en_columna 12 2 (MovimientoFondo.monto mv) ->
  exists fila,
    MovimientoFondo.objects_create mv tbl
    = Ok (MovimientoFondo.set_pk (Django.next_pk tbl) mv) (tbl ++ [fila])
    /\ MovimientoFondo.pk fila = Some (Django.next_pk tbl)
    /\ MovimientoFondo.fondo fila = MovimientoFondo.fondo mv
    /\ MovimientoFondo.tipo fila = MovimientoFondo.tipo mv
    /\ (MovimientoFondo.monto fila == MovimientoFondo.monto mv)%Q.
Proof.
  intros Hk Hc. destruct (format_number_exacto _ _ _ Hc) as [Hf Hq].
  unfold MovimientoFondo.objects_create.
  erewrite super_save_decimal_insert;
    [|unfold MovimientoFondo.get_db_prep_save; rewrite Hf; reflexivity|exact Hk].
  eexists. split; [reflexivity|]. cbn. now repeat split.
Qed.

Lemma MovimientoFondo_create_any (mv : MovimientoFondo.t)
    (tbl : list MovimientoFondo.t) :
  MovimientoFondo.pk mv = None ->
  (exists fila,
     MovimientoFondo.objects_create mv tbl
     = Ok (MovimientoFondo.set_pk (Django.next_pk tbl) mv) (tbl ++ [fila]))
  \/ (exists msg,
        MovimientoFondo.objects_create mv tbl = Raise (InvalidOperation msg) tbl).
Proof.
  intros Hk. unfold MovimientoFondo.objects_create.
  destruct (MovimientoFondo.get_db_prep_save mv) as [fila|e] eqn:Hp.
  - left. rewrite (@super_save_decimal_insert _ MovimientoFondo.model _ mv fila tbl Hp Hk).
    eexists. reflexivity.
  - right. rewrite (@super_save_decimal_raises _ MovimientoFondo.model _ mv e tbl Hp).
    unfold MovimientoFondo.get_db_prep_save in Hp.
    destruct (Decimal.format_number 12 2 (MovimientoFondo.monto mv)) eqn:Hf;
      [discriminate|].
    injection Hp as <-.
    destruct (format_number_raises _ _ _ _ Hf) as (msg & ->). now exists msg.
Qed.

Lemma registrar_aporte_raises (x : FondoReserva.t) (d : FondoReserva.db)
    (monto : Q) (descripcion : option string) :
  (monto <= 0)%Q ->
  FondoReserva.registrar_aporte monto descripcion (x, d)
  = Raise (ValueError "El monto debe ser positivo") (x, d).
Proof.
  intros Hle. unfold FondoReserva.registrar_aporte.
  apply dec_le_spec in Hle. now rewrite Hle.
Qed.

(** The steps of [registrar_aporte] past its check. *)
Lemma registrar_aporte_positive (x : FondoReserva.t) (d : FondoReserva.db)
    (monto : Q) (descripcion : option string) :
  (0 < monto)%Q ->
  FondoReserva.registrar_aporte monto descripcion (x, d)
  = match FondoReserva.save
            (FondoReserva.set_monto_actual
               (Decimal.add (FondoReserva.monto_actual x) monto) x, d) with
    | Ok _ (x', d') =>
        match MovimientoFondo.objects_create
                (MovimientoFondo.mk None (FondoReserva.pk x') "ingreso" monto
                   (if opt_truthy str_truthy descripcion
                    then default "" descripcion
                    else "Aporte al fondo " ++ FondoReserva.nombre x'))
                (FondoReserva.movimientos d') with
        | Ok mv tbl => Ok mv (x', FondoReserva.set_movimientos tbl d')
        | Raise e tbl => Raise e (x', FondoReserva.set_movimientos tbl d')
        end
    | Raise e s => Raise e s
    end.
Proof.
  intros Hpos. unfold FondoReserva.registrar_aporte.
  destruct (dec_le monto 0) eqn:Hle.
  { apply dec_le_spec in Hle. exfalso. exact (Qlt_not_le _ _ Hpos Hle). }
  run.
  destruct (FondoReserva.save _) as [[] [x' d']|e [x' d']]; [|reflexivity].
  cbn [fst snd].
  destruct (MovimientoFondo.objects_create _ _); reflexivity.
Qed.

(** Past the check the balance in memory is the rounded sum, whether the
    call returns or raises; it raises nothing but [InvalidOperation]. *)
Lemma registrar_aporte_any (x : FondoReserva.t) (d : FondoReserva.db)
    (monto : Q) (descripcion : option string) :
  (0 < monto)%Q ->
  FondoReserva.monto_actual
    (fst (final (FondoReserva.registrar_aporte monto descripcion (x, d))))
  = Decimal.add (FondoReserva.monto_actual x) monto
  /\ (forall e s,
        FondoReserva.registrar_aporte monto descripcion (x, d) = Raise e s ->
        exists msg, e = InvalidOperation msg).
Proof.
  intros Hpos. rewrite registrar_aporte_positive by exact Hpos.
  destruct (FondoReserva_save_any
              (FondoReserva.set_monto_actual
                 (Decimal.add (FondoReserva.monto_actual x) monto) x) d)
    as [(x' & d' & -> & Hmov & Hma) | (msg & ->)].
  - match goal with |- context [MovimientoFondo.objects_create ?m ?t] =>
      destruct (MovimientoFondo_create_any m t eq_refl) as [(fila & ->) | (msg & ->)]
    end; cbn [final fst]; (split; [exact Hma|]); intros e s [=]; subst; eauto.
  - cbn [final fst]. split; [reflexivity|]. intros e s [=]; subst; eauto.
Qed.

Lemma registrar_aporte_ok (x : FondoReserva.t) (d : FondoReserva.db)
    (monto : Q) (descripcion : option string) :
  (0 < monto)%Q ->
  fondo_en_columnas x ->
  Decimal.en_columna 12 2 monto ->
  Decimal.en_columna 12 2 (FondoReserva.monto_actual x + monto) ->
  exists mv x' d' fila,
    FondoReserva.registrar_aporte monto descripcion (x, d) = Ok mv (x', d')
    /\ (FondoReserva.monto_actual x' == FondoReserva.monto_actual x + monto)%Q
    /\ fila_del_fondo x' (FondoReserva.fondos d')
    /\ MovimientoFondo.tipo mv = "ingreso"
    /\ MovimientoFondo.monto mv = monto
    /\ MovimientoFondo.fondo mv = FondoReserva.pk x'
    /\ FondoReserva.movimientos d' = FondoReserva.movimientos d ++ [fila]
    /\ MovimientoFondo.pk fila = MovimientoFondo.pk mv
    /\ MovimientoFondo.fondo fila = FondoReserva.pk x'
    /\ MovimientoFondo.tipo fila = "ingreso"
    /\ (MovimientoFondo.monto fila == monto)%Q.
Proof.
  intros Hpos (Ho & Ha & Hp) Hm Hsum.
  rewrite registrar_aporte_positive by exact Hpos.
  assert (Hadd : (Decimal.add (FondoReserva.monto_actual x) monto
                  == FondoReserva.monto_actual x + monto)%Q).
  { apply (redondear_en_columna 12 2); [unfold Decimal.prec; lia|exact Hsum]. }
  destruct (FondoReserva_save_ok
              (FondoReserva.set_monto_actual
                 (Decimal.add (FondoReserva.monto_actual x) monto) x) d)
    as (x' & d' & -> & Hfila & Hmov & Hma & _).
  { split; [exact Ho|]. split; [|exact Hp]. cbn.
    apply (en_columna_comp _ _ _ _ (Qeq_sym _ _ Hadd)). exact Hsum. }
  cbn [FondoReserva.monto_actual FondoReserva.set_monto_actual] in Hma.
  match goal with |- context [MovimientoFondo.objects_create ?m ?t] =>
    destruct (MovimientoFondo_create_ok m t eq_refl Hm)
      as (fila & -> & Hk & Hf & Ht & Hq)
  end.
  eexists _, _, _, fila. split; [reflexivity|].
  cbn in *. rewrite Hma, Hmov.
  repeat split; try assumption; try reflexivity; congruence.
Qed.

Lemma registrar_uso_raises (x : FondoReserva.t) (d : FondoReserva.db)
    (monto : Q) (descripcion : string) :
  (monto <= 0)%Q \/ (FondoReserva.monto_actual x < monto)%Q ->
  exists msg,
    FondoReserva.registrar_uso monto descripcion (x, d)
    = Raise (ValueError msg) (x, d).
Proof.
  intros H. unfold FondoReserva.registrar_uso.
  destruct (dec_le monto 0) eqn:Hle.
  { eexists. reflexivity. }
  destruct H as [H|H].
  { apply dec_le_spec in H. congruence. }
  run. apply dec_lt_spec in H. rewrite H. eexists. reflexivity.
Qed.

(** The steps of [registrar_uso] past its checks. *)
Lemma registrar_uso_positive (x : FondoReserva.t) (d : FondoReserva.db)
    (monto : Q) (descripcion : string) :
  (0 < monto)%Q -> (monto <= FondoReserva.monto_actual x)%Q ->
  FondoReserva.registrar_uso monto descripcion (x, d)
  = match FondoReserva.save
            (FondoReserva.set_monto_actual
               (Decimal.sub (FondoReserva.monto_actual x) monto) x, d) with
    | Ok _ (x', d') =>
        match MovimientoFondo.objects_create
                (MovimientoFondo.mk None (FondoReserva.pk x') "gasto" monto
                   descripcion)
                (FondoReserva.movimientos d') with
        | Ok mv tbl => Ok mv (x', FondoReserva.set_movimientos tbl d')
        | Raise e tbl => Raise e (x', FondoReserva.set_movimientos tbl d')
        end
    | Raise e s => Raise e s
    end.
Proof.
  intros Hpos Hle. unfold FondoReserva.registrar_uso.
  destruct (dec_le monto 0) eqn:Hle0.
  { apply dec_le_spec in Hle0. exfalso. exact (Qlt_not_le _ _ Hpos Hle0). }
  run.
  destruct (dec_lt (FondoReserva.monto_actual x) monto) eqn:Hlt.
  { apply dec_lt_spec in Hlt. exfalso. exact (Qlt_not_le _ _ Hlt Hle). }
  destruct (FondoReserva.save _) as [[] [x' d']|e [x' d']]; [|reflexivity].
  cbn [fst snd].
  destruct (MovimientoFondo.objects_create _ _); reflexivity.
Qed.

Lemma registrar_uso_any (x : FondoReserva.t) (d : FondoReserva.db)
    (monto : Q) (descripcion : string) :
  (0 < monto)%Q -> (monto <= FondoReserva.monto_actual x)%Q ->
  FondoReserva.monto_actual
    (fst (final (FondoReserva.registrar_uso monto descripcion (x, d))))
  = Decimal.sub (FondoReserva.monto_actual x) monto
  /\ (forall e s,
        FondoReserva.registrar_uso monto descripcion (x, d) = Raise e s ->
        exists msg, e = InvalidOperation msg).
Proof.
  intros Hpos Hle. rewrite registrar_uso_positive by assumption.
  destruct (FondoReserva_save_any
              (FondoReserva.set_monto_actual
                 (Decimal.sub (FondoReserva.monto_actual x) monto) x) d)
    as [(x' & d' & -> & Hmov & Hma) | (msg & ->)].
  - match goal with |- context [MovimientoFondo.objects_create ?m ?t] =>
      destruct (MovimientoFondo_create_any m t eq_refl) as [(fila & ->) | (msg & ->)]
    end; cbn [final fst]; (split; [exact Hma|]); intros e s [=]; subst; eauto.
  - cbn [final fst]. split; [reflexivity|]. intros e s [=]; subst; eauto.
Qed.

Lemma registrar_uso_ok (x : FondoReserva.t) (d : FondoReserva.db)
    (monto : Q) (descripcion : string) :
  (0 < monto)%Q -> (monto <= FondoReserva.monto_actual x)%Q ->
  fondo_en_columnas x ->
  Decimal.en_columna 12 2 monto ->
  exists mv x' d' fila,
    FondoReserva.registrar_uso monto descripcion (x, d) = Ok mv (x', d')
    /\ (FondoReserva.monto_actual x' == FondoReserva.monto_actual x - monto)%Q
    /\ fila_del_fondo x' (FondoReserva.fondos d')
    /\ MovimientoFondo.tipo mv = "gasto"
    /\ MovimientoFondo.monto mv = monto
    /\ MovimientoFondo.fondo mv = FondoReserva.pk x'
    /\ FondoReserva.movimientos d' = FondoReserva.movimientos d ++ [fila]
    /\ MovimientoFondo.pk fila = MovimientoFondo.pk mv
    /\ MovimientoFondo.fondo fila = FondoReserva.pk x'
    /\ MovimientoFondo.tipo fila = "gasto"
    /\ (MovimientoFondo.monto fila == monto)%Q.
Proof.
  intros Hpos Hle (Ho & Ha & Hp) Hm.
  rewrite registrar_uso_positive by assumption.
  assert (Hdif : Decimal.en_columna 12 2 (FondoReserva.monto_actual x - monto)).
  { apply en_columna_sub; [exact Ha|exact Hm|now apply Qlt_le_weak|exact Hle]. }
  assert (Hsub : (Decimal.sub (FondoReserva.monto_actual x) monto
                  == FondoReserva.monto_actual x - monto)%Q).
  { apply (redondear_en_columna 12 2); [unfold Decimal.prec; lia|exact Hdif]. }
  destruct (FondoReserva_save_ok
              (FondoReserva.set_monto_actual
                 (Decimal.sub (FondoReserva.monto_actual x) monto) x) d)
    as (x' & d' & -> & Hfila & Hmov & Hma & _).
  { split; [exact Ho|]. split; [|exact Hp]. cbn.
    apply (en_columna_comp _ _ _ _ (Qeq_sym _ _ Hsub)). exact Hdif. }
  cbn [FondoReserva.monto_actual FondoReserva.set_monto_actual] in Hma.
  match goal with |- context [MovimientoFondo.objects_create ?m ?t] =>
    destruct (MovimientoFondo_create_ok m t eq_refl Hm)
      as (fila & -> & Hk & Hf & Ht & Hq)
  end.
  eexists _, _, _, fila. split; [reflexivity|].
  cbn in *. rewrite Hma, Hmov.
  repeat split; try assumption; try reflexivity; congruence.
Qed.

(** C9. From a fund whose balance is not negative, [registrar_aporte] and
    [registrar_uso] leave a balance that is not negative, whatever the
    outcome.  [registrar_aporte] raises [ValueError] for an amount that is
    not positive, and [registrar_uso] for one that is not positive or
    exceeds the balance; a [ValueError] leaves instance and tables as they
    were.  Otherwise, when the numbers of the fund, the amount and the new
    balance fit their columns, [registrar_aporte] adds the amount to the
    balance and [registrar_uso] subtracts it; the fund is stored with the
    new balance and a movement of the amount is appended, "ingreso" for
    the one and "gasto" for the other. *)
Theorem FondoReserva_balance_invariant (x : FondoReserva.t) (d : FondoReserva.db)
    (monto : Q) (descripcion : option string) (descripcion_uso : string) :
  (0 <= FondoReserva.monto_actual x)%Q ->
  let aporte := FondoReserva.registrar_aporte monto descripcion (x, d) in
  let uso := FondoReserva.registrar_uso monto descripcion_uso (x, d) in
  (0 <= FondoReserva.monto_actual (fst (final aporte)))%Q
  /\ (0 <= FondoReserva.monto_actual (fst (final uso)))%Q
  /\ ((monto <= 0)%Q ->
      exists msg, aporte = Raise (ValueError msg) (x, d))
  /\ ((0 < monto)%Q ->
      fondo_en_columnas x ->
      Decimal.en_columna 12 2 monto ->
      Decimal.en_columna 12 2 (FondoReserva.monto_actual x + monto) ->
      exists mv x' d' fila,
        aporte = Ok mv (x', d')
        /\ (FondoReserva.monto_actual x' == FondoReserva.monto_actual x + monto)%Q
        /\ fila_del_fondo x' (FondoReserva.fondos d')
        /\ MovimientoFondo.tipo mv = "ingreso"
        /\ MovimientoFondo.monto mv = monto
        /\ MovimientoFondo.fondo mv = FondoReserva.pk x'
        /\ FondoReserva.movimientos d' = FondoReserva.movimientos d ++ [fila]
        /\ MovimientoFondo.pk fila = MovimientoFondo.pk mv
        /\ MovimientoFondo.fondo fila = FondoReserva.pk x'
        /\ MovimientoFondo.tipo fila = "ingreso"
        /\ (MovimientoFondo.monto fila == monto)%Q)
  /\ ((monto <= 0)%Q \/ (FondoReserva.monto_actual x < monto)%Q ->
      exists msg, uso = Raise (ValueError msg) (x, d))
  /\ ((0 < monto)%Q -> (monto <= FondoReserva.monto_actual x)%Q ->
      fondo_en_columnas x ->
      Decimal.en_columna 12 2 monto ->
      exists mv x' d' fila,
        uso = Ok mv (x', d')
        /\ (FondoReserva.monto_actual x' == FondoReserva.monto_actual x - monto)%Q
        /\ fila_del_fondo x' (FondoReserva.fondos d')
        /\ MovimientoFondo.tipo mv = "gasto"
        /\ MovimientoFondo.monto mv = monto
        /\ MovimientoFondo.fondo mv = FondoReserva.pk x'
        /\ FondoReserva.movimientos d' = FondoReserva.movimientos d ++ [fila]
        /\ MovimientoFondo.pk fila = MovimientoFondo.pk mv
        /\ MovimientoFondo.fondo fila = FondoReserva.pk x'
        /\ MovimientoFondo.tipo fila = "gasto"
        /\ (MovimientoFondo.monto fila == monto)%Q)
  /\ (forall msg s,
        aporte = Raise (ValueError msg) s \/ uso = Raise (ValueError msg) s ->
        s = (x, d)).
Proof.
  intros Hinv aporte uso. subst aporte uso.
  split; [|split; [|split; [|split; [|split; [|split]]]]].
  - destruct (Qlt_le_dec 0 monto) as [Hpos|Hle].
    + rewrite (proj1 (registrar_aporte_any x d monto descripcion Hpos)).
      apply redondear_nonneg. lra.
    + rewrite (registrar_aporte_raises x d monto descripcion Hle). exact Hinv.
  - destruct (Qlt_le_dec 0 monto) as [Hpos|Hle].
    + destruct (Qlt_le_dec (FondoReserva.monto_actual x) monto) as [Hlt|Hok].
      * destruct (registrar_uso_raises x d monto descripcion_uso (or_intror Hlt))
          as (msg & ->). exact Hinv.
      * rewrite (proj1 (registrar_uso_any x d monto descripcion_uso Hpos Hok)).
        apply redondear_nonneg. lra.
    + destruct (registrar_uso_raises x d monto descripcion_uso (or_introl Hle))
        as (msg & ->). exact Hinv.
  - intros Hle. eexists. now apply registrar_aporte_raises.
  - intros Hpos Hc Hm Hsum. now apply registrar_aporte_ok.
  - intros H. now apply registrar_uso_raises.
  - intros Hpos Hle Hc Hm. now apply registrar_uso_ok.
  - intros msg s [Hr|Hr].
    + destruct (Qlt_le_dec 0 monto) as [Hpos|Hle].
      * destruct (proj2 (registrar_aporte_any x d monto descripcion Hpos) _ _ Hr)
          as (msg' & [=]).
      * rewrite (registrar_aporte_raises x d monto descripcion Hle) in Hr.
        now injection Hr as _ <-.
    + destruct (Qlt_le_dec 0 monto) as [Hpos|Hle].
      * destruct (Qlt_le_dec (FondoReserva.monto_actual x) monto) as [Hlt|Hok].
        -- destruct (registrar_uso_raises x d monto descripcion_uso (or_intror Hlt))
             as (msg' & Hr'). rewrite Hr' in Hr. now injection Hr as _ <-.
        -- destruct (proj2 (registrar_uso_any x d monto descripcion_uso Hpos Hok)
                       _ _ Hr) as (msg' & [=]).
      * destruct (registrar_uso_raises x d monto descripcion_uso (or_introl Hle))
          as (msg' & Hr'). rewrite Hr' in Hr. now injection Hr as _ <-.
Qed.

Lemma FondoReserva_balance_invariant_witness :
  (0 <= FondoReserva.monto_actual fondo_imprevistos)%Q
  /\ (exists mv x' d',
        FondoReserva.registrar_aporte 200 None (fondo_imprevistos, db_fondos)
        = Ok mv (x', d')
        /\ (FondoReserva.monto_actual x' == 700)%Q)
  /\ (0 <= FondoReserva.monto_actual
             (fst (final (FondoReserva.registrar_uso 200 "Reparacion"
                            (fondo_imprevistos, db_fondos)))))%Q.
Proof.
  assert (H : (0 <= FondoReserva.monto_actual fondo_imprevistos)%Q)
    by (cbn; lra).
  split; [exact H|].
  pose proof (FondoReserva_balance_invariant fondo_imprevistos db_fondos
                200 None "Reparacion" H) as (_ & Hu & _ & Ha & _).
  split; [|exact Hu].
  destruct (Ha eq_refl) as (mv & x' & d' & fila & Hr & Hma & _).
  - repeat split; reflexivity.
  - reflexivity.
  - reflexivity.
  - exists mv, x', d'. split; [exact Hr|]. rewrite Hma. reflexivity.
Defined.

(** A value that does not fit its column makes the call raise out of
    [save] with the balance in memory already changed and nothing stored:
    one cent more on a fund at 9999999999.99.  A value of more than two
    decimals is stored rounded: an aporte of 0.004 to the fund of 500
    leaves 500.004 in memory, a stored balance of 500.00 and a movement of
    0.00. *)
Lemma registrar_aporte_outside_columns :
  (0 <= FondoReserva.monto_actual fondo_al_tope)%Q
  /\ fondo_en_columnas fondo_al_tope
  /\ (exists msg x',
        FondoReserva.registrar_aporte (1 # 100) None
          (fondo_al_tope, FondoReserva.mkdb [fondo_al_tope] [])
        = Raise (InvalidOperation msg)
                (x', FondoReserva.mkdb [fondo_al_tope] [])
        /\ ~ (FondoReserva.monto_actual x'
              == FondoReserva.monto_actual fondo_al_tope)%Q)
  /\ (exists mv x' fila movimiento,
        FondoReserva.registrar_aporte (4 # 1000) None (fondo_imprevistos, db_fondos)
        = Ok mv (x', FondoReserva.mkdb [fila] [movimiento])
        /\ (FondoReserva.monto_actual x' == 500004 # 1000)%Q
        /\ (FondoReserva.monto_actual fila == 500)%Q
        /\ (MovimientoFondo.monto movimiento == 0)%Q).
Proof.
  split; [cbn; lra|]. split; [repeat split; reflexivity|]. split.
  - eexists _, _. split; [vm_compute; reflexivity|].
    intros H. vm_compute in H. discriminate H.
  - eexists _, _, _, _. split; [vm_compute; reflexivity|].
    repeat split; reflexivity.
Qed.

(** ** Reserva *)

Lemma terminal_not_active (e : string) :
  terminal e ->
  existsb (String.eqb e) ["pendiente"; "confirmada"] = false.
Proof. intros [-> | [-> | ->]]; reflexivity. Qed.

Lemma terminal_not_pendiente (e : string) :
  terminal e -> String.eqb e "pendiente" = false.
Proof. intros [-> | [-> | ->]]; reflexivity. Qed.

Lemma terminal_not_confirmada (e : string) :
  terminal e -> String.eqb e "confirmada" = false.
Proof. intros [-> | [-> | ->]]; reflexivity. Qed.

Lemma ejecutar_terminal (ahora : datetime) (op : transicion)
    (x : Reserva.t) (tbl : list Reserva.t) :
  terminal (Reserva.estado x) ->
  ejecutar ahora op (x, tbl) = Ok false (x, tbl).
Proof.
  intros Ht. destruct op; cbn [ejecutar].
  - unfold Reserva.cancelar. run. now rewrite (terminal_not_active _ Ht).
  - unfold Reserva.confirmar. run. now rewrite (terminal_not_pendiente _ Ht).
  - unfold Reserva.marcar_completada. run. now rewrite (terminal_not_confirmada _ Ht).
  - unfold Reserva.marcar_no_asistio. run. now rewrite (terminal_not_confirmada _ Ht).
Qed.

(** C10. In the states "cancelada", "completada" and "no_asistio" each of
    [cancelar], [confirmar], [marcar_completada] and [marcar_no_asistio]
    returns [False] and leaves the instance and the table as they were;
    hence any sequence of these calls returns [False] throughout and ends in
    the same instance, still in its terminal state. *)
Theorem Reserva_terminal_absorbing (x : Reserva.t) (tbl : list Reserva.t)
    (ahora : datetime) (empleado : nat) (observacion : option string)
    (ops : list transicion) :
  terminal (Reserva.estado x) ->
  Reserva.cancelar ahora observacion (x, tbl) = Ok false (x, tbl)
  /\ Reserva.confirmar ahora empleado observacion (x, tbl) = Ok false (x, tbl)
  /\ Reserva.marcar_completada ahora (x, tbl) = Ok false (x, tbl)
  /\ Reserva.marcar_no_asistio ahora (x, tbl) = Ok false (x, tbl)
  /\ ejecutar_todas ahora ops (x, tbl)
     = Ok (map (fun _ => false) ops) (x, tbl).
Proof.
  intros Ht.
  split; [exact (ejecutar_terminal ahora (Cancelar observacion) x tbl Ht)|].
  split; [exact (ejecutar_terminal ahora (Confirmar empleado observacion) x tbl Ht)|].
  split; [exact (ejecutar_terminal ahora MarcarCompletada x tbl Ht)|].
  split; [exact (ejecutar_terminal ahora MarcarNoAsistio x tbl Ht)|].
  induction ops as [|op rest IH]; [reflexivity|].
  cbn [ejecutar_todas map]. run.
  now rewrite (ejecutar_terminal ahora op x tbl Ht), IH.
Qed.

Lemma Reserva_terminal_absorbing_witness :
  terminal (Reserva.estado reserva_cancelada)
  /\ Reserva.confirmar mediodia 3%nat None (reserva_cancelada, [reserva_cancelada])
     = Ok false (reserva_cancelada, [reserva_cancelada])
  /\ ejecutar_todas mediodia [Confirmar 3%nat None; MarcarCompletada]
       (reserva_cancelada, [reserva_cancelada])
     = Ok [false; false] (reserva_cancelada, [reserva_cancelada]).
Proof.
  assert (H : terminal (Reserva.estado reserva_cancelada))
    by (left; reflexivity).
  split; [exact H|].
  pose proof (Reserva_terminal_absorbing reserva_cancelada [reserva_cancelada]
                mediodia 3%nat None [Confirmar 3%nat None; MarcarCompletada] H)
    as (_ & Hc & _ & _ & Hs).
  split; [exact Hc | exact Hs].
Defined.

(** ** CuotaAdministracion *)

(** On the numbers of the columns the product of [calcular_valor_vivienda]
    is exact. *)
Lemma calcular_valor_vivienda_exacto (c : CuotaAdministracion.t) (v : Vivienda.t) :
  Decimal.en_columna 12 2 (CuotaAdministracion.valor_base c) ->
  Decimal.en_columna 5 4 (Vivienda.coeficiente_propiedad v) ->
  (CuotaAdministracion.calcular_valor_vivienda c v
   == CuotaAdministracion.valor_base c * Vivienda.coeficiente_propiedad v)%Q
  /\ decimal_de (2 + 4) (10 ^ 12 * 10 ^ 5)
       (CuotaAdministracion.calcular_valor_vivienda c v).
Proof.
  intros Hb Hc.
  pose proof (de_mul _ _ _ _ _ _ (de_columna _ _ _ Hb) (de_columna _ _ _ Hc)) as D.
  assert (E : (CuotaAdministracion.calcular_valor_vivienda c v
               == CuotaAdministracion.valor_base c
                  * Vivienda.coeficiente_propiedad v)%Q).
  { unfold CuotaAdministracion.calcular_valor_vivienda, Decimal.mul.
    eapply de_redondear; [|exact D]. now vm_compute. }
  split; [exact E|]. exact (de_comp _ _ _ _ (Qeq_sym _ _ E) D).
Qed.

(** [calcular_valor_con_mora] on a fee whose surcharge is a [Decimal]:
    the value of the dwelling when the due date is today or later, that
    value whatever the surcharge; and, on the numbers of the columns, the
    value times (1 + recargo_mora / 100) when the due date is before
    today.  The value of the dwelling is the one
    [Vivienda.calcular_valor_cuota] gives. *)
Lemma calcular_valor_con_mora_spec (c : CuotaAdministracion.t) (v : Vivienda.t)
    (hoy : date) :
  (PyDate.leb hoy (CuotaAdministracion.fecha_vencimiento c) = true ->
   CuotaAdministracion.calcular_valor_con_mora c v hoy
   = Return (CuotaAdministracion.calcular_valor_vivienda c v))
  /\ (PyDate.ltb (CuotaAdministracion.fecha_vencimiento c) hoy = true ->
      forall r,
        CuotaAdministracion.recargo_mora c = Decimal.Dec r ->
        Decimal.en_columna 12 2 (CuotaAdministracion.valor_base c) ->
        Decimal.en_columna 5 4 (Vivienda.coeficiente_propiedad v) ->
        Decimal.en_columna 5 2 r ->
        exists q,
          CuotaAdministracion.calcular_valor_con_mora c v hoy = Return q
          /\ (q == CuotaAdministracion.valor_base c
                   * Vivienda.coeficiente_propiedad v * (1 + r / 100))%Q)
  /\ CuotaAdministracion.calcular_valor_vivienda c v
     = Vivienda.calcular_valor_cuota v c.
Proof.
  split; [|split; [|reflexivity]].
  - intros H. unfold CuotaAdministracion.calcular_valor_con_mora,
      CuotaAdministracion.esta_vencida.
    unfold PyDate.leb in H. apply negb_true_iff in H. now rewrite H.
  - intros H r Hr Hb Hc Hcr.
    unfold CuotaAdministracion.calcular_valor_con_mora,
      CuotaAdministracion.esta_vencida.
    rewrite H, Hr. cbv zeta.
    destruct (calcular_valor_vivienda_exacto c v Hb Hc) as [Ev Dv].
    set (valor := CuotaAdministracion.calcular_valor_vivienda c v) in *.
    eexists. split; [reflexivity|].
    pose proof (de_div100 _ _ _ (de_columna _ _ _ Hcr)) as Dq.
    assert (Eq : (Decimal.div r 100 == r / 100)%Q).
    { unfold Decimal.div. eapply de_redondear; [|exact Dq]. now vm_compute. }
    pose proof (de_mul _ _ _ _ _ _ Dv (de_comp _ _ _ _ (Qeq_sym _ _ Eq) Dq)) as Dr.
    assert (Er : (Decimal.mul valor (Decimal.div r 100)
                  == valor * Decimal.div r 100)%Q).
    { unfold Decimal.mul. eapply de_redondear; [|exact Dr]. now vm_compute. }
    pose proof (de_add _ _ _ _ _
                  (de_escala (2 + 4) (2 + 4 + (2 + 2)) _ _ ltac:(lia) Dv)
                  (de_comp _ _ _ _ (Qeq_sym _ _ Er) Dr)) as Ds.
    assert (Es : (Decimal.add valor (Decimal.mul valor (Decimal.div r 100))
                  == valor + Decimal.mul valor (Decimal.div r 100))%Q).
    { unfold Decimal.add. eapply de_redondear; [|exact Ds]. now vm_compute. }
    rewrite Es, Er, Eq, Ev. field.
Qed.

(** C2. [calcular_valor_con_mora] raises [TypeError] on a fee that is
    past due and holds a float as [recargo_mora], as every fee built
    without the field does (its default is the float [0.0]): the product
    of the [Decimal] value and a float is not defined. *)
Theorem calcular_valor_con_mora_float_raises (c : CuotaAdministracion.t)
    (v : Vivienda.t) (hoy : date) (f : Q) :
  CuotaAdministracion.recargo_mora c = Decimal.Float f ->
  PyDate.ltb (CuotaAdministracion.fecha_vencimiento c) hoy = true ->
  exists msg,
    CuotaAdministracion.calcular_valor_con_mora c v hoy = Raises (TypeError msg).
Proof.
  intros Hf Hv. unfold CuotaAdministracion.calcular_valor_con_mora,
    CuotaAdministracion.esta_vencida.
  rewrite Hv, Hf. eexists. reflexivity.
Qed.

Lemma calcular_valor_con_mora_float_raises_witness :
  CuotaAdministracion.recargo_mora cuota_sin_recargo
  = CuotaAdministracion.recargo_mora_default
  /\ exists msg,
       CuotaAdministracion.calcular_valor_con_mora cuota_sin_recargo casa
         (mkdate 2024 6 10)
       = Raises (TypeError msg).
Proof.
  split; [reflexivity|].
  exact (calcular_valor_con_mora_float_raises cuota_sin_recargo casa
           (mkdate 2024 6 10) 0 eq_refl eq_refl).
Defined.

(** The sample fee, whose surcharge was loaded from its column. *)
Lemma calcular_valor_con_mora_cuota_mayo :
  CuotaAdministracion.calcular_valor_con_mora cuota_mayo casa dia = Return 150000%Q
  /\ CuotaAdministracion.calcular_valor_con_mora cuota_mayo casa (mkdate 2024 6 10)
     = Return 153000%Q.
Proof. split; vm_compute; reflexivity. Qed.

(** ** Mantenimiento *)









(** ** AreaComun *)

Lemma tuple_ltb_irrefl (a : list Z) : tuple_ltb a a = false.
Proof.
  induction a as [|x a IH]; [reflexivity|].
  cbn. now rewrite Z.ltb_irrefl, Z.eqb_refl, IH.
Qed.

Lemma time_leb_refl (a : time) : time_leb a a = true.
Proof. unfold time_leb, time_ltb. now rewrite tuple_ltb_irrefl. Qed.

(** The third alternative of the collision filter compares each column
    with itself, so every row satisfies it. *)
Lemma colision_always (hora_inicio hora_fin : time) (r : Reserva.t) :
  Query.eval Reserva.column (AreaComun.colision hora_inicio hora_fin) r = true.
Proof.
  unfold AreaComun.colision. cbn.
  rewrite !time_leb_refl. cbn. now rewrite !orb_true_r.
Qed.

(** What [esta_disponible] computes: any confirmed reservation of the
    area on the date blocks the whole day. *)
Lemma esta_disponible_char (x : AreaComun.t) (tbl : list Reserva.t)
    (fecha : date) (hora_inicio hora_fin : time) :
  AreaComun.esta_disponible x tbl fecha hora_inicio hora_fin
  = AreaComun.requiere_reserva x && AreaComun.esta_activa x
    && en_horario x hora_inicio hora_fin
    && match confirmadas x tbl fecha with [] => true | _ :: _ => false end.
Proof.
  unfold AreaComun.esta_disponible, en_horario, confirmadas, time_leb.
  destruct (AreaComun.requiere_reserva x), (AreaComun.esta_activa x);
    cbn [negb orb andb]; try reflexivity.
  destruct (AreaComun.horario_apertura x) as [a|],
           (AreaComun.horario_cierre x) as [c|];
    try destruct (time_ltb hora_inicio a); try destruct (time_ltb c hora_fin);
    cbn [negb orb andb]; try reflexivity;
    match goal with |- context [filter ?f ?l] => destruct (filter f l) end;
    cbn [existsb]; rewrite ?colision_always; reflexivity.
Qed.

(** C1 (failing input). With one confirmed reservation from 08:00 to
    09:00, the slot 10:00 to 11:00 of the same day overlaps nothing and
    lies within the opening hours, yet [esta_disponible] answers [False]. *)
Theorem esta_disponible_rejects_free_slot :
  AreaComun.esta_disponible salon [reserva_manana] dia
    (mktime 10 0 0 0) (mktime 11 0 0 0) = false
  /\ disponible_por_traslape salon [reserva_manana] dia
       (mktime 10 0 0 0) (mktime 11 0 0 0) = true.
Proof. split; reflexivity. Qed.

(** ** IngresoGasto.anular on a stored expense *)

(** C7 (failing input). An expense of 100 is stored by [save] with the
    amount -100; [anular] on that stored row raises [ValueError] instead of
    returning [True], and the row in the table keeps its state. *)
Theorem anular_raises_on_stored_gasto :
  IngresoGasto.save (gasto_nuevo, []) = Ok tt (gasto_guardado, [gasto_guardado])
  /\ IngresoGasto.anular None (gasto_guardado, [gasto_guardado])
     = Raise (ValueError "El monto debe ser positivo")
         (IngresoGasto.set_estado "anulado" gasto_guardado, [gasto_guardado]).
Proof. split; reflexivity. Qed.

(** ** PagoAdministracion *)

(** Saving a payment in state "confirmado" that is not known to have
    been confirmed before reaches [_registrar_ingreso], which raises from
    the text of the fee before anything is written: no ledger entry is
    created and the payment itself is not stored. *)
Lemma PagoAdministracion_save_confirmado_raises (x : PagoAdministracion.t)
    (d : PagoAdministracion.db) :
  PagoAdministracion.estado x = "confirmado" ->
  PagoAdministracion.initially_confirmado x = false ->
  exists msg x1,
    PagoAdministracion.save (x, d) = Raise (TypeError msg) (x1, d)
    /\ PagoAdministracion.estado x1 = "confirmado".
Proof.
  intros He Hi. unfold PagoAdministracion.save. run.
  destruct x as [k v c f m e o iv]. cbn in He. subst e.
  unfold PagoAdministracion.initially_confirmado in Hi. cbn in Hi.
  cbn [PagoAdministracion.pk PagoAdministracion.monto_pagado].
  destruct (negb (PagoAdministracion.pk_truthy k) && negb (dec_truthy m));
    cbn; unfold PagoAdministracion.initially_confirmado; cbn;
    rewrite Hi, orb_true_r; cbn;
    eexists _, _; split; reflexivity.
Qed.

(** Saving a freshly loaded payment in state "rechazado" leaves the
    ledger alone, whatever the stored state was. *)
Lemma PagoAdministracion_save_fresh_rechazado (x : PagoAdministracion.t)
    (d : PagoAdministracion.db) :
  PagoAdministracion._initial_values x = None ->
  PagoAdministracion.estado x = "rechazado" ->
  exists x' d',
    PagoAdministracion.save (x, d) = Ok tt (x', d')
    /\ PagoAdministracion.ingresos d' = PagoAdministracion.ingresos d
    /\ In x' (PagoAdministracion.pagos d')
    /\ PagoAdministracion.estado x' = "rechazado".
Proof.
  intros Hi He. unfold PagoAdministracion.save. run.
  destruct x as [k v c f m e o iv]. cbn in Hi, He. subst iv e.
  cbn [PagoAdministracion.pk PagoAdministracion.monto_pagado].
  destruct (negb (PagoAdministracion.pk_truthy k) && negb (dec_truthy m));
    cbn;
    match goal with |- context [Django.super_save (?y, ?t)] =>
      destruct (super_save_ok y t)
        as (x' & tbl' & -> & Hin & [(? & _ & ->) | [_ ->]]) end;
    eexists _, _; (split; [reflexivity|]); cbn; repeat split; auto.
Qed.

(** C3 (failing inputs).  A stored payment in state "registrado" is loaded,
    set to "confirmado" and saved: the call raises, no ledger entry is
    created and the stored payment is unchanged.  A stored payment in state
    "confirmado" with its ledger entry is loaded, set to "rechazado" and
    saved: the payment is stored as rejected and the ledger entry stays
    "registrado". *)
Theorem pago_save_misses_ledger :
  (let x := PagoAdministracion.set_estado "confirmado"
              (PagoAdministracion.from_db (pago_en "registrado")) in
   let d := PagoAdministracion.mkdb [pago_en "registrado"] [] in
   PagoAdministracion.save (x, d)
   = Raise
       (TypeError "get_nombre_mes() missing 1 required positional argument: 'mes'")
       (x, d))
  /\ (let x := PagoAdministracion.set_estado "rechazado"
                 (PagoAdministracion.from_db (pago_en "confirmado")) in
      let d := PagoAdministracion.mkdb [pago_en "confirmado"] [ingreso_del_pago] in
      exists x',
        PagoAdministracion.save (x, d)
        = Ok tt (x', PagoAdministracion.mkdb [x'] [ingreso_del_pago])
        /\ PagoAdministracion.estado x' = "rechazado"
        /\ IngresoGasto.pago ingreso_del_pago = PagoAdministracion.pk x'
        /\ IngresoGasto.estado ingreso_del_pago = "registrado").
Proof.
  split.
  - reflexivity.
  - cbv zeta. eexists. split; [vm_compute; reflexivity|]. now vm_compute.
Qed.

(** ** ProgramacionMantenimiento *)

Local Open Scope Z_scope.

Lemma toordinal_before_last_year (hoy : date) :
  valid hoy -> year hoy < MAXYEAR -> toordinal hoy + 365 <= _MAXORDINAL.
Proof.
  intros Hv Hy. apply valid_wf in Hv as [(H1 & Hm & Hd) _].
  unfold toordinal, _ymd2ord, MAXYEAR, _MAXORDINAL in *.
  pose proof (days_before_month_bounds (year hoy) (month hoy) Hm) as [_ Hb].
  pose proof (days_before_year_succ (year hoy) H1) as Hs.
  pose proof (days_before_year_mono (year hoy + 1) 9999 ltac:(lia)) as Hmono.
  change (_days_before_year 9999) with 3651694 in Hmono.
  destruct (_is_leap (year hoy)); lia.
Qed.

Lemma weekday_shift (t ds : Z) :
  (t + (ds - (t + 6) mod 7 - 1) mod 7 + 6) mod 7 = (ds - 1) mod 7.
Proof. Z.div_mod_to_equations. lia. Qed.

Lemma window_unique (t t' k : Z) :
  0 <= k <= 6 -> t <= t' -> t' - t <= 6 ->
  (t' + 6) mod 7 = (t + k + 6) mod 7 -> t' = t + k.
Proof. intros Hk H1 H2 H3. Z.div_mod_to_equations. lia. Qed.

Lemma semanal_spec (hoy : date) (ds : Z) :
  valid hoy -> year hoy < MAXYEAR ->
  exists d,
    ProgramacionMantenimiento.mas_dias hoy ((ds - weekday hoy - 1) mod 7) = Return d
    /\ valid d
    /\ PyDate.leb hoy d = true
    /\ sub_days d hoy <= 6
    /\ weekday d = (ds - 1) mod 7
    /\ forall d', valid d' -> PyDate.leb hoy d' = true -> sub_days d' hoy <= 6 ->
                  weekday d' = (ds - 1) mod 7 -> d' = d.
Proof.
  intros Hv Hy.
  pose proof (toordinal_before_last_year hoy Hv Hy) as Hmax.
  pose proof (valid_wf hoy Hv) as [Hwf _].
  pose proof (toordinal_pos hoy Hwf) as Hpos.
  pose proof (weekday_shift (toordinal hoy) ds) as Hshift.
  fold (weekday hoy) in Hshift.
  assert (Hk : 0 <= (ds - weekday hoy - 1) mod 7 <= 6).
  { pose proof (Z.mod_pos_bound (ds - weekday hoy - 1) 7 eq_refl). lia. }
  revert Hshift Hk. generalize ((ds - weekday hoy - 1) mod 7). intros k Hshift Hk.
  assert (H1 : 1 <= toordinal hoy + k) by lia.
  assert (H2 : toordinal hoy + k <= _MAXORDINAL) by lia.
  unfold ProgramacionMantenimiento.mas_dias, add_days.
  assert (Hr : (0 <? toordinal hoy + k) && (toordinal hoy + k <=? _MAXORDINAL) = true).
  { apply andb_true_intro. split; [apply Z.ltb_lt|apply Z.leb_le]; lia. }
  rewrite Hr.
  destruct (fromordinal_spec (toordinal hoy + k) H1) as [Hwfd Hord].
  assert (Hvd : valid (fromordinal (toordinal hoy + k)))
    by (apply fromordinal_valid; split; assumption).
  assert (Hwd : weekday (fromordinal (toordinal hoy + k)) = (ds - 1) mod 7).
  { unfold weekday at 1. rewrite Hord. exact Hshift. }
  eexists. split; [reflexivity|]. split; [exact Hvd|].
  split; [apply toordinal_leb; auto; rewrite Hord; lia|].
  split; [unfold sub_days; rewrite Hord; lia|].
  split; [exact Hwd|].
  intros d' Hv' Hle Hsub Hw'.
  pose proof (valid_wf d' Hv') as [Hwf' _].
  apply toordinal_leb in Hle; auto.
  apply toordinal_inj; auto. rewrite Hord.
  apply window_unique; auto.
  unfold weekday in Hw'. rewrite Hw'. symmetry. exact Hshift.
Qed.

Lemma siguiente_mes_ok (hoy : date) :
  valid hoy -> year hoy < MAXYEAR ->
  1 <= fst (siguiente_mes hoy) <= MAXYEAR /\ 1 <= snd (siguiente_mes hoy) <= 12.
Proof.
  intros Hv Hy. apply valid_wf in Hv as [(H1 & Hm & _) _].
  unfold siguiente_mes, MAXYEAR in *.
  destruct (Z.eqb_spec (month hoy) 12); cbn [fst snd]; lia.
Qed.

Lemma check_date_fields_iff (y m d : Z) :
  1 <= y <= MAXYEAR -> 1 <= m <= 12 -> 1 <= d ->
  (_check_date_fields y m d = true <-> d <= _days_in_month y m).
Proof.
  intros Hy Hm Hd. unfold _check_date_fields, MINYEAR.
  rewrite !andb_true_iff, !Z.leb_le. lia.
Qed.

(** The branch for "mensual" once the day of the month is known. *)
Lemma mensual_spec (x : ProgramacionMantenimiento.t) (hoy : date) (dm : Z) :
  valid hoy -> year hoy < MAXYEAR ->
  ProgramacionMantenimiento.frecuencia x = "mensual" ->
  ProgramacionMantenimiento.dia_mes x = Some dm -> 0 < dm ->
  let este := mkdate (year hoy) (month hoy) dm in
  let siguiente :=
    mkdate (fst (siguiente_mes hoy)) (snd (siguiente_mes hoy))
      (Z.min dm (_days_in_month (fst (siguiente_mes hoy))
                                (snd (siguiente_mes hoy)))) in
  valid siguiente
  /\ ProgramacionMantenimiento._calcular_proxima_fecha x hoy
     = if _check_date_fields (year hoy) (month hoy) dm && PyDate.leb hoy este
       then Return (Some este) else Return (Some siguiente).
Proof.
  intros Hv Hy Hf Hdm Hpos este siguiente.
  destruct (siguiente_mes_ok hoy Hv Hy) as [Hy' Hm'].
  pose proof (valid_wf hoy Hv) as [(H1 & Hm & _) _].
  pose proof (days_in_month_pos (fst (siguiente_mes hoy)) (snd (siguiente_mes hoy)) Hm')
    as Hdim'.
  pose proof (days_in_month_pos (year hoy) (month hoy) Hm) as Hdim.
  assert (Hvs : valid siguiente).
  { unfold valid, siguiente. cbn [year month day].
    apply check_date_fields_iff; lia. }
  split; [exact Hvs|].
  (* the exception handler, reached with a day beyond 28 *)
  assert (Hexc : 28 < dm ->
            (let '(mes, año) :=
               if month hoy =? 12 then (1, year hoy + 1)
               else (month hoy + 1, year hoy) in
             let dia :=
               if dm >? 28
               then Z.min dm (ProgramacionMantenimiento._ultimo_dia_mes año mes)
               else dm in
             match PyDate.new año mes dia with
             | Some d => Return (Some d)
             | None => Raises (ValueError "date value out of range")
             end) = Return (Some siguiente)).
  { intros Hbig. unfold valid, siguiente in Hvs. cbn [year month day] in Hvs.
    subst siguiente. unfold siguiente_mes in *.
    destruct (month hoy =? 12); cbn [fst snd] in *;
      (replace (dm >? 28) with true by (symmetry; apply Z.gtb_lt; lia));
      unfold ProgramacionMantenimiento._ultimo_dia_mes, monthrange_ndays;
      rewrite <- days_in_month_flag by lia;
      unfold PyDate.new; rewrite Hvs; reflexivity. }
  unfold ProgramacionMantenimiento._calcular_proxima_fecha.
  rewrite Hf, Hdm. eval_closed.
  replace (int_truthy dm) with true
    by (symmetry; unfold int_truthy; apply negb_true_iff, Z.eqb_neq; lia).
  cbn [negb]. unfold PyDate.leb.
  change (PyDate.new (year hoy) (month hoy) dm)
    with (if _check_date_fields (year hoy) (month hoy) dm
          then Some este else None).
  destruct (_check_date_fields (year hoy) (month hoy) dm) eqn:Hchk;
    cbn [mbind option_bind andb].
  - destruct (PyDate.ltb este hoy) eqn:Hlt; cbn [negb]; [|reflexivity].
    assert (Hnext : (if month hoy =? 12 then PyDate.new (year hoy + 1) 1 dm
                     else PyDate.new (year hoy) (month hoy + 1) dm)
                    = PyDate.new (fst (siguiente_mes hoy)) (snd (siguiente_mes hoy)) dm).
    { unfold siguiente_mes. now destruct (month hoy =? 12). }
    rewrite Hnext. unfold PyDate.new.
    destruct (_check_date_fields (fst (siguiente_mes hoy))
                (snd (siguiente_mes hoy)) dm) eqn:Hchk'.
    + apply check_date_fields_iff in Hchk'; try lia.
      subst siguiente. now rewrite Z.min_l by lia.
    + apply Hexc.
      destruct (Z_le_gt_dec dm 28) as [Hle|Hgt]; [|lia].
      exfalso. assert (Hc : _check_date_fields (fst (siguiente_mes hoy))
                              (snd (siguiente_mes hoy)) dm = true)
        by (apply check_date_fields_iff; lia).
      congruence.
  - apply Hexc.
    destruct (Z_le_gt_dec dm 28) as [Hle|Hgt]; [|lia].
    exfalso. assert (Hc : _check_date_fields (year hoy) (month hoy) dm = true)
      by (apply check_date_fields_iff; unfold MAXYEAR in *; lia).
    congruence.
Qed.

(** C5 (as stated, fails). On 31 January 2023 the monthly programme for
    the 30th yields 28 February 2023, which has neither the configured day
    nor, therefore, the form of a fixed day in this or the next month. *)
Lemma mensual_dia_fijo_fails :
  ProgramacionMantenimiento._calcular_proxima_fecha programacion_dia_30 fin_de_enero
  = Return (Some (mkdate 2023 2 28))
  /\ ~ mensual_dia_fijo programacion_dia_30 fin_de_enero.
Proof.
  split; [reflexivity|].
  intros H. destruct (H 30 eq_refl) as (d & Hr & Hd & _).
  vm_compute in Hr. injection Hr as <-. discriminate Hd.
Qed.

(** C5 (amended). [_calcular_proxima_fecha] returns: [hoy] for "diaria";
    for "semanal" with a non-zero [dia_semana], the only date from [hoy] to
    six days later whose weekday is (dia_semana - 1) mod 7; for "mensual"
    with a positive [dia_mes], the date with that day in the month of [hoy]
    when it exists and is not before [hoy], and otherwise the date of the
    following month whose day is the smaller of [dia_mes] and the length of
    that month; and [None] for "semanal" and "quincenal" with [dia_semana]
    unset or zero, for "mensual" with [dia_mes] unset or zero, and for
    "trimestral", "semestral" and "anual".  In the weekly and monthly cases
    [hoy] is a date before year 9999, so that the dates computed exist. *)
Theorem calcular_proxima_fecha_spec (x : ProgramacionMantenimiento.t) (hoy : date) :
  let r := ProgramacionMantenimiento._calcular_proxima_fecha x hoy in
  (ProgramacionMantenimiento.frecuencia x = "diaria" -> r = Return (Some hoy))
  /\ (valid hoy -> year hoy < MAXYEAR ->
      ProgramacionMantenimiento.frecuencia x = "semanal" ->
      forall ds, ProgramacionMantenimiento.dia_semana x = Some ds -> ds <> 0 ->
      exists d,
        r = Return (Some d)
        /\ valid d
        /\ PyDate.leb hoy d = true
        /\ sub_days d hoy <= 6
        /\ weekday d = (ds - 1) mod 7
        /\ forall d', valid d' -> PyDate.leb hoy d' = true ->
                      sub_days d' hoy <= 6 ->
                      weekday d' = (ds - 1) mod 7 -> d' = d)
  /\ (valid hoy -> year hoy < MAXYEAR ->
      ProgramacionMantenimiento.frecuencia x = "mensual" ->
      forall dm, ProgramacionMantenimiento.dia_mes x = Some dm -> 0 < dm ->
      let este := mkdate (year hoy) (month hoy) dm in
      let siguiente :=
        mkdate (fst (siguiente_mes hoy)) (snd (siguiente_mes hoy))
          (Z.min dm (_days_in_month (fst (siguiente_mes hoy))
                                    (snd (siguiente_mes hoy)))) in
      valid siguiente
      /\ (valid este -> PyDate.leb hoy este = true -> r = Return (Some este))
      /\ (~ (valid este /\ PyDate.leb hoy este = true) ->
          r = Return (Some siguiente)))
  /\ (ProgramacionMantenimiento.frecuencia x = "semanal"
      \/ ProgramacionMantenimiento.frecuencia x = "quincenal" ->
      ProgramacionMantenimiento.dia_semana x = None
      \/ ProgramacionMantenimiento.dia_semana x = Some 0 ->
      r = Return None)
  /\ (ProgramacionMantenimiento.frecuencia x = "mensual" ->
      ProgramacionMantenimiento.dia_mes x = None
      \/ ProgramacionMantenimiento.dia_mes x = Some 0 ->
      r = Return None)
  /\ (ProgramacionMantenimiento.frecuencia x = "trimestral"
      \/ ProgramacionMantenimiento.frecuencia x = "semestral"
      \/ ProgramacionMantenimiento.frecuencia x = "anual" ->
      r = Return None).
Proof.
  intros r. subst r.
  split; [|split; [|split; [|split; [|split]]]].
  - intros Hf. unfold ProgramacionMantenimiento._calcular_proxima_fecha.
    now rewrite Hf.
  - intros Hv Hy Hf ds Hds Hnz.
    destruct (semanal_spec hoy ds Hv Hy) as (d & Hr & Hrest).
    exists d. split; [|exact Hrest].
    unfold ProgramacionMantenimiento._calcular_proxima_fecha.
    rewrite Hf, Hds. eval_closed.
    replace (int_truthy ds) with true
      by (symmetry; unfold int_truthy; now apply negb_true_iff, Z.eqb_neq).
    cbn [negb]. now rewrite Hr.
  - intros Hv Hy Hf dm Hdm Hpos este siguiente.
    destruct (mensual_spec x hoy dm Hv Hy Hf Hdm Hpos) as [Hvs Hr].
    fold este siguiente in Hvs, Hr.
    split; [exact Hvs|]. split.
    + intros He Hle. rewrite Hr. unfold valid, este in He.
      cbn [year month day] in He. now rewrite He, Hle.
    + intros Hn. rewrite Hr.
      destruct (_check_date_fields (year hoy) (month hoy) dm) eqn:Hc;
        [|reflexivity].
      destruct (PyDate.leb hoy este) eqn:Hle; [|reflexivity].
      exfalso. apply Hn. split; [exact Hc|reflexivity].
  - intros Hf Hds. unfold ProgramacionMantenimiento._calcular_proxima_fecha.
    destruct Hf as [-> | ->]; destruct Hds as [-> | ->]; reflexivity.
  - intros Hf Hdm. unfold ProgramacionMantenimiento._calcular_proxima_fecha.
    rewrite Hf. destruct Hdm as [-> | ->]; reflexivity.
  - intros Hf. unfold ProgramacionMantenimiento._calcular_proxima_fecha.
    destruct Hf as [-> | [-> | ->]]; reflexivity.
Qed.

Lemma calcular_proxima_fecha_spec_witness :
  valid fin_de_enero
  /\ year fin_de_enero < MAXYEAR
  /\ (exists d,
        ProgramacionMantenimiento._calcular_proxima_fecha programacion_lunes
          fin_de_enero = Return (Some d)
        /\ weekday d = 0)
  /\ ProgramacionMantenimiento._calcular_proxima_fecha programacion_dia_30
       fin_de_enero
     = Return (Some (mkdate 2023 2 28)).
Proof.
  assert (Hv : valid fin_de_enero) by reflexivity.
  assert (Hy : year fin_de_enero < MAXYEAR) by reflexivity.
  split; [exact Hv|]. split; [exact Hy|]. split.
  - destruct (calcular_proxima_fecha_spec programacion_lunes fin_de_enero)
      as (_ & Hs & _).
    destruct (Hs Hv Hy eq_refl 1 eq_refl ltac:(discriminate))
      as (d & Hr & _ & _ & _ & Hw & _).
    exists d. split; [exact Hr | exact Hw].
  - destruct (calcular_proxima_fecha_spec programacion_dia_30 fin_de_enero)
      as (_ & _ & Hm & _).
    destruct (Hm Hv Hy eq_refl 30 eq_refl eq_refl) as (_ & _ & Hn).
    apply Hn. intros [_ Hle]. vm_compute in Hle. discriminate Hle.
Defined.

(** * Further properties *)

(** ** The framework's save, continued *)

Section SuperSaveMore.
Context {R : Type} `{Django.Model R}.

(** A property of every row survives [super().save()] when the instance
    has it, with or without a key. *)
Lemma super_save_Forall (P : R -> Prop) (o : R) (tbl : list R) :
  Forall P tbl -> P o -> (forall k, P (Django.with_pk k o)) ->
  exists o' tbl',
    Django.super_save (o, tbl) = Ok tt (o', tbl') /\ P o' /\ Forall P tbl'.
Proof.
  intros Ht Ho Hk. unfold Django.super_save.
  destruct (Django.pk o) as [k|].
  - destruct (existsb (Django.has_pk k) tbl).
    + eexists _, _. split; [reflexivity|]. split; [exact Ho|].
      apply List.Forall_forall. intros r Hr. apply in_map_iff in Hr as (r0 & <- & Hr0).
      destruct (Django.has_pk k r0); [exact Ho|].
      rewrite List.Forall_forall in Ht. now apply Ht.
    + eexists _, _. split; [reflexivity|]. split; [exact Ho|].
      apply Forall_app. split; [exact Ht|]. now constructor.
  - eexists _, _. split; [reflexivity|]. split; [apply Hk|].
    apply Forall_app. split; [exact Ht|]. constructor; [apply Hk|constructor].
Qed.

Lemma next_pk_fresh (tbl : list R) (r : R) :
  In r tbl -> Django.has_pk (Django.next_pk tbl) r = false.
Proof.
  intros Hin. unfold Django.has_pk, Django.next_pk.
  destruct (Django.pk r) as [k|] eqn:Hk; [|reflexivity].
  apply Nat.eqb_neq.
  assert (Hle : (k <= fold_right Nat.max 0%nat (omap Django.pk tbl))%nat).
  { induction tbl as [|r0 tbl IH]; [destruct Hin|].
    cbn. destruct Hin as [->|Hin].
    - rewrite Hk. cbn. apply Nat.le_max_l.
    - specialize (IH Hin). destruct (Django.pk r0); cbn; [|exact IH].
      etransitivity; [exact IH|apply Nat.le_max_r]. }
  lia.
Qed.

Lemma has_pk_false_map (k : nat) (o : R) (tbl : list R) :
  (forall r, In r tbl -> Django.has_pk k r = false) ->
  map (fun r => if Django.has_pk k r then o else r) tbl = tbl.
Proof.
  intros Hf. induction tbl as [|r tbl IH]; [reflexivity|].
  cbn. rewrite (Hf r) by now left. f_equal. apply IH.
  intros r' Hr'. apply Hf. now right.
Qed.

(** Saving the instance that a save left, against the table that save
    left, changes nothing. *)
Lemma super_save_again (o o' : R) (tbl tbl' : list R) :
  (forall k r, Django.pk (Django.with_pk k r) = Some k) ->
  Django.super_save (o, tbl) = Ok tt (o', tbl') ->
  Django.super_save (o', tbl') = Ok tt (o', tbl').
Proof.
  intros Hlaw. unfold Django.super_save.
  assert (Hself : forall k (r : R), Django.pk r = Some k -> Django.has_pk k r = true).
  { intros k r Hr. unfold Django.has_pk. rewrite Hr. apply Nat.eqb_refl. }
  destruct (Django.pk o) as [k|] eqn:Hk.
  - destruct (existsb (Django.has_pk k) tbl) eqn:Hex; intros [= <- <-]; rewrite Hk.
    + assert (Hex' : existsb (Django.has_pk k)
                (map (fun r => if Django.has_pk k r then o else r) tbl) = true).
      { apply existsb_exists in Hex as (r & Hr & Hp).
        apply existsb_exists. exists o. split; [|now apply Hself].
        apply in_map_iff. exists r. now rewrite Hp. }
      rewrite Hex'. do 2 f_equal. rewrite map_map. apply map_ext.
      intros r. destruct (Django.has_pk k r) eqn:E; [|now rewrite E].
      now rewrite (Hself k o Hk).
    + assert (Hex' : existsb (Django.has_pk k) (tbl ++ [o]) = true).
      { apply existsb_exists. exists o. split; [|now apply Hself].
        apply in_or_app. right. now left. }
      rewrite Hex'.
      do 2 f_equal. rewrite map_app. cbn. rewrite (Hself k o Hk). f_equal.
      apply has_pk_false_map. intros r Hr.
      destruct (Django.has_pk k r) eqn:E; [|reflexivity].
      assert (existsb (Django.has_pk k) tbl = true)
        by (apply existsb_exists; eauto).
      congruence.
  - intros [= <- <-]. rewrite Hlaw.
    assert (Hex' : existsb (Django.has_pk (Django.next_pk tbl))
              (tbl ++ [Django.with_pk (Django.next_pk tbl) o]) = true).
    { apply existsb_exists. eexists. split; [|now apply Hself].
      apply in_or_app. right. now left. }
    rewrite Hex'.
    do 2 f_equal. rewrite map_app. cbn.
    rewrite (Hself _ _ (Hlaw (Django.next_pk tbl) o)). f_equal.
    apply has_pk_false_map. intros r Hr. now apply next_pk_fresh.
Qed.
End SuperSaveMore.

(** ** The ledger *)

Lemma signo_ok_saved (x : IngresoGasto.t) :
  (0 < IngresoGasto.monto x)%Q ->
  signo_ok (if String.eqb (IngresoGasto.tipo x) "gasto"
            then IngresoGasto.set_monto (- IngresoGasto.monto x) x else x).
Proof.
  intros Hpos. unfold signo_ok.
  destruct (String.eqb (IngresoGasto.tipo x) "gasto") eqn:E; cbn; rewrite E.
  - lra.
  - exact Hpos.
Qed.

Lemma asiento_ok_saved (x : IngresoGasto.t) :
  (0 < IngresoGasto.monto x)%Q ->
  Decimal.en_columna 12 2 (IngresoGasto.monto x) ->
  asiento_ok (if String.eqb (IngresoGasto.tipo x) "gasto"
              then IngresoGasto.set_monto (- IngresoGasto.monto x) x else x).
Proof.
  intros Hpos Hc. split; [now apply signo_ok_saved|].
  destruct (String.eqb (IngresoGasto.tipo x) "gasto"); cbn.
  - now apply en_columna_opp.
  - exact Hc.
Qed.

(** Whatever its outcome, [IngresoGasto.save] of an instance whose
    amount fits the column leaves a ledger whose rows fit it and follow
    the sign convention, when it found one. *)
Lemma IngresoGasto_save_libro (x : IngresoGasto.t) (tbl : IngresoGasto.table) :
  libro_ok tbl ->
  Decimal.en_columna 12 2 (IngresoGasto.monto x) ->
  libro_ok (snd (final (IngresoGasto.save (x, tbl)))).
Proof.
  intros Ht Hc.
  destruct (Qlt_le_dec 0 (IngresoGasto.monto x)) as [Hpos|Hle].
  - rewrite IngresoGasto_save_positive by exact Hpos.
    match goal with |- context [Django.super_save (?y, tbl)] =>
      destruct (super_save_Forall asiento_ok y tbl Ht) as (o' & tbl' & Hs & _ & Hall)
    end.
    + now apply asiento_ok_saved.
    + intros k. exact (asiento_ok_saved x Hpos Hc).
    + rewrite Hs. exact Hall.
  - rewrite IngresoGasto_save_not_positive by exact Hle. exact Ht.
Qed.

Lemma IngresoGasto_create_libro (x : IngresoGasto.t) (tbl : IngresoGasto.table) :
  libro_ok tbl ->
  Decimal.en_columna 12 2 (IngresoGasto.monto x) ->
  libro_ok (final (IngresoGasto.objects_create x tbl)).
Proof.
  intros Ht Hc. pose proof (IngresoGasto_save_libro x tbl Ht Hc) as Hs.
  unfold IngresoGasto.objects_create.
  destruct (IngresoGasto.save (x, tbl)) as [[] [x' tbl']|e [x' tbl']]; exact Hs.
Qed.

(** X1. The writers of the ledger keep its rows as the database holds
    them: after [save], [anular] or [objects.create] of an instance whose
    amount fits the column (at most twelve digits, two of them decimals),
    whether they return or raise, the amount of every row fits the
    column, every [gasto] row is negative and every other row positive,
    if that was so before. *)
Theorem IngresoGasto_writers_keep_signs (x : IngresoGasto.t)
    (tbl : IngresoGasto.table) (motivo : option string) :
  libro_ok tbl ->
  Decimal.en_columna 12 2 (IngresoGasto.monto x) ->
  libro_ok (snd (final (IngresoGasto.save (x, tbl))))
  /\ libro_ok (snd (final (IngresoGasto.anular motivo (x, tbl))))
  /\ libro_ok (final (IngresoGasto.objects_create x tbl)).
Proof.
  intros Ht Hc. split; [now apply IngresoGasto_save_libro|].
  split; [|now apply IngresoGasto_create_libro].
  destruct (String.eqb (IngresoGasto.estado x) "anulado") eqn:E.
  - apply String.eqb_eq in E. now rewrite IngresoGasto_anular_already.
  - apply String.eqb_neq in E. rewrite IngresoGasto_anular_unfold by exact E.
    assert (Hm : IngresoGasto.monto (anulado_con motivo x) = IngresoGasto.monto x).
    { unfold anulado_con. now destruct (opt_truthy str_truthy motivo). }
    pose proof (IngresoGasto_save_libro (anulado_con motivo x) tbl Ht) as Hs.
    rewrite Hm in Hs. specialize (Hs Hc).
    destruct (IngresoGasto.save (anulado_con motivo x, tbl)); exact Hs.
Qed.

Lemma IngresoGasto_writers_keep_signs_witness :
  libro_ok libro_mayo
  /\ Decimal.en_columna 12 2 (IngresoGasto.monto gasto_nuevo)
  /\ libro_ok (snd (final (IngresoGasto.save (gasto_nuevo, libro_mayo)))).
Proof.
  assert (Ht : libro_ok libro_mayo).
  { repeat constructor; unfold signo_ok; cbn; lra. }
  assert (Hc : Decimal.en_columna 12 2 (IngresoGasto.monto gasto_nuevo))
    by reflexivity.
  split; [exact Ht|]. split; [exact Hc|].
  exact (proj1 (IngresoGasto_writers_keep_signs gasto_nuevo libro_mayo None Ht Hc)).
Defined.

(** X2. An instance that [IngresoGasto.save] has stored cannot go through
    [save] again when it is a [gasto]: the stored amount is negative and
    the method raises [ValueError], whatever the ledger holds.  For any
    other tipo a second [save] returns and leaves instance and ledger as
    the first one left them. *)
Theorem IngresoGasto_save_again (x x' : IngresoGasto.t)
    (tbl tbl' : IngresoGasto.table) :
  IngresoGasto.save (x, tbl) = Ok tt (x', tbl') ->
  (IngresoGasto.tipo x = "gasto" ->
   forall tbl2,
     IngresoGasto.save (x', tbl2)
     = Raise (ValueError "El monto debe ser positivo") (x', tbl2))
  /\ (IngresoGasto.tipo x <> "gasto" ->
      IngresoGasto.save (x', tbl') = Ok tt (x', tbl')).
Proof.
  intros Hs.
  destruct (Qlt_le_dec 0 (IngresoGasto.monto x)) as [Hpos|Hle];
    [|rewrite IngresoGasto_save_not_positive in Hs by exact Hle; discriminate Hs].
  rewrite IngresoGasto_save_positive in Hs by exact Hpos.
  split.
  - intros Ht tbl2. apply IngresoGasto_save_not_positive.
    rewrite Ht in Hs. cbn in Hs.
    destruct (super_save_ok (IngresoGasto.set_monto (- IngresoGasto.monto x) x) tbl)
      as (o' & t' & Hs' & _ & Hshape).
    rewrite Hs in Hs'. injection Hs' as <- <-.
    destruct Hshape as [(k & _ & ->) | [_ ->]]; cbn; lra.
  - intros Ht. apply String.eqb_neq in Ht. rewrite Ht in Hs.
    assert (Hm : IngresoGasto.monto x' = IngresoGasto.monto x
                 /\ IngresoGasto.tipo x' = IngresoGasto.tipo x).
    { destruct (super_save_ok x tbl) as (o' & t' & Hs' & _ & Hshape).
      rewrite Hs in Hs'. injection Hs' as <- <-.
      destruct Hshape as [(k & _ & ->) | [_ ->]]; now split. }
    destruct Hm as [Hm Htipo].
    rewrite IngresoGasto_save_positive by (rewrite Hm; exact Hpos).
    rewrite Htipo, Ht.
    apply (super_save_again x x' tbl tbl'); [|exact Hs].
    intros k r. reflexivity.
Qed.

Lemma IngresoGasto_save_again_witness :
  IngresoGasto.save (gasto_nuevo, []) = Ok tt (gasto_guardado, [gasto_guardado])
  /\ IngresoGasto.save (gasto_guardado, libro_mayo)
     = Raise (ValueError "El monto debe ser positivo") (gasto_guardado, libro_mayo).
Proof.
  assert (Hs : IngresoGasto.save (gasto_nuevo, [])
               = Ok tt (gasto_guardado, [gasto_guardado])) by reflexivity.
  split; [exact Hs|].
  exact (proj1 (IngresoGasto_save_again _ _ _ _ Hs) eq_refl libro_mayo).
Defined.

(** ** The balance of a period *)

(** [filter] on a condition that is a boolean. *)
Lemma filter_cons_bool {A : Type} (f : A -> bool) (r : A) (l : list A) :
  filter (fun r => f r) (r :: l)
  = if f r then r :: filter (fun r => f r) l else filter (fun r => f r) l.
Proof. rewrite filter_cons. now destruct (f r). Qed.

Lemma filter_In_bool {A : Type} (f : A -> bool) (r : A) (l : list A) :
  In r (filter (fun r => f r) l) <-> In r l /\ f r = true.
Proof.
  rewrite <- !list_elem_of_In, list_elem_of_filter, Is_true_true. tauto.
Qed.

Lemma or_zero_sum {R : Type} (col : R -> Q) (rows : list R) :
  (Consultas.or_zero (Consultas.aggregate_sum col rows)
   == fold_right (fun r a => col r + a) 0 rows)%Q.
Proof.
  destruct rows as [|r rows]; [reflexivity|].
  unfold Consultas.aggregate_sum, Consultas.or_zero, dec_truthy.
  destruct (Qeq_bool _ 0) eqn:E; cbn [negb]; [|reflexivity].
  apply Qeq_bool_iff in E. symmetry. exact E.
Qed.

(** The rows that a total adds up. *)
Lemma total_sum (tipo : string) (año : Z) (mes : option Z) (tbl : IngresoGasto.table) :
  (Finanzas.total tipo año mes tbl
   == fold_right (fun r a => IngresoGasto.monto r + a) 0
        (filter (fun r => String.eqb (IngresoGasto.tipo r) tipo
                          && Finanzas.filters año mes r) tbl))%Q.
Proof. apply or_zero_sum. Qed.

Lemma total_cons (tipo : string) (año : Z) (mes : option Z)
    (r : IngresoGasto.t) (tbl : IngresoGasto.table) :
  (Finanzas.total tipo año mes (r :: tbl)
   == (if String.eqb (IngresoGasto.tipo r) tipo && Finanzas.filters año mes r
       then IngresoGasto.monto r else 0)
      + Finanzas.total tipo año mes tbl)%Q.
Proof.
  rewrite !total_sum, filter_cons_bool.
  destruct (String.eqb (IngresoGasto.tipo r) tipo && Finanzas.filters año mes r);
    cbn [fold_right]; lra.
Qed.

Lemma total_nil (tipo : string) (año : Z) (mes : option Z) :
  (Finanzas.total tipo año mes [] == 0)%Q.
Proof. reflexivity. Qed.

Lemma total_gasto_sign (año : Z) (mes : option Z) (tbl : IngresoGasto.table) :
  signos_ok tbl -> (Finanzas.total "gasto" año mes tbl <= 0)%Q.
Proof.
  induction 1 as [|r tbl Hr _ IH]; [rewrite total_nil; lra|].
  rewrite total_cons. unfold signo_ok in Hr.
  destruct (String.eqb (IngresoGasto.tipo r) "gasto"); cbn [andb]; [|lra].
  destruct (Finanzas.filters año mes r); lra.
Qed.

Lemma total_ingreso_sign (año : Z) (mes : option Z) (tbl : IngresoGasto.table) :
  signos_ok tbl -> (0 <= Finanzas.total "ingreso" año mes tbl)%Q.
Proof.
  induction 1 as [|r tbl Hr _ IH]; [rewrite total_nil; lra|].
  rewrite total_cons. unfold signo_ok in Hr.
  destruct (String.eqb (IngresoGasto.tipo r) "ingreso") eqn:E; cbn [andb]; [|lra].
  apply String.eqb_eq in E. rewrite E in Hr. cbn in Hr.
  destruct (Finanzas.filters año mes r); lra.
Qed.

Lemma cifras (tbl : IngresoGasto.table) (año : Z) (mes : option Z) :
  cifra "ingresos" (Finanzas.get_balance_periodo tbl año mes)
  = Finanzas.total "ingreso" año mes tbl
  /\ cifra "gastos" (Finanzas.get_balance_periodo tbl año mes)
     = Qabs (Finanzas.total "gasto" año mes tbl)
  /\ cifra "balance" (Finanzas.get_balance_periodo tbl año mes)
     = (Finanzas.total "ingreso" año mes tbl + Finanzas.total "gasto" año mes tbl)%Q.
Proof. repeat split. Qed.

(** X3. On a ledger that follows the sign convention the dictionary of
    [get_balance_periodo] holds the three figures, incomes and expenses
    are not negative, and the balance is incomes minus expenses. *)
Theorem get_balance_periodo_spec (tbl : IngresoGasto.table) (año : Z)
    (mes : option Z) :
  signos_ok tbl ->
  exists ingresos gastos balance,
    Finanzas.get_balance_periodo tbl año mes !! "ingresos" = Some ingresos
    /\ Finanzas.get_balance_periodo tbl año mes !! "gastos" = Some gastos
    /\ Finanzas.get_balance_periodo tbl año mes !! "balance" = Some balance
    /\ (0 <= ingresos)%Q /\ (0 <= gastos)%Q
    /\ (balance == ingresos - gastos)%Q.
Proof.
  intros Ht. eexists _, _, _.
  split; [reflexivity|]. split; [reflexivity|]. split; [reflexivity|].
  pose proof (total_ingreso_sign año mes tbl Ht) as Hi.
  pose proof (total_gasto_sign año mes tbl Ht) as Hg.
  split; [exact Hi|]. split; [apply Qabs_nonneg|].
  rewrite (Qabs_neg _ Hg). lra.
Qed.

Lemma get_balance_periodo_spec_witness :
  signos_ok libro_mayo
  /\ exists ingresos gastos balance,
       Finanzas.get_balance_periodo libro_mayo 2024 (Some 5%Z) !! "ingresos"
       = Some ingresos
       /\ Finanzas.get_balance_periodo libro_mayo 2024 (Some 5%Z) !! "gastos"
          = Some gastos
       /\ Finanzas.get_balance_periodo libro_mayo 2024 (Some 5%Z) !! "balance"
          = Some balance
       /\ (0 <= ingresos)%Q /\ (0 <= gastos)%Q
       /\ (balance == ingresos - gastos)%Q.
Proof.
  assert (Ht : signos_ok libro_mayo).
  { repeat constructor; unfold signo_ok; cbn; lra. }
  split; [exact Ht|].
  exact (get_balance_periodo_spec libro_mayo 2024 (Some 5%Z) Ht).
Defined.

(** X4. A transaction whose estado is neither "registrado" nor
    "verificado" (an annulled one, say) changes no figure of any period,
    and a month of 0 asks for the whole year, as no month does. *)
Theorem get_balance_periodo_ignores (l1 l2 : IngresoGasto.table)
    (r : IngresoGasto.t) (año : Z) (mes : option Z) :
  IngresoGasto.estado r <> "registrado" ->
  IngresoGasto.estado r <> "verificado" ->
  Finanzas.get_balance_periodo (l1 ++ r :: l2) año mes
  = Finanzas.get_balance_periodo (l1 ++ l2) año mes
  /\ Finanzas.get_balance_periodo (l1 ++ r :: l2) año (Some 0%Z)
     = Finanzas.get_balance_periodo (l1 ++ l2) año None.
Proof.
  intros H1 H2.
  assert (Hf : forall m, Finanzas.filters año m r = false).
  { intros m. unfold Finanzas.filters. cbn [existsb].
    apply String.eqb_neq in H1, H2. rewrite H1, H2. cbn.
    now rewrite andb_false_r. }
  assert (Hfilter : forall tipo m,
             filter (fun r => String.eqb (IngresoGasto.tipo r) tipo
                              && Finanzas.filters año m r) (l1 ++ r :: l2)
             = filter (fun r => String.eqb (IngresoGasto.tipo r) tipo
                                && Finanzas.filters año m r) (l1 ++ l2)).
  { intros tipo m. rewrite !filter_app, filter_cons_bool.
    now rewrite Hf, andb_false_r. }
  assert (Htotal : forall tipo m,
             Finanzas.total tipo año m (l1 ++ r :: l2)
             = Finanzas.total tipo año m (l1 ++ l2)).
  { intros tipo m. unfold Finanzas.total. now rewrite Hfilter. }
  split.
  - unfold Finanzas.get_balance_periodo. now rewrite !Htotal.
  - unfold Finanzas.get_balance_periodo. rewrite !Htotal. reflexivity.
Qed.

Lemma get_balance_periodo_ignores_witness :
  IngresoGasto.estado (IngresoGasto.set_estado "anulado" ingreso_del_pago)
  <> "registrado"
  /\ Finanzas.get_balance_periodo
       ([gasto_guardado] ++ IngresoGasto.set_estado "anulado" ingreso_del_pago :: [])
       2024 None
     = Finanzas.get_balance_periodo ([gasto_guardado] ++ []) 2024 None.
Proof.
  assert (H1 : IngresoGasto.estado (IngresoGasto.set_estado "anulado" ingreso_del_pago)
               <> "registrado") by discriminate.
  assert (H2 : IngresoGasto.estado (IngresoGasto.set_estado "anulado" ingreso_del_pago)
               <> "verificado") by discriminate.
  split; [exact H1|].
  exact (proj1 (get_balance_periodo_ignores [gasto_guardado] [] _ 2024 None H1 H2)).
Defined.

Local Open Scope Z_scope.
Lemma total_meses (tipo : string) (año : Z) (tbl : IngresoGasto.table) :
  (forall r f, In r tbl -> IngresoGasto.fecha r = Some f -> 1 <= month f <= 12) ->
  (fold_right (fun m a => Finanzas.total tipo año (Some m) tbl + a) 0 meses
   == Finanzas.total tipo año None tbl)%Q.
Proof.
  induction tbl as [|r tbl IH]; intros Hm; [reflexivity|].
  assert (IH' := IH (fun r f Hr => Hm r f (or_intror Hr))). clear IH.
  unfold meses in *. cbn [fold_right] in *. rewrite !total_cons.
  destruct (String.eqb (IngresoGasto.tipo r) tipo); cbn [andb]; [|lra].
  unfold Finanzas.filters.
  destruct (IngresoGasto.fecha r) as [f|] eqn:Hf; [|cbn [andb]; lra].
  destruct (year f =? año); cbn [andb]; [|lra].
  destruct (existsb (String.eqb (IngresoGasto.estado r)) ["registrado"; "verificado"]);
    cbn [andb]; [|lra].
  pose proof (Hm r f (or_introl eq_refl) Hf) as Hmonth.
  each_month Hmonth.
  all: cbn [opt_truthy int_truthy default from_option id Z.eqb Pos.eqb negb andb].
  all: lra.
Qed.
Local Close Scope Z_scope.

(** X5. The figures of a year are the sums of the figures of its twelve
    months: incomes and balance on any ledger whose dates have a month
    from 1 to 12, expenses on one that also follows the sign
    convention. *)
Theorem get_balance_periodo_anual (tbl : IngresoGasto.table) (año : Z) :
  (forall r f, In r tbl -> IngresoGasto.fecha r = Some f -> (1 <= month f <= 12)%Z) ->
  (cifra "ingresos" (Finanzas.get_balance_periodo tbl año None)
   == suma_mensual "ingresos" tbl año)%Q
  /\ (cifra "balance" (Finanzas.get_balance_periodo tbl año None)
      == suma_mensual "balance" tbl año)%Q
  /\ (signos_ok tbl ->
      (cifra "gastos" (Finanzas.get_balance_periodo tbl año None)
       == suma_mensual "gastos" tbl año)%Q).
Proof.
  intros Hm.
  pose proof (total_meses "ingreso" año tbl Hm) as Hi.
  pose proof (total_meses "gasto" año tbl Hm) as Hg.
  unfold suma_mensual, meses in *. cbn [fold_right] in *.
  split; [|split].
  - destruct (cifras tbl año None) as (-> & _ & _).
    repeat match goal with
    | |- context [cifra "ingresos" (Finanzas.get_balance_periodo tbl año (Some ?m))] =>
        destruct (cifras tbl año (Some m)) as (-> & _ & _)
    end.
    lra.
  - destruct (cifras tbl año None) as (_ & _ & ->).
    repeat match goal with
    | |- context [cifra "balance" (Finanzas.get_balance_periodo tbl año (Some ?m))] =>
        destruct (cifras tbl año (Some m)) as (_ & _ & ->)
    end.
    lra.
  - intros Ht.
    destruct (cifras tbl año None) as (_ & -> & _).
    repeat match goal with
    | |- context [cifra "gastos" (Finanzas.get_balance_periodo tbl año (Some ?m))] =>
        destruct (cifras tbl año (Some m)) as (_ & -> & _)
    end.
    rewrite !Qabs_neg by (apply total_gasto_sign; exact Ht).
    lra.
Qed.

Lemma get_balance_periodo_anual_witness :
  (forall r f, In r libro_mayo -> IngresoGasto.fecha r = Some f ->
               (1 <= month f <= 12)%Z)
  /\ (cifra "balance" (Finanzas.get_balance_periodo libro_mayo 2024 None)
      == suma_mensual "balance" libro_mayo 2024)%Q.
Proof.
  assert (Hm : forall r f, In r libro_mayo -> IngresoGasto.fecha r = Some f ->
                           (1 <= month f <= 12)%Z).
  { intros r f [<-|[<-|[]]] [= <-]; cbn; lia. }
  split; [exact Hm|].
  exact (proj1 (proj2 (get_balance_periodo_anual libro_mayo 2024 Hm))).
Defined.

(** ** The reserve fund and its movements *)

Section SuperSaveKeys.
Context {R : Type} `{Django.Model R}.

Lemma super_save_insert (o : R) (tbl : list R) :
  Django.pk o = None ->
  Django.super_save (o, tbl)
  = Ok tt (Django.with_pk (Django.next_pk tbl) o,
           tbl ++ [Django.with_pk (Django.next_pk tbl) o]).
Proof. intros Hk. unfold Django.super_save. now rewrite Hk. Qed.

End SuperSaveKeys.

Lemma neto_movimientos_app (fondo : option nat) (movs : list MovimientoFondo.t)
    (mv : MovimientoFondo.t) :
  MovimientoFondo.fondo mv = fondo ->
  (neto_movimientos fondo (movs ++ [mv])
   == neto_movimientos fondo movs
      + (if String.eqb (MovimientoFondo.tipo mv) "ingreso"
         then MovimientoFondo.monto mv else - MovimientoFondo.monto mv))%Q.
Proof.
  intros Hf. induction movs as [|m movs IH].
  - cbn. rewrite bool_decide_eq_true_2 by exact Hf.
    destruct (String.eqb (MovimientoFondo.tipo mv) "ingreso"); lra.
  - unfold neto_movimientos in *. cbn [app fold_right] in *.
    destruct (bool_decide (MovimientoFondo.fondo m = fondo)); [|exact IH].
    destruct (String.eqb (MovimientoFondo.tipo m) "ingreso"); lra.
Qed.

(** X6. The amount of a fund and the log of its movements move together:
    when the numbers of the fund, the amount and the new balance fit
    their columns, whatever [registrar_aporte] or [registrar_uso] do,
    return or raise, the amount of the fund minus the net of its
    movements (contributions minus uses) is what it was before the
    call. *)
Theorem FondoReserva_saldo_y_movimientos (x : FondoReserva.t) (d : FondoReserva.db)
    (monto : Q) (descripcion : option string) (descripcion_uso : string) :
  fondo_en_columnas x ->
  Decimal.en_columna 12 2 monto ->
  let aporte := final (FondoReserva.registrar_aporte monto descripcion (x, d)) in
  let uso := final (FondoReserva.registrar_uso monto descripcion_uso (x, d)) in
  (Decimal.en_columna 12 2 (FondoReserva.monto_actual x + monto) ->
   (FondoReserva.monto_actual (fst aporte)
    - neto_movimientos (FondoReserva.pk (fst aporte))
        (FondoReserva.movimientos (snd aporte))
    == FondoReserva.monto_actual x
       - neto_movimientos (FondoReserva.pk (fst aporte)) (FondoReserva.movimientos d))%Q)
  /\ (FondoReserva.monto_actual (fst uso)
      - neto_movimientos (FondoReserva.pk (fst uso))
          (FondoReserva.movimientos (snd uso))
      == FondoReserva.monto_actual x
         - neto_movimientos (FondoReserva.pk (fst uso)) (FondoReserva.movimientos d))%Q.
Proof.
  intros Hc Hm. cbv zeta. split.
  - intros Hsum.
    destruct (Qlt_le_dec 0 monto) as [Hpos|Hle].
    + destruct (registrar_aporte_ok x d monto descripcion Hpos Hc Hm Hsum)
        as (mv & x' & d' & fila & -> & Hma & _ & _ & _ & _ & Hmov & _ & Hf & Ht & Hq).
      cbn [final fst snd]. rewrite Hmov.
      pose proof (neto_movimientos_app (FondoReserva.pk x')
                    (FondoReserva.movimientos d) fila Hf) as Hn.
      rewrite Ht in Hn. cbn [String.eqb Ascii.eqb Bool.eqb] in Hn. lra.
    + rewrite (registrar_aporte_raises x d monto descripcion Hle).
      cbn [final fst snd]. lra.
  - destruct (Qlt_le_dec 0 monto) as [Hpos|Hle].
    + destruct (Qlt_le_dec (FondoReserva.monto_actual x) monto) as [Hlt|Hok].
      * destruct (registrar_uso_raises x d monto descripcion_uso (or_intror Hlt))
          as (msg & ->). cbn [final fst snd]. lra.
      * destruct (registrar_uso_ok x d monto descripcion_uso Hpos Hok Hc Hm)
          as (mv & x' & d' & fila & -> & Hma & _ & _ & _ & _ & Hmov & _ & Hf & Ht & Hq).
        cbn [final fst snd]. rewrite Hmov.
        pose proof (neto_movimientos_app (FondoReserva.pk x')
                      (FondoReserva.movimientos d) fila Hf) as Hn.
        rewrite Ht in Hn. cbn [String.eqb Ascii.eqb Bool.eqb] in Hn. lra.
    + destruct (registrar_uso_raises x d monto descripcion_uso (or_introl Hle))
        as (msg & ->). cbn [final fst snd]. lra.
Qed.

Lemma FondoReserva_saldo_y_movimientos_witness :
  fondo_en_columnas fondo_imprevistos
  /\ Decimal.en_columna 12 2 200
  /\ (let uso := final (FondoReserva.registrar_uso 200 "Reparacion"
                          (fondo_imprevistos, db_fondos)) in
      FondoReserva.monto_actual (fst uso)
      - neto_movimientos (FondoReserva.pk (fst uso))
          (FondoReserva.movimientos (snd uso))
      == 500)%Q.
Proof.
  assert (Hc : fondo_en_columnas fondo_imprevistos) by (repeat split; reflexivity).
  assert (Hm : Decimal.en_columna 12 2 200) by reflexivity.
  split; [exact Hc|]. split; [exact Hm|].
  exact (proj2 (FondoReserva_saldo_y_movimientos fondo_imprevistos db_fondos
                  200 None "Reparacion" Hc Hm)).
Defined.

(** ** Administration fees and their payments *)

(** X7. [get_nombre_mes] answers for every integer: numbers up to 1 give
    "Enero", numbers from 12 on give "Diciembre", and the answer is always
    one of the twelve names, never the empty text of a failed look-up. *)
Theorem get_nombre_mes_clamps (mes : Z) :
  ((mes <= 1)%Z -> CuotaAdministracion.get_nombre_mes mes = "Enero")
  /\ ((12 <= mes)%Z -> CuotaAdministracion.get_nombre_mes mes = "Diciembre")
  /\ CuotaAdministracion.get_nombre_mes mes
     = CuotaAdministracion.get_nombre_mes (Z.max 1 (Z.min mes 12))
  /\ In (CuotaAdministracion.get_nombre_mes mes)
        ["Enero"; "Febrero"; "Marzo"; "Abril"; "Mayo"; "Junio"; "Julio";
         "Agosto"; "Septiembre"; "Octubre"; "Noviembre"; "Diciembre"].
Proof.
  unfold CuotaAdministracion.get_nombre_mes.
  split; [|split; [|split]].
  - intros H. now replace (Z.max 1 (Z.min mes 12)) with 1%Z by lia.
  - intros H. now replace (Z.max 1 (Z.min mes 12)) with 12%Z by lia.
  - now replace (Z.max 1 (Z.min (Z.max 1 (Z.min mes 12)) 12))
      with (Z.max 1 (Z.min mes 12)) by lia.
  - assert (Hm : (1 <= Z.max 1 (Z.min mes 12) <= 12)%Z) by lia.
    generalize dependent (Z.max 1 (Z.min mes 12)). intros m Hm.
    each_month Hm; cbn; tauto.
Qed.

(** X8. [generar_cuota_siguiente_mes] never creates a fee: the table of
    fees is left as it was found and the call returns [None] or raises
    (the text of the description formats the current fee).  The view
    [generar_siguiente] therefore never answers 201. *)
Theorem generar_cuota_siguiente_mes_never_creates (hoy : date)
    (tbl : list CuotaAdministracion.t) :
  final (Administracion.generar_cuota_siguiente_mes hoy tbl) = tbl
  /\ (Administracion.generar_cuota_siguiente_mes hoy tbl = Ok None tbl
      \/ exists e, Administracion.generar_cuota_siguiente_mes hoy tbl = Raise e tbl)
  /\ forall (D : Type) (serializar : CuotaAdministracion.t -> outcome D),
       final (Administracion.generar_siguiente serializar hoy tbl) = tbl
       /\ forall r tbl',
            Administracion.generar_siguiente serializar hoy tbl = Ok r tbl' ->
            Administracion.status r = 400%Z.
Proof.
  assert (Hg : Administracion.generar_cuota_siguiente_mes hoy tbl = Ok None tbl
               \/ exists e, Administracion.generar_cuota_siguiente_mes hoy tbl
                            = Raise e tbl).
  { unfold Administracion.generar_cuota_siguiente_mes.
    destruct (month hoy =? 12)%Z;
      (destruct (existsb _ tbl); [now left|]);
      (destruct (find _ tbl) as [c|]; [|now left]);
      (destruct (PyDate.new _ _ _); [|right; eexists; reflexivity]);
      right; eexists; reflexivity. }
  split; [|split; [exact Hg|]].
  - destruct Hg as [->|[e ->]]; reflexivity.
  - intros D serializar. unfold Administracion.generar_siguiente, Py.bind.
    destruct Hg as [->|[e ->]]; (split; [reflexivity|]); intros r tbl' [=].
    now subst r.
Qed.

(** A payment that is not being confirmed goes to the table of payments
    and nowhere else. *)
Lemma PagoAdministracion_save_other (x : PagoAdministracion.t)
    (d : PagoAdministracion.db) :
  PagoAdministracion.estado x <> "confirmado" ->
  PagoAdministracion.initially_confirmado x = false ->
  exists x' pagos',
    PagoAdministracion.save (x, d)
    = Ok tt (x', PagoAdministracion.mkdb pagos' (PagoAdministracion.ingresos d))
    /\ In x' pagos'
    /\ PagoAdministracion.estado x' = PagoAdministracion.estado x
    /\ PagoAdministracion.observaciones x' = PagoAdministracion.observaciones x
    /\ (sin_confirmados (PagoAdministracion.pagos d) ->
        sin_confirmados pagos'
        /\ PagoAdministracion.initially_confirmado x' = false).
Proof.
  intros He Hi. unfold PagoAdministracion.save. run.
  destruct x as [k v c f m e o iv]. cbn in He.
  apply String.eqb_neq in He.
  unfold PagoAdministracion.initially_confirmado in Hi. cbn in Hi.
  cbn [PagoAdministracion.pk PagoAdministracion.monto_pagado].
  destruct (negb (PagoAdministracion.pk_truthy k) && negb (dec_truthy m));
    cbn; unfold PagoAdministracion.initially_confirmado; cbn;
    rewrite ?He, ?Hi; cbn; rewrite ?Hi, ?andb_false_r; cbn;
    match goal with |- context [Django.super_save (?y, ?t)] =>
      destruct (super_save_ok y t) as (x' & tbl' & Hs & Hin & Hshape);
      pose proof (super_save_Forall
                    (fun p => PagoAdministracion.estado p <> "confirmado") y t) as HF;
      rewrite Hs in *
    end;
    (eexists _, _; split; [reflexivity|]; split; [exact Hin|]);
    (split; [destruct Hshape as [(? & _ & ->) | [_ ->]]; reflexivity|]);
    (split; [destruct Hshape as [(? & _ & ->) | [_ ->]]; reflexivity|]);
    intros Hsin;
    (destruct HF as (o' & t' & [= <- <-] & _ & Hall);
       [exact Hsin
       |cbn; now apply String.eqb_neq
       |intros ?; cbn; now apply String.eqb_neq|]);
    (split; [exact Hall|]);
    (assert (Hrow : forall row,
               Django.objects_get k (PagoAdministracion.pagos d) = Some row ->
               PagoAdministracion.estado row <> "confirmado")
       by (intros row Hrow; destruct k as [k|]; [|discriminate Hrow];
           apply find_some in Hrow as [Hrow _];
           unfold sin_confirmados in Hsin; rewrite List.Forall_forall in Hsin;
           now apply Hsin));
    (destruct Hshape as [(? & _ & ->) | [_ ->]];
     unfold PagoAdministracion.initially_confirmado; cbn;
     (destruct (Django.objects_get k (PagoAdministracion.pagos d)) as [row|] eqn:Hg;
      [rewrite lookup_singleton; apply String.eqb_neq; now apply Hrow
      |reflexivity])).
Qed.

(** X9. Through [PagoAdministracion.save] no payment is ever confirmed:
    from tables without a confirmed payment, and an instance not loaded
    from one, every call leaves the ledger untouched and the table without
    a confirmed payment, and the instance still counts as not confirmed
    before; a call in estado "confirmado" raises [TypeError]. *)
Theorem PagoAdministracion_save_never_confirms (x : PagoAdministracion.t)
    (d : PagoAdministracion.db) :
  sin_confirmados (PagoAdministracion.pagos d) ->
  PagoAdministracion.initially_confirmado x = false ->
  let s := final (PagoAdministracion.save (x, d)) in
  PagoAdministracion.ingresos (snd s) = PagoAdministracion.ingresos d
  /\ sin_confirmados (PagoAdministracion.pagos (snd s))
  /\ PagoAdministracion.initially_confirmado (fst s) = false
  /\ (PagoAdministracion.estado x = "confirmado" ->
      snd s = d
      /\ exists msg, PagoAdministracion.save (x, d) = Raise (TypeError msg) s).
Proof.
  intros Hsin Hi. cbv zeta.
  destruct (String.eqb (PagoAdministracion.estado x) "confirmado") eqn:He.
  - apply String.eqb_eq in He.
    assert (Hr : exists msg x1,
               PagoAdministracion.save (x, d) = Raise (TypeError msg) (x1, d)
               /\ PagoAdministracion.initially_confirmado x1 = false).
    { unfold PagoAdministracion.save. run.
      destruct x as [k v c f m e o iv]. cbn in He. subst e.
      unfold PagoAdministracion.initially_confirmado in *. cbn in Hi.
      cbn [PagoAdministracion.pk PagoAdministracion.monto_pagado].
      destruct (negb (PagoAdministracion.pk_truthy k) && negb (dec_truthy m));
        cbn; rewrite Hi, orb_true_r; cbn; eexists _, _; split;
        first [reflexivity | exact Hi]. }
    destruct Hr as (msg & x1 & Hr & Hx1). rewrite Hr. cbn.
    repeat split; try assumption. now exists msg.
  - apply String.eqb_neq in He.
    destruct (PagoAdministracion_save_other x d He Hi)
      as (x' & pagos' & Hs & _ & _ & _ & Hkeep).
    destruct (Hkeep Hsin) as [Hsin' Hi']. rewrite Hs. cbn.
    repeat split; try assumption. all: contradiction.
Qed.

Lemma PagoAdministracion_save_never_confirms_witness :
  sin_confirmados [pago_en "registrado"]
  /\ PagoAdministracion.initially_confirmado
       (PagoAdministracion.set_estado "confirmado"
          (PagoAdministracion.from_db (pago_en "registrado"))) = false
  /\ PagoAdministracion.ingresos
       (snd (final (PagoAdministracion.save
                      (PagoAdministracion.set_estado "confirmado"
                         (PagoAdministracion.from_db (pago_en "registrado")),
                       PagoAdministracion.mkdb [pago_en "registrado"] []))))
     = [].
Proof.
  assert (Hsin : sin_confirmados [pago_en "registrado"])
    by (repeat constructor; discriminate).
  split; [exact Hsin|]. split; [reflexivity|].
  exact (proj1 (PagoAdministracion_save_never_confirms
                  (PagoAdministracion.set_estado "confirmado"
                     (PagoAdministracion.from_db (pago_en "registrado")))
                  (PagoAdministracion.mkdb [pago_en "registrado"] [])
                  Hsin eq_refl)).
Defined.

(** X10. The view [confirmar] never confirms a payment: on the instance
    that [get_object] fetched it answers 400 when the payment is not
    "registrado" and raises [TypeError] out of [save] when it is; either
    way the tables are left as they were, whatever the serializer does. *)
Theorem vista_confirmar_never_confirms (D : Type)
    (serializar : Administracion.pago_vista -> outcome D)
    (row : PagoAdministracion.t) (registrado_por : option nat)
    (d : PagoAdministracion.db) (empleado : option nat) :
  let r := Administracion.confirmar serializar empleado
             (get_object row registrado_por, d) in
  snd (final r) = d
  /\ (forall a s, r = Ok a s ->
      Administracion.status a = 400%Z /\ s = (get_object row registrado_por, d))
  /\ (forall a s, r = Ok a s -> PagoAdministracion.estado row <> "registrado")
  /\ (forall e s, r = Raise e s ->
      PagoAdministracion.estado row = "registrado" /\ exists msg, e = TypeError msg).
Proof.
  cbv zeta. unfold Administracion.confirmar, get_object. run.
  cbn [Administracion.pago Administracion.registrado_por].
  change (PagoAdministracion.estado (PagoAdministracion.from_db row))
    with (PagoAdministracion.estado row).
  destruct (String.eqb (PagoAdministracion.estado row) "registrado") eqn:He; cbn [negb].
  - apply String.eqb_eq in He.
    assert (Hr : forall v0,
               exists msg v1,
                 Administracion.vista_save
                   (Administracion.mkvista
                      (PagoAdministracion.set_estado "confirmado"
                         (PagoAdministracion.from_db row)) v0, d)
                 = Raise (TypeError msg) (v1, d)).
    { intros v0. unfold Administracion.vista_save. cbn [fst snd Administracion.pago].
      destruct (PagoAdministracion_save_confirmado_raises
                  (PagoAdministracion.set_estado "confirmado"
                     (PagoAdministracion.from_db row)) d eq_refl eq_refl)
        as (msg & x1 & -> & _).
      eexists _, _. reflexivity. }
    unfold Administracion.asignar_empleado.
    destruct empleado as [e|]; run; cbn [Administracion.pago];
      match goal with |- context [Administracion.vista_save (Administracion.mkvista _ ?v0, d)] =>
        destruct (Hr v0) as (msg & v1 & ->)
      end;
      (split; [reflexivity|]); (split; [intros a s [=]|]);
      (split; [intros a s [=]|]);
      intros e' s [= <- <-]; (split; [exact He|now exists msg]).
  - apply String.eqb_neq in He. split; [reflexivity|].
    split; [intros a s [= <- <-]; now split|].
    split; [intros a s _; exact He|]. intros e s [=].
Qed.

(** X11. The view [rechazar], on a fetched payment in estado
    "registrado", stores it as "rechazado" with the reason appended to the
    observations; [registrado_por] becomes the employee of the user when
    there is one and keeps the stored value otherwise; the ledger is left
    as it was, whatever the serializer does afterwards.  On any other
    estado it answers 400 and changes nothing. *)
Theorem vista_rechazar_spec (D : Type)
    (serializar : Administracion.pago_vista -> outcome D)
    (row : PagoAdministracion.t) (registrado_por : option nat)
    (d : PagoAdministracion.db)
    (empleado : option nat) (motivo : option string) :
  let r := Administracion.rechazar serializar empleado motivo
             (get_object row registrado_por, d) in
  (PagoAdministracion.estado row = "registrado" ->
   PagoAdministracion.ingresos (snd (final r)) = PagoAdministracion.ingresos d
   /\ In (Administracion.pago (fst (final r)))
         (PagoAdministracion.pagos (snd (final r)))
   /\ PagoAdministracion.estado (Administracion.pago (fst (final r))) = "rechazado"
   /\ PagoAdministracion.observaciones (Administracion.pago (fst (final r)))
      = (if opt_truthy str_truthy motivo
         then Some (or_empty (PagoAdministracion.observaciones row) ++ nl
                    ++ "[RECHAZADO] " ++ default "" motivo)%string
         else PagoAdministracion.observaciones row)
   /\ Administracion.registrado_por (fst (final r))
      = match empleado with
        | Some e => Some e
        | None => registrado_por
        end
   /\ (forall data, serializar (fst (final r)) = Return data ->
       r = Ok (Administracion.Response 200 (inl data)) (final r)))
  /\ (PagoAdministracion.estado row <> "registrado" ->
      exists msg,
        r = Ok (Administracion.Response 400 (inr msg))
              (get_object row registrado_por, d)).
Proof.
  cbv zeta. unfold Administracion.rechazar, get_object. run.
  cbn [Administracion.pago Administracion.registrado_por].
  change (PagoAdministracion.estado (PagoAdministracion.from_db row))
    with (PagoAdministracion.estado row).
  destruct (String.eqb (PagoAdministracion.estado row) "registrado") eqn:He; cbn [negb].
  - split; [intros _|apply String.eqb_eq in He; congruence].
    assert (Hr : forall p v0,
               PagoAdministracion.estado p = "rechazado" ->
               PagoAdministracion._initial_values p = None ->
               exists p' pagos',
                 Administracion.vista_save (Administracion.mkvista p v0, d)
                 = Ok tt (Administracion.mkvista p' v0,
                          PagoAdministracion.mkdb pagos' (PagoAdministracion.ingresos d))
                 /\ In p' pagos'
                 /\ PagoAdministracion.estado p' = "rechazado"
                 /\ PagoAdministracion.observaciones p'
                    = PagoAdministracion.observaciones p).
    { intros p v0 Hp Hiv. unfold Administracion.vista_save.
      cbn [fst snd Administracion.pago Administracion.registrado_por].
      destruct (PagoAdministracion_save_other p d) as (p' & pagos' & -> & Hin & Hest & Hobs & _).
      - rewrite Hp. discriminate.
      - unfold PagoAdministracion.initially_confirmado. now rewrite Hiv.
      - exists p', pagos'. rewrite Hest, Hp. now repeat split. }
    unfold Administracion.asignar_empleado.
    destruct (opt_truthy str_truthy motivo); destruct empleado as [e|]; run;
      cbn [Administracion.pago Administracion.registrado_por];
      match goal with
      | |- context [Administracion.vista_save (Administracion.mkvista ?p ?v0, d)] =>
          destruct (Hr p v0 eq_refl eq_refl) as (p' & pagos' & -> & Hin & Hest & Hobs)
      end;
      destruct (serializar (Administracion.mkvista p' _)) as [data|e'] eqn:Hser;
      cbn; repeat split; try assumption; try (intros ? [=]; congruence).
  - split; [intros H; apply String.eqb_neq in He; contradiction|].
    intros _. eexists. reflexivity.
Qed.

Lemma vista_rechazar_spec_witness :
  PagoAdministracion.estado (pago_en "registrado") = "registrado"
  /\ Administracion.registrado_por
       (fst (final (Administracion.rechazar
                      (fun _ => Return tt) None (Some "sin soporte")
                      (get_object (pago_en "registrado") (Some 9%nat),
                       PagoAdministracion.mkdb [pago_en "registrado"] []))))
     = Some 9%nat.
Proof.
  split; [reflexivity|].
  exact (proj1 (proj2 (proj2 (proj2 (proj2
    (proj1 (vista_rechazar_spec unit (fun _ => Return tt) (pago_en "registrado")
              (Some 9%nat) (PagoAdministracion.mkdb [pago_en "registrado"] [])
              None (Some "sin soporte")) eq_refl)))))).
Defined.

(** ** Reservations *)

(** What [Reserva.save] leaves: it never raises, the instance is stored,
    and only the confirmation date, the cost and the remembered values
    can differ from the instance given. *)
Lemma Reserva_save_ok (ahora : datetime) (x : Reserva.t) (tbl : list Reserva.t) :
  exists x' tbl',
    Reserva.save ahora (x, tbl) = Ok tt (x', tbl')
    /\ In x' tbl'
    /\ Reserva.estado x' = Reserva.estado x
    /\ Reserva.observaciones x' = Reserva.observaciones x
    /\ Reserva.confirmada_por x' = Reserva.confirmada_por x
    /\ Reserva.pagada x' = Reserva.pagada x
    /\ Reserva.area x' = Reserva.area x
    /\ Reserva.fecha_reserva x' = Reserva.fecha_reserva x
    /\ Reserva.fecha_confirmacion x'
       = (if String.eqb (Reserva.estado x) "confirmada"
          then match Reserva.fecha_confirmacion x with
               | Some f => Some f
               | None => Some ahora
               end
          else Reserva.fecha_confirmacion x)
    /\ (Reserva.pk x <> None -> Reserva.pk x' = Reserva.pk x)
    /\ Reserva.hora_inicio x' = Reserva.hora_inicio x
    /\ Reserva.hora_fin x' = Reserva.hora_fin x
    /\ Reserva._initial_values x'
       = Some match Django.objects_get (Reserva.pk x) tbl with
              | Some row =>
                  {[ "fecha_reserva" := VDate (Reserva.fecha_reserva row);
                     "hora_inicio" := VTime (Reserva.hora_inicio row);
                     "hora_fin" := VTime (Reserva.hora_fin row) ]}
              | None => ∅
              end.
Proof.
  unfold Reserva.save. run.
  destruct x as [k a p fr hi hf e o fc cp c pg iv].
  cbn [Reserva.pk Reserva.estado Reserva.fecha_confirmacion Reserva.set__initial_values
       Reserva.area Reserva.propietario Reserva.fecha_reserva Reserva.hora_inicio
       Reserva.hora_fin Reserva.observaciones Reserva.confirmada_por Reserva.costo
       Reserva.pagada].
  destruct (String.eqb e "confirmada"), fc as [f|]; cbn;
    match goal with |- context [if ?c then _ else _] => destruct c end; cbn;
    match goal with |- context [Django.super_save (?y, ?t)] =>
      destruct (super_save_ok y t)
        as (x' & tbl' & -> & Hin & [(k' & Hk' & ->) | [Hk' ->]])
    end;
    eexists _, _; (split; [reflexivity|]); (split; [exact Hin|]);
    repeat split; try reflexivity; cbn in Hk'; try (intros Hne; congruence).
Qed.

(** One transition: it returns, and a [True] moves the reservation to an
    estado of lower rank while a [False] leaves everything as it was. *)
Lemma ejecutar_rango (ahora : datetime) (op : transicion)
    (x : Reserva.t) (tbl : list Reserva.t) :
  exists b x' tbl',
    ejecutar ahora op (x, tbl) = Ok b (x', tbl')
    /\ (if b then (rango (Reserva.estado x') < rango (Reserva.estado x))%nat
        else (x', tbl') = (x, tbl)).
Proof.
  destruct op as [o|e o| |]; cbn [ejecutar].
  - unfold Reserva.cancelar. run. cbn [existsb].
    destruct (String.eqb (Reserva.estado x) "pendiente") eqn:E1;
      [|destruct (String.eqb (Reserva.estado x) "confirmada") eqn:E2];
      cbn [orb negb]; [| |eexists false, _, _; split; reflexivity];
      (destruct (opt_truthy str_truthy o); run;
       match goal with |- context [Reserva.save ahora (?y, tbl)] =>
         destruct (Reserva_save_ok ahora y tbl) as (x' & tbl' & -> & _ & He & _)
       end;
       exists true, x', tbl'; (split; [reflexivity|]);
       rewrite He; cbn [Reserva.estado Reserva.set_estado Reserva.set_observaciones];
       unfold rango; rewrite ?E1, ?E2; cbn; lia).
  - unfold Reserva.confirmar. run.
    destruct (String.eqb (Reserva.estado x) "pendiente") eqn:E1; cbn [negb];
      [|eexists false, _, _; split; reflexivity].
    destruct (opt_truthy str_truthy o); run;
      match goal with |- context [Reserva.save ahora (?y, tbl)] =>
        destruct (Reserva_save_ok ahora y tbl) as (x' & tbl' & -> & _ & He & _)
      end;
      exists true, x', tbl'; (split; [reflexivity|]);
      rewrite He; cbn [Reserva.estado Reserva.set_estado Reserva.set_observaciones
                       Reserva.set_fecha_confirmacion Reserva.set_confirmada_por];
      unfold rango; rewrite ?E1; cbn; lia.
  - unfold Reserva.marcar_completada. run.
    destruct (String.eqb (Reserva.estado x) "confirmada") eqn:E2; cbn [negb];
      [|eexists false, _, _; split; reflexivity].
    match goal with |- context [Reserva.save ahora (?y, tbl)] =>
      destruct (Reserva_save_ok ahora y tbl) as (x' & tbl' & -> & _ & He & _)
    end.
    exists true, x', tbl'. split; [reflexivity|].
    rewrite He. cbn [Reserva.estado Reserva.set_estado].
    apply String.eqb_eq in E2. rewrite E2. cbn. lia.
  - unfold Reserva.marcar_no_asistio. run.
    destruct (String.eqb (Reserva.estado x) "confirmada") eqn:E2; cbn [negb];
      [|eexists false, _, _; split; reflexivity].
    match goal with |- context [Reserva.save ahora (?y, tbl)] =>
      destruct (Reserva_save_ok ahora y tbl) as (x' & tbl' & -> & _ & He & _)
    end.
    exists true, x', tbl'. split; [reflexivity|].
    rewrite He. cbn [Reserva.estado Reserva.set_estado].
    apply String.eqb_eq in E2. rewrite E2. cbn. lia.
Qed.

(** X12. Whatever transitions are asked of a reservation, in whatever
    order, every call returns and at most two of them return [True]: one
    from "pendiente", one from "confirmada". *)
Theorem Reserva_at_most_two_transitions (ahora : datetime) (ops : list transicion)
    (x : Reserva.t) (tbl : list Reserva.t) :
  exists bs x' tbl',
    ejecutar_todas ahora ops (x, tbl) = Ok bs (x', tbl')
    /\ length bs = length ops
    /\ (exitos bs + rango (Reserva.estado x') <= rango (Reserva.estado x))%nat
    /\ (exitos bs <= 2)%nat.
Proof.
  assert (Hmax : forall e, (rango e <= 2)%nat).
  { intros e. unfold rango. repeat destruct (String.eqb e _); lia. }
  enough (exists bs x' tbl',
             ejecutar_todas ahora ops (x, tbl) = Ok bs (x', tbl')
             /\ length bs = length ops
             /\ (exitos bs + rango (Reserva.estado x') <= rango (Reserva.estado x))%nat)
    as (bs & x' & tbl' & Hr & Hl & Hle).
  { exists bs, x', tbl'. repeat split; try assumption.
    specialize (Hmax (Reserva.estado x)). lia. }
  revert x tbl. induction ops as [|op ops IH]; intros x tbl.
  - exists [], x, tbl. cbn. repeat split. lia.
  - destruct (ejecutar_rango ahora op x tbl) as (b & x1 & tbl1 & Hop & Hb).
    destruct (IH x1 tbl1) as (bs & x' & tbl' & Hr & Hl & Hle).
    exists (b :: bs), x', tbl'. cbn [ejecutar_todas]. run. rewrite Hop, Hr.
    split; [reflexivity|]. split; [cbn; now rewrite Hl|].
    cbn [exitos fold_right]. fold (exitos bs).
    destruct b; [lia|]. injection Hb as -> ->. exact Hle.
Qed.

(** X13. The transitions of a reservation that go through.  [confirmar]
    from "pendiente" stores the reservation as "confirmada" with the
    employee and the date of the call; [cancelar] from "pendiente" or
    "confirmada" stores it as "cancelada"; [marcar_completada] and
    [marcar_no_asistio] from "confirmada" store it as "completada" and
    "no_asistio".  A note, when one is given, is appended to the
    observations. *)
Theorem Reserva_transitions (ahora : datetime) (x : Reserva.t) (tbl : list Reserva.t)
    (empleado : nat) (nota : option string) :
  (Reserva.estado x = "pendiente" ->
   exists x' tbl',
     Reserva.confirmar ahora empleado nota (x, tbl) = Ok true (x', tbl')
     /\ In x' tbl'
     /\ Reserva.estado x' = "confirmada"
     /\ Reserva.confirmada_por x' = Some empleado
     /\ Reserva.fecha_confirmacion x' = Some ahora
     /\ Reserva.observaciones x'
        = con_nota "[Confirmación] " nota (Reserva.observaciones x))
  /\ (Reserva.estado x = "pendiente" \/ Reserva.estado x = "confirmada" ->
      exists x' tbl',
        Reserva.cancelar ahora nota (x, tbl) = Ok true (x', tbl')
        /\ In x' tbl'
        /\ Reserva.estado x' = "cancelada"
        /\ Reserva.observaciones x'
           = con_nota "[Cancelación] " nota (Reserva.observaciones x))
  /\ (Reserva.estado x = "confirmada" ->
      (exists x' tbl',
         Reserva.marcar_completada ahora (x, tbl) = Ok true (x', tbl')
         /\ In x' tbl' /\ Reserva.estado x' = "completada")
      /\ (exists x' tbl',
            Reserva.marcar_no_asistio ahora (x, tbl) = Ok true (x', tbl')
            /\ In x' tbl' /\ Reserva.estado x' = "no_asistio")).
Proof.
  split; [|split].
  - intros He. unfold Reserva.confirmar, con_nota. run.
    rewrite He, String.eqb_refl. cbn [negb].
    destruct (opt_truthy str_truthy nota); run;
      match goal with |- context [Reserva.save ahora (?y, tbl)] =>
        destruct (Reserva_save_ok ahora y tbl)
          as (x' & tbl' & -> & Hin & Hest & Hobs & Hcp & _ & _ & _ & Hfc & _)
      end;
      exists x', tbl'; rewrite Hest, Hobs, Hcp, Hfc; cbn; repeat split; assumption.
  - intros He. unfold Reserva.cancelar, con_nota. run.
    assert (Hact : existsb (String.eqb (Reserva.estado x)) ["pendiente"; "confirmada"]
                   = true) by (destruct He as [-> | ->]; reflexivity).
    rewrite Hact. cbn [negb].
    destruct (opt_truthy str_truthy nota); run;
      match goal with |- context [Reserva.save ahora (?y, tbl)] =>
        destruct (Reserva_save_ok ahora y tbl)
          as (x' & tbl' & -> & Hin & Hest & Hobs & _)
      end;
      exists x', tbl'; rewrite Hest, Hobs; cbn; repeat split; assumption.
  - intros He. split.
    + unfold Reserva.marcar_completada. run.
      rewrite He, String.eqb_refl. cbn [negb].
      match goal with |- context [Reserva.save ahora (?y, tbl)] =>
        destruct (Reserva_save_ok ahora y tbl) as (x' & tbl' & -> & Hin & Hest & _)
      end.
      exists x', tbl'. now rewrite Hest.
    + unfold Reserva.marcar_no_asistio. run.
      rewrite He, String.eqb_refl. cbn [negb].
      match goal with |- context [Reserva.save ahora (?y, tbl)] =>
        destruct (Reserva_save_ok ahora y tbl) as (x' & tbl' & -> & Hin & Hest & _)
      end.
      exists x', tbl'. now rewrite Hest.
Qed.

Lemma Reserva_transitions_witness :
  Reserva.estado reserva_manana = "confirmada"
  /\ exists x' tbl',
       Reserva.marcar_completada mediodia (reserva_manana, [reserva_manana])
       = Ok true (x', tbl')
       /\ In x' tbl' /\ Reserva.estado x' = "completada".
Proof.
  split; [reflexivity|].
  exact (proj1 (proj2 (proj2 (Reserva_transitions mediodia reserva_manana
                                [reserva_manana] 3%nat None)) eq_refl)).
Defined.





Lemma tuple_ltb_eq (a b : list Z) :
  length a = length b ->
  tuple_ltb a b = false -> tuple_ltb b a = false -> a = b.
Proof.
  revert b. induction a as [|x a IH]; intros [|y b] Hl Hab Hba;
    try discriminate Hl; [reflexivity|].
  cbn in Hab, Hba. injection Hl as Hl.
  apply orb_false_elim in Hab as [Hxy Hab], Hba as [Hyx Hba].
  apply Z.ltb_ge in Hxy, Hyx. assert (x = y) by lia. subst y.
  rewrite Z.eqb_refl in Hab, Hba. cbn in Hab, Hba.
  f_equal. now apply IH.
Qed.

Lemma time_eqb_eq (a b : time) : Reservas.time_eqb a b = true <-> a = b.
Proof.
  unfold Reservas.time_eqb, time_ltb. split.
  - intros H. apply andb_true_iff in H as [H1 H2].
    apply negb_true_iff in H1, H2.
    pose proof (tuple_ltb_eq [hour a; minute a; second a; microsecond a]
                  [hour b; minute b; second b; microsecond b] eq_refl H1 H2) as He.
    destruct a, b. cbn in He. now injection He as -> -> -> ->.
  - intros ->. now rewrite tuple_ltb_irrefl.
Qed.

Lemma date_eqb_eq (a b : date) : PyDate.eqb a b = true <-> a = b.
Proof.
  unfold PyDate.eqb. split.
  - intros H. apply andb_true_iff in H as [H Hd]. apply andb_true_iff in H as [Hy Hm].
    apply Z.eqb_eq in Hy, Hm, Hd. destruct a, b. cbn in *. now subst.
  - intros ->. now rewrite !Z.eqb_refl.
Qed.

(** A confirmed reservation of the area on the date, whatever its hours,
    makes the area unavailable. *)
Lemma esta_disponible_blocked (a : AreaComun.t) (tbl : list Reserva.t)
    (r : Reserva.t) (hora_inicio hora_fin : time) :
  In r tbl -> AreaComun.pk (Reserva.area r) = AreaComun.pk a ->
  Reserva.estado r = "confirmada" ->
  AreaComun.esta_disponible a tbl (Reserva.fecha_reserva r) hora_inicio hora_fin
  = false.
Proof.
  intros Hin Ha He. rewrite esta_disponible_char.
  assert (Hc : In r (confirmadas a tbl (Reserva.fecha_reserva r))).
  { unfold confirmadas, AreaComun.reservas.
    rewrite <- list_elem_of_In, !list_elem_of_filter, list_elem_of_In.
    split; [|split; [|exact Hin]].
    - apply Is_true_true. rewrite He, String.eqb_refl, andb_true_r.
      now apply date_eqb_eq.
    - apply Is_true_true. now apply bool_decide_eq_true_2. }
  destruct (confirmadas a tbl (Reserva.fecha_reserva r)); [destruct Hc|].
  apply andb_false_r.
Qed.

(** X15. [Reserva.clean] on a stored reservation whose hours are in order
    and whose area takes reservations.  On an instance that never went
    through [save] in this process the availability test reads the
    attribute [_initial_values], which only [save] creates, and the call
    fails with [AttributeError].  After a [save], the call passes when
    day and hours are those of the row that [save] found; when they
    differ and the reservation is confirmed, the reservation just stored
    blocks its own new slot and the call fails with [ValidationError]. *)
Theorem Reserva_clean_stored (ahora : datetime) (x x' row : Reserva.t)
    (tbl tbl' : list Reserva.t) (today : date) :
  Django.objects_get (Reserva.pk x) tbl = Some row ->
  PagoAdministracion.pk_truthy (Reserva.pk x) = true ->
  time_ltb (Reserva.hora_inicio x) (Reserva.hora_fin x) = true ->
  AreaComun.requiere_reserva (Reserva.area x) = true ->
  Reserva.save ahora (x, tbl) = Ok tt (x', tbl') ->
  (Reserva._initial_values x = None ->
   Reservas.clean x false tbl today
   = Administracion.AttributeError
       "'Reserva' object has no attribute '_initial_values'")
  /\ (horario x = horario row ->
      Reservas.clean x' false tbl' today = Administracion.Limpio)
  /\ (horario x <> horario row -> Reserva.estado x = "confirmada" ->
      Reservas.clean x' false tbl' today
      = Administracion.ValidationError None
          "El área no está disponible en el horario seleccionado").
Proof.
  intros Hrow Hpk Hh Hreq Hs.
  assert (Hk : Reserva.pk x <> None) by (destruct (Reserva.pk x); [discriminate|discriminate Hpk]).
  destruct (Reserva_save_ok ahora x tbl)
    as (x1 & tbl1 & Hs1 & Hin & Hest & _ & _ & _ & Harea & Hfr & _ & Hpk' & Hhi & Hhf & Hiv).
  rewrite Hs in Hs1. injection Hs1 as <- <-.
  specialize (Hpk' Hk). rewrite Hrow in Hiv.
  assert (Hpre : forall y, Reserva.hora_inicio y = Reserva.hora_inicio x ->
                           Reserva.hora_fin y = Reserva.hora_fin x ->
                           Reserva.pk y = Reserva.pk x ->
                           Reserva.area y = Reserva.area x ->
                           forall adding t,
             Reservas.clean y adding t today
             = let verificar :=
                 if negb (AreaComun.esta_disponible (Reserva.area y) t
                            (Reserva.fecha_reserva y) (Reserva.hora_inicio y)
                            (Reserva.hora_fin y))
                 then Administracion.ValidationError None
                        "El área no está disponible en el horario seleccionado"
                 else Administracion.Limpio in
               if adding then verificar
               else match Reserva._initial_values y with
                    | None =>
                        Administracion.AttributeError
                          "'Reserva' object has no attribute '_initial_values'"
                    | Some iv =>
                        if Reservas.difiere iv "fecha_reserva"
                             (VDate (Reserva.fecha_reserva y))
                           || Reservas.difiere iv "hora_inicio"
                                (VTime (Reserva.hora_inicio y))
                           || Reservas.difiere iv "hora_fin"
                                (VTime (Reserva.hora_fin y))
                        then verificar
                        else Administracion.Limpio
                    end).
  { intros y H1 H2 H3 H4 adding t. unfold Reservas.clean, time_leb.
    rewrite H1, H2, H3, H4, Hh, Hpk, Hreq. reflexivity. }
  split; [|split].
  - intros Hnone. rewrite (Hpre x) by reflexivity. cbv zeta. now rewrite Hnone.
  - intros Hsame. rewrite (Hpre x') by assumption. cbv zeta.
    rewrite Hiv, Hfr, Hhi, Hhf. unfold horario in Hsame. injection Hsame as -> -> ->.
    unfold Reservas.difiere.
    change (({[ "fecha_reserva" := VDate (Reserva.fecha_reserva row);
                "hora_inicio" := VTime (Reserva.hora_inicio row);
                "hora_fin" := VTime (Reserva.hora_fin row) ]} : gmap string pyval)
              !! "fecha_reserva")
      with (Some (VDate (Reserva.fecha_reserva row))).
    change (({[ "fecha_reserva" := VDate (Reserva.fecha_reserva row);
                "hora_inicio" := VTime (Reserva.hora_inicio row);
                "hora_fin" := VTime (Reserva.hora_fin row) ]} : gmap string pyval)
              !! "hora_inicio")
      with (Some (VTime (Reserva.hora_inicio row))).
    change (({[ "fecha_reserva" := VDate (Reserva.fecha_reserva row);
                "hora_inicio" := VTime (Reserva.hora_inicio row);
                "hora_fin" := VTime (Reserva.hora_fin row) ]} : gmap string pyval)
              !! "hora_fin")
      with (Some (VTime (Reserva.hora_fin row))).
    cbv beta iota.
    rewrite (proj2 (date_eqb_eq _ _) eq_refl), !(proj2 (time_eqb_eq _ _) eq_refl).
    reflexivity.
  - intros Hdiff Hconf. rewrite (Hpre x') by assumption. cbv zeta.
    rewrite (esta_disponible_blocked (Reserva.area x') tbl' x')
      by (try assumption; try reflexivity; congruence).
    cbn [negb]. rewrite Hiv, Hfr, Hhi, Hhf.
    unfold Reservas.difiere.
    change (({[ "fecha_reserva" := VDate (Reserva.fecha_reserva row);
                "hora_inicio" := VTime (Reserva.hora_inicio row);
                "hora_fin" := VTime (Reserva.hora_fin row) ]} : gmap string pyval)
              !! "fecha_reserva")
      with (Some (VDate (Reserva.fecha_reserva row))).
    change (({[ "fecha_reserva" := VDate (Reserva.fecha_reserva row);
                "hora_inicio" := VTime (Reserva.hora_inicio row);
                "hora_fin" := VTime (Reserva.hora_fin row) ]} : gmap string pyval)
              !! "hora_inicio")
      with (Some (VTime (Reserva.hora_inicio row))).
    change (({[ "fecha_reserva" := VDate (Reserva.fecha_reserva row);
                "hora_inicio" := VTime (Reserva.hora_inicio row);
                "hora_fin" := VTime (Reserva.hora_fin row) ]} : gmap string pyval)
              !! "hora_fin")
      with (Some (VTime (Reserva.hora_fin row))).
    cbv beta iota.
    destruct (PyDate.eqb (Reserva.fecha_reserva row) (Reserva.fecha_reserva x)) eqn:E1;
      [|reflexivity].
    destruct (Reservas.time_eqb (Reserva.hora_inicio row) (Reserva.hora_inicio x)) eqn:E2;
      [|reflexivity].
    destruct (Reservas.time_eqb (Reserva.hora_fin row) (Reserva.hora_fin x)) eqn:E3;
      [|reflexivity].
    apply date_eqb_eq in E1. apply time_eqb_eq in E2, E3.
    exfalso. apply Hdiff. unfold horario. now rewrite E1, E2, E3.
Qed.

Lemma Reserva_clean_stored_witness :
  exists x' tbl',
    Reserva.save mediodia (reserva_manana, [reserva_manana]) = Ok tt (x', tbl')
    /\ Reservas.clean reserva_manana false [reserva_manana] dia
       = Administracion.AttributeError
           "'Reserva' object has no attribute '_initial_values'"
    /\ Reservas.clean x' false tbl' dia = Administracion.Limpio.
Proof.
  destruct (Reserva_save_ok mediodia reserva_manana [reserva_manana])
    as (x' & tbl' & Hs & _).
  exists x', tbl'. split; [exact Hs|].
  destruct (Reserva_clean_stored mediodia reserva_manana x' reserva_manana
              [reserva_manana] tbl' dia eq_refl eq_refl eq_refl eq_refl Hs)
    as (H1 & H2 & _).
  split; [exact (H1 eq_refl)|exact (H2 eq_refl)].
Defined.

(** ** Ordered queries *)

Section OrderBy.
Context {R : Type} (antes : R -> R -> bool).

Lemma insertar_perm (r : R) (l : list R) :
  Permutation (Consultas.insertar antes r l) (r :: l).
Proof.
  induction l as [|r' l IH]; [reflexivity|].
  cbn. destruct (antes r' r); [|reflexivity].
  rewrite IH. apply perm_swap.
Qed.

Lemma order_by_perm (l : list R) : Permutation (Consultas.order_by antes l) l.
Proof.
  induction l as [|r l IH]; [reflexivity|].
  cbn. rewrite insertar_perm. now constructor.
Qed.

Lemma insertar_sorted (r : R) (l : list R) :
  (forall a b, antes a b = true -> antes b a = false) ->
  Sorted (fun a b => antes b a = false) l ->
  Sorted (fun a b => antes b a = false) (Consultas.insertar antes r l).
Proof.
  intros Hasym. induction l as [|r' l IH]; intros Hs.
  - repeat constructor.
  - cbn. destruct (antes r' r) eqn:E.
    + apply Sorted_inv in Hs as [Hs Hhd]. constructor; [now apply IH|].
      destruct l as [|r'' l]; cbn.
      * constructor. now apply Hasym.
      * destruct (antes r'' r); constructor.
        -- now apply HdRel_inv in Hhd.
        -- now apply Hasym.
    + constructor; [exact Hs|]. now constructor.
Qed.

Lemma order_by_sorted (l : list R) :
  (forall a b, antes a b = true -> antes b a = false) ->
  Sorted (fun a b => antes b a = false) (Consultas.order_by antes l).
Proof.
  intros Hasym. induction l as [|r l IH]; [constructor|].
  cbn. now apply insertar_sorted.
Qed.
End OrderBy.

Lemma tuple_ltb_asym (a b : list Z) : tuple_ltb a b = true -> tuple_ltb b a = false.
Proof.
  revert b. induction a as [|x a IH]; intros [|y b] H; try discriminate H;
    [reflexivity|].
  cbn in *. apply orb_true_iff in H as [H|H].
  - apply Z.ltb_lt in H.
    replace (y <? x)%Z with false by (symmetry; apply Z.ltb_ge; lia).
    replace (y =? x)%Z with false by (symmetry; apply Z.eqb_neq; lia).
    reflexivity.
  - apply andb_true_iff in H as [Hxy H]. apply Z.eqb_eq in Hxy. subst y.
    rewrite Z.ltb_irrefl, Z.eqb_refl. cbn. now apply IH.
Qed.

(** X16. [get_reservas_del_dia] lists the confirmed reservations of the
    area on the date, each one once, by ascending start time; when
    [esta_disponible] answers [True] for some slot of the date, the list
    is empty. *)
Theorem get_reservas_del_dia_spec (x : AreaComun.t) (tbl : list Reserva.t)
    (fecha : date) :
  Permutation (Reservas.get_reservas_del_dia x tbl fecha) (confirmadas x tbl fecha)
  /\ Sorted (fun a b => time_leb (Reserva.hora_inicio a) (Reserva.hora_inicio b) = true)
       (Reservas.get_reservas_del_dia x tbl fecha)
  /\ forall hora_inicio hora_fin,
       AreaComun.esta_disponible x tbl fecha hora_inicio hora_fin = true ->
       Reservas.get_reservas_del_dia x tbl fecha = [].
Proof.
  unfold Reservas.get_reservas_del_dia. fold (confirmadas x tbl fecha).
  split; [apply order_by_perm|]. split.
  - pose proof (order_by_sorted
        (fun a b => time_ltb (Reserva.hora_inicio a) (Reserva.hora_inicio b))
        (confirmadas x tbl fecha)) as Hs.
    eapply Sorted_ind with (P := fun l => Sorted _ l).
    3: { apply Hs. intros a b. apply tuple_ltb_asym. }
    + constructor.
    + intros a l _ IH Hhd. constructor; [exact IH|].
      destruct Hhd as [|b l Hb]; constructor.
      unfold time_leb. now rewrite Hb.
  - intros hi hf Hd. rewrite esta_disponible_char in Hd.
    destruct (confirmadas x tbl fecha); [reflexivity|].
    now rewrite andb_false_r in Hd.
Qed.

(** ** The rules of [ConfiguracionReservas] *)

Local Open Scope Z_scope.

Lemma semana_arith (o : Z) :
  1 <= o ->
  0 <= (o + 6) mod 7 <= 6
  /\ 1 <= o - (o + 6) mod 7
  /\ (o - (o + 6) mod 7 + 6) mod 7 = 0
  /\ (o - (o + 6) mod 7 + 6 + 6) mod 7 = 6.
Proof. intros Ho. repeat split; Z.div_mod_to_equations; lia. Qed.

(** The week that [validar_reserva] counts: from the Monday on or before
    the date to the Sunday after it. *)
Lemma semana_de (fecha : date) :
  valid fecha -> year fecha < MAXYEAR ->
  exists lunes domingo,
    Reservas.inicio_semana fecha = Some lunes
    /\ Reservas.fin_semana fecha = Some domingo
    /\ weekday lunes = 0 /\ weekday domingo = 6
    /\ sub_days domingo lunes = 6
    /\ PyDate.leb lunes fecha = true /\ PyDate.leb fecha domingo = true.
Proof.
  intros Hv Hy.
  destruct (valid_wf fecha Hv) as [Hwf _].
  pose proof (toordinal_pos fecha Hwf) as Hpos.
  pose proof (toordinal_before_last_year fecha Hv Hy) as Hmax.
  pose proof (semana_arith (toordinal fecha) Hpos) as (Hw & Hl & Hm0 & Hm6).
  unfold Reservas.fin_semana, Reservas.inicio_semana, add_days, weekday.
  replace (toordinal fecha + - ((toordinal fecha + 6) mod 7))
    with (toordinal fecha - (toordinal fecha + 6) mod 7) by lia.
  generalize dependent ((toordinal fecha + 6) mod 7). intros w Hw Hl Hm0 Hm6.
  replace ((0 <? toordinal fecha - w) && (toordinal fecha - w <=? _MAXORDINAL))
    with true by (symmetry; apply andb_true_iff; split;
                  [apply Z.ltb_lt|apply Z.leb_le]; lia).
  cbn [mbind option_bind].
  destruct (fromordinal_spec (toordinal fecha - w) Hl) as [Hwl Hol].
  rewrite Hol.
  replace ((0 <? toordinal fecha - w + 6)
           && (toordinal fecha - w + 6 <=? _MAXORDINAL))
    with true by (symmetry; apply andb_true_iff; split;
                  [apply Z.ltb_lt|apply Z.leb_le]; lia).
  destruct (fromordinal_spec (toordinal fecha - w + 6)) as [Hwd Hod]; [lia|].
  eexists _, _. split; [reflexivity|]. split; [reflexivity|].
  unfold sub_days. rewrite Hol, Hod.
  split; [exact Hm0|]. split; [exact Hm6|]. split; [lia|].
  split; apply toordinal_leb; try assumption; lia.
Qed.

(** X17. [validar_reserva] for a date before the last year of the
    calendar returns, with a verdict and a message.  The reservations
    counted against the weekly limit are those of the Monday-to-Sunday
    week of the date.  The verdict is [True], with an empty message,
    exactly when the anticipation lies between the two bounds, the
    duration does not exceed the maximum and, if the weekly limit is
    positive, the owner has fewer active reservations in that week than
    the limit; a limit of 0 switches the weekly rule off. *)
Theorem validar_reserva_spec (c : Reservas.configuracion) (tbl : list Reserva.t)
    (hoy fecha : date) (propietario : nat) (duracion_horas : Q) :
  valid fecha -> year fecha < MAXYEAR ->
  exists lunes domingo ok msg,
    Reservas.inicio_semana fecha = Some lunes
    /\ Reservas.fin_semana fecha = Some domingo
    /\ weekday lunes = 0 /\ weekday domingo = 6
    /\ PyDate.leb lunes fecha = true /\ PyDate.leb fecha domingo = true
    /\ Reservas.validar_reserva c tbl hoy propietario fecha duracion_horas
       = Return (ok, msg)
    /\ (ok = true -> msg = "")
    /\ (ok = true <->
        Reservas.dias_anticipacion_min c <= sub_days fecha hoy
                                         <= Reservas.dias_anticipacion_max c
        /\ (duracion_horas <= inject_Z (Reservas.duracion_maxima_horas c))%Q
        /\ (Reservas.reservas_max_semana c <= 0
            \/ Z.of_nat (length (Reservas.reservas_semana tbl propietario
                                   lunes domingo))
               < Reservas.reservas_max_semana c)).
Proof.
  intros Hv Hy.
  destruct (semana_de fecha Hv Hy)
    as (lunes & domingo & Hini & Hfin & Hw0 & Hw6 & _ & Hl1 & Hl2).
  exists lunes, domingo. unfold Reservas.validar_reserva.
  rewrite Hini, Hfin, !Z.gtb_ltb, Z.geb_leb. cbv zeta.
  destruct (Z.ltb_spec (sub_days fecha hoy) (Reservas.dias_anticipacion_min c)) as [H1|H1].
  { eexists false, _. repeat (split; [first [assumption|reflexivity]|]).
    split; [discriminate|]. split; [discriminate|]. intros ([? ?] & _). lia. }
  destruct (Z.ltb_spec (Reservas.dias_anticipacion_max c) (sub_days fecha hoy)) as [H2|H2].
  { eexists false, _. repeat (split; [first [assumption|reflexivity]|]).
    split; [discriminate|]. split; [discriminate|]. intros ([? ?] & _). lia. }
  destruct (dec_lt (inject_Z (Reservas.duracion_maxima_horas c)) duracion_horas) eqn:H3.
  { apply dec_lt_spec in H3.
    eexists false, _. repeat (split; [first [assumption|reflexivity]|]).
    split; [discriminate|]. split; [discriminate|]. intros (_ & Hd & _). lra. }
  assert (Hdur : (duracion_horas <= inject_Z (Reservas.duracion_maxima_horas c))%Q).
  { apply Qnot_lt_le. intros Hlt. apply dec_lt_spec in Hlt. congruence. }
  destruct (Z.ltb_spec 0 (Reservas.reservas_max_semana c)) as [H4|H4].
  - destruct (Z.leb_spec (Reservas.reservas_max_semana c)
                (Z.of_nat (length (Reservas.reservas_semana tbl propietario lunes domingo))))
      as [H5|H5].
    + eexists false, _. repeat (split; [first [assumption|reflexivity]|]).
      split; [discriminate|]. split; [discriminate|]. intros (_ & _ & [?|?]); lia.
    + exists true, "". repeat (split; [first [assumption|reflexivity]|]).
      split; [intros _|reflexivity].
      split; [lia|]. split; [exact Hdur|]. now right.
  - exists true, "". repeat (split; [first [assumption|reflexivity]|]).
    split; [intros _|reflexivity].
    split; [lia|]. split; [exact Hdur|]. now left.
Qed.
Local Close Scope Z_scope.

Lemma validar_reserva_spec_witness :
  valid dia /\ (year dia < MAXYEAR)%Z
  /\ exists lunes domingo,
       Reservas.inicio_semana dia = Some lunes
       /\ Reservas.fin_semana dia = Some domingo
       /\ weekday lunes = 0%Z /\ weekday domingo = 6%Z.
Proof.
  assert (Hv : valid dia) by reflexivity.
  assert (Hy : (year dia < MAXYEAR)%Z) by reflexivity.
  split; [exact Hv|]. split; [exact Hy|].
  destruct (validar_reserva_spec configuracion_inicial [] dia dia 7%nat 2 Hv Hy)
    as (lunes & domingo & _ & _ & H1 & H2 & H3 & H4 & _).
  exists lunes, domingo. repeat split; assumption.
Defined.

(** ** Incidents *)

(** What [Incidencia.save] leaves: the incident is stored with the estado
    it had, and its closing date is set exactly when that estado is
    "resuelta" or "cancelada": kept when there was one, the date of the
    call otherwise, and erased when the incident is open. *)
Lemma Incidencia_save_spec (ahora : datetime) (i : Incidencia.t)
    (tbl : list Incidencia.t) :
  exists i' tbl',
    Incidencia.save ahora (i, tbl) = Ok tt (i', tbl')
    /\ In i' tbl'
    /\ Incidencia.estado i' = Incidencia.estado i
    /\ Incidencia.titulo i' = Incidencia.titulo i
    /\ (Incidencia.pk i <> None -> Incidencia.pk i' = Incidencia.pk i)
    /\ Incidencia.pk i' <> None
    /\ Incidencia.fecha_cierre i'
       = if Incidencia.cerrada i
         then Some (default ahora (Incidencia.fecha_cierre i))
         else None.
Proof.
  unfold Incidencia.save. run.
  destruct i as [k t e fc]. unfold Incidencia.cerrada.
  cbn [Incidencia.estado Incidencia.fecha_cierre Incidencia.pk Incidencia.titulo].
  destruct (existsb (String.eqb e) ["resuelta"; "cancelada"]) eqn:Hc, fc as [f|];
    cbn [opt_truthy negb andb]; unfold Incidencia.cerrada;
    cbn [Incidencia.set_fecha_cierre Incidencia.estado Incidencia.fecha_cierre
         Incidencia.pk Incidencia.titulo];
    rewrite ?Hc; cbn [opt_truthy negb andb Incidencia.set_fecha_cierre
                      Incidencia.estado Incidencia.fecha_cierre Incidencia.pk
                      Incidencia.titulo];
    match goal with |- context [Django.super_save (?y, ?t)] =>
      destruct (super_save_ok y t)
        as (i' & tbl' & -> & Hin & [(k' & Hk' & ->) | [Hk' ->]])
    end;
    eexists _, _; (split; [reflexivity|]); (split; [exact Hin|]);
    cbn in Hk'; cbn; repeat split; congruence.
Qed.

(** X18. After [Incidencia.save] the closing date and the estado agree:
    the incident is stored with a closing date exactly when its estado is
    "resuelta" or "cancelada".  Closing keeps a date that was there and
    otherwise takes the date of the call; reopening erases it. *)
Theorem Incidencia_save_cierre (ahora : datetime) (i : Incidencia.t)
    (tbl : list Incidencia.t) :
  exists i' tbl',
    Incidencia.save ahora (i, tbl) = Ok tt (i', tbl')
    /\ In i' tbl'
    /\ Incidencia.estado i' = Incidencia.estado i
    /\ (Incidencia.fecha_cierre i' <> None <-> Incidencia.cerrada i' = true)
    /\ (Incidencia.cerrada i = true ->
        Incidencia.fecha_cierre i' = Some (default ahora (Incidencia.fecha_cierre i)))
    /\ (Incidencia.cerrada i = false -> Incidencia.fecha_cierre i' = None).
Proof.
  destruct (Incidencia_save_spec ahora i tbl)
    as (i' & tbl' & Hs & Hin & He & _ & _ & _ & Hfc).
  exists i', tbl'. split; [exact Hs|]. split; [exact Hin|]. split; [exact He|].
  assert (Hc : Incidencia.cerrada i' = Incidencia.cerrada i)
    by (unfold Incidencia.cerrada; now rewrite He).
  rewrite Hc, Hfc. destruct (Incidencia.cerrada i); repeat split; congruence.
Qed.

(** X19. [crear_seguimiento] on a stored incident returns and appends one
    follow-up to the table of follow-ups: of this incident, by the
    employee, with the comment, visible, and recording the estado in which
    the incident is left.  A new estado that is one of the four choices is
    taken and the incident is saved with it; anything else (no estado, an
    empty text, an unknown name) is ignored and the incident and its table
    stay as they were. *)
Theorem crear_seguimiento_spec (ahora : datetime) (empleado : nat)
    (comentario : string) (nuevo_estado : option string)
    (x : Incidencia.t) (d : Incidencias.db) (k : nat) :
  Incidencia.pk x = Some k ->
  exists s x' d',
    Incidencias.crear_seguimiento ahora empleado comentario nuevo_estado (x, d)
    = Ok s (x', d')
    /\ Incidencias.seguimientos d' = Incidencias.seguimientos d ++ [s]
    /\ SeguimientoIncidencia.incidencia s = k
    /\ SeguimientoIncidencia.empleado s = empleado
    /\ SeguimientoIncidencia.comentario s = comentario
    /\ SeguimientoIncidencia.visible_para_propietario s = true
    /\ SeguimientoIncidencia.estado_actual s = Incidencia.estado x'
    /\ (forall e, nuevo_estado = Some e -> In e Incidencias.ESTADO_CHOICES ->
        Incidencia.estado x' = e /\ In x' (Incidencias.incidencias d')
        /\ (Incidencia.fecha_cierre x' <> None <-> Incidencia.cerrada x' = true))
    /\ ((forall e, nuevo_estado = Some e -> ~ In e Incidencias.ESTADO_CHOICES) ->
        x' = x /\ Incidencias.incidencias d' = Incidencias.incidencias d).
Proof.
  intros Hk. unfold Incidencias.crear_seguimiento.
  assert (Hin : forall e, existsb (String.eqb e) Incidencias.ESTADO_CHOICES = true
                          <-> In e Incidencias.ESTADO_CHOICES).
  { intros e. rewrite existsb_exists. split.
    - intros (e' & He' & Heq). apply String.eqb_eq in Heq. now subst.
    - intros He. exists e. split; [exact He|apply String.eqb_refl]. }
  assert (Hcreate : forall x1 d1, Incidencia.pk x1 = Some k ->
    exists s,
      (x ← self;
       d ← tables;
       match Incidencia.pk x with
       | None =>
           raise (ValueError
                    "save() prohibited to prevent data loss due to unsaved related object 'incidencia'.")
       | Some k =>
           match Django.super_save
                   (SeguimientoIncidencia.mk None k empleado comentario
                      (Incidencia.estado x) true, Incidencias.seguimientos d) with
           | Ok _ (s, tbl) => set_tables (Incidencias.set_seguimientos tbl d);; mret s
           | Raise e (_, tbl) => set_tables (Incidencias.set_seguimientos tbl d);; raise e
           end
       end) (x1, d1)
      = Ok s (x1, Incidencias.mkdb (Incidencias.incidencias d1)
                    (Incidencias.seguimientos d1 ++ [s]))
      /\ SeguimientoIncidencia.incidencia s = k
      /\ SeguimientoIncidencia.empleado s = empleado
      /\ SeguimientoIncidencia.comentario s = comentario
      /\ SeguimientoIncidencia.visible_para_propietario s = true
      /\ SeguimientoIncidencia.estado_actual s = Incidencia.estado x1).
  { intros x1 d1 Hk1. run. rewrite Hk1.
    rewrite super_save_insert by reflexivity. cbn.
    eexists. split; [reflexivity|]. now repeat split. }
  destruct (opt_truthy str_truthy nuevo_estado
            && existsb (String.eqb (default "" nuevo_estado)) Incidencias.ESTADO_CHOICES)
    eqn:Hap.
  - apply andb_true_iff in Hap as [_ Hch].
    destruct nuevo_estado as [e|]; [|discriminate Hch]. cbn [default from_option id] in *.
    destruct (Incidencia_save_spec ahora (Incidencia.set_estado e x)
                (Incidencias.incidencias d))
      as (x' & tbl' & Hs & Hin' & He & _ & Hpk & _ & Hfc).
    assert (Hk' : Incidencia.pk x' = Some k)
      by (rewrite Hpk; cbn; [exact Hk|congruence]).
    destruct (Hcreate x' (Incidencias.set_incidencias tbl' d) Hk')
      as (s & Hc & H1 & H2 & H3 & H4 & H5).
    run. cbn [fst snd] in *. rewrite Hs. cbn in Hc |- *. rewrite Hk' in Hc |- *.
    rewrite Hc. eexists _, _, _. split; [reflexivity|].
    cbn [Incidencias.seguimientos Incidencias.incidencias Incidencias.set_incidencias].
    repeat (split; [assumption || reflexivity|]). split.
    + intros e' [= <-] _. split; [exact He|]. split; [exact Hin'|].
      assert (Hcer : Incidencia.cerrada x'
                     = Incidencia.cerrada (Incidencia.set_estado e x))
        by (unfold Incidencia.cerrada; now rewrite He).
      change (Incidencia.fecha_cierre x' <> None <-> Incidencia.cerrada x' = true).
      rewrite Hcer, Hfc.
      destruct (Incidencia.cerrada (Incidencia.set_estado e x));
        split; congruence.
    + intros Hno. exfalso. apply (Hno e eq_refl). now apply Hin.
  - destruct (Hcreate x d Hk) as (s & Hc & H1 & H2 & H3 & H4 & H5).
    run. cbn [fst snd] in *. cbn in Hc |- *. rewrite Hk in Hc |- *.
    rewrite Hc. eexists _, _, _. split; [reflexivity|].
    cbn [Incidencias.seguimientos Incidencias.incidencias Incidencias.set_incidencias].
    repeat (split; [assumption || reflexivity|]). split.
    + intros e -> He. exfalso. apply Hin in He. cbn [default from_option id] in Hap.
      rewrite He, andb_true_r in Hap. cbn in Hap.
      unfold str_truthy in Hap. apply negb_false_iff, String.eqb_eq in Hap. subst e.
      cbn in He. discriminate He.
    + intros _. now split.
Qed.

Lemma crear_seguimiento_spec_witness :
  Incidencia.pk gotera = Some 1%nat
  /\ exists s x' d',
       Incidencias.crear_seguimiento mediodia 3%nat "Se revisa el techo"
         (Some "cerrada") (gotera, db_incidencias)
       = Ok s (x', d')
       /\ x' = gotera
       /\ SeguimientoIncidencia.estado_actual s = "reportada".
Proof.
  split; [reflexivity|].
  destruct (crear_seguimiento_spec mediodia 3%nat "Se revisa el techo"
              (Some "cerrada") gotera db_incidencias 1%nat eq_refl)
    as (s & x' & d' & Hr & _ & _ & _ & _ & _ & Hest & _ & Hno).
  exists s, x', d'. split; [exact Hr|].
  assert (Hx : x' = gotera).
  { apply Hno. intros e [= <-] Hin. cbn in Hin.
    repeat (destruct Hin as [Hin|Hin]; [discriminate Hin|]). exact Hin. }
  split; [exact Hx|]. rewrite Hest, Hx. reflexivity.
Defined.

(** ** Maintenance *)





(** X21. A maintenance job is overdue exactly when it is neither
    finished nor cancelled and its remaining days are negative. *)
Theorem esta_vencido_dias_restantes (x : Mantenimiento.t) (hoy : date) :
  well_formed (Mantenimiento.fecha_programada x) -> well_formed hoy ->
  (Mantenimientos.esta_vencido x hoy = true
   <-> Mantenimientos.cerrado x = false
       /\ (Mantenimientos.dias_restantes x hoy < 0)%Z).
Proof.
  intros Hf Hh. unfold Mantenimientos.esta_vencido, Mantenimientos.dias_restantes, sub_days.
  destruct (Mantenimientos.cerrado x).
  - split; [discriminate|]. intros [H _]. discriminate H.
  - rewrite (toordinal_ltb _ _ Hf Hh). split.
    + intros H. split; [reflexivity|lia].
    + intros [_ H]. lia.
Qed.

Lemma esta_vencido_dias_restantes_witness :
  well_formed (Mantenimiento.fecha_programada poda) /\ well_formed fin_de_enero
  /\ Mantenimientos.esta_vencido poda fin_de_enero = false
  /\ (0 <= Mantenimientos.dias_restantes poda fin_de_enero)%Z.
Proof.
  assert (Hf : well_formed (Mantenimiento.fecha_programada poda))
    by (apply valid_wf; reflexivity).
  assert (Hh : well_formed fin_de_enero) by (apply valid_wf; reflexivity).
  split; [exact Hf|]. split; [exact Hh|].
  pose proof (esta_vencido_dias_restantes poda fin_de_enero Hf Hh) as H.
  destruct (Mantenimientos.esta_vencido poda fin_de_enero) eqn:E.
  - discriminate E.
  - split; [reflexivity|].
    destruct (Z_lt_le_dec (Mantenimientos.dias_restantes poda fin_de_enero) 0)
      as [Hlt|Hle]; [|exact Hle].
    exfalso. assert (Ht : false = true) by (apply H; now split). discriminate Ht.
Defined.

(** X22. [ActividadMantenimiento.completar] goes through exactly from
    "pendiente" and "en_proceso": the activity is stored as "completada"
    on the day of the call, with the observations extended when some are
    given, and a further call returns [False]; from any other estado the
    call returns [False] and changes nothing. *)
Theorem completar_spec (hoy : date) (observaciones : option string)
    (a : Mantenimientos.actividad) (tbl : list Mantenimientos.actividad) :
  (Mantenimientos.act_estado a = "pendiente"
   \/ Mantenimientos.act_estado a = "en_proceso" ->
   exists a' tbl',
     Mantenimientos.completar hoy observaciones (a, tbl) = Ok true (a', tbl')
     /\ In a' tbl'
     /\ Mantenimientos.act_estado a' = "completada"
     /\ Mantenimientos.act_fecha_completada a' = Some hoy
     /\ Mantenimientos.act_observaciones a'
        = con_nota "" observaciones (Mantenimientos.act_observaciones a)
     /\ forall hoy2 observaciones2,
          Mantenimientos.completar hoy2 observaciones2 (a', tbl')
          = Ok false (a', tbl'))
  /\ (Mantenimientos.act_estado a <> "pendiente" ->
      Mantenimientos.act_estado a <> "en_proceso" ->
      Mantenimientos.completar hoy observaciones (a, tbl) = Ok false (a, tbl)).
Proof.
  unfold Mantenimientos.completar, con_nota. run. split.
  - intros He.
    assert (Hc : negb (String.eqb (Mantenimientos.act_estado a) "pendiente")
                 && negb (String.eqb (Mantenimientos.act_estado a) "en_proceso")
                 = false) by (destruct He as [-> | ->]; reflexivity).
    rewrite Hc.
    destruct (opt_truthy str_truthy observaciones); run;
      match goal with |- context [Django.super_save (?y, tbl)] =>
        destruct (super_save_ok y tbl)
          as (a' & tbl' & -> & Hin & [(k & _ & ->) | [_ ->]])
      end;
      eexists _, _; (split; [reflexivity|]); (split; [exact Hin|]);
      repeat split.
  - intros H1 H2. apply String.eqb_neq in H1, H2. now rewrite H1, H2.
Qed.

Lemma completar_spec_witness :
  (Mantenimientos.act_estado revision = "pendiente"
   \/ Mantenimientos.act_estado revision = "en_proceso")
  /\ exists a' tbl',
       Mantenimientos.completar dia (Some "sin novedad") (revision, [revision])
       = Ok true (a', tbl')
       /\ Mantenimientos.act_estado a' = "completada"
       /\ Mantenimientos.completar dia None (a', tbl') = Ok false (a', tbl').
Proof.
  assert (He : Mantenimientos.act_estado revision = "pendiente"
               \/ Mantenimientos.act_estado revision = "en_proceso") by (now left).
  split; [exact He|].
  destruct (proj1 (completar_spec dia (Some "sin novedad") revision [revision]) He)
    as (a' & tbl' & Hr & _ & Hest & _ & _ & Hagain).
  exists a', tbl'. split; [exact Hr|]. split; [exact Hest|]. apply Hagain.
Defined.

Local Open Scope Z_scope.

Lemma mas_siete (p : date) :
  valid p -> toordinal p + 7 <= _MAXORDINAL ->
  exists d,
    ProgramacionMantenimiento.mas_dias p 7 = Return d
    /\ valid d
    /\ toordinal d = toordinal p + 7
    /\ weekday d = weekday p.
Proof.
  intros Hv Hmax.
  pose proof (valid_wf p Hv) as [Hwf _].
  pose proof (toordinal_pos p Hwf) as Hpos.
  unfold ProgramacionMantenimiento.mas_dias, add_days.
  assert (Hr : (0 <? toordinal p + 7) && (toordinal p + 7 <=? _MAXORDINAL) = true).
  { apply andb_true_intro. split; [apply Z.ltb_lt|apply Z.leb_le]; lia. }
  rewrite Hr.
  destruct (fromordinal_spec (toordinal p + 7)) as [_ Hord]; [lia|].
  eexists. split; [reflexivity|].
  split; [apply fromordinal_valid; lia|]. split; [exact Hord|].
  unfold weekday. rewrite Hord.
  generalize (toordinal p). intros t. Z.div_mod_to_equations. lia.
Qed.

(** X23. The fortnightly programme.  With a day of the week set, the
    next date falls on that day, (dia_semana - 1) mod 7 in Python's
    numbering, from today up to thirteen days ahead.  It is the first
    such day from today when there was no generation before or when that
    day is at least fourteen days after the last one, and a week later
    otherwise; after a generation that is not in the future the date is
    at least seven days after it. *)
Theorem quincenal_spec (x : ProgramacionMantenimiento.t) (hoy : date) (ds : Z) :
  valid hoy -> year hoy < MAXYEAR ->
  ProgramacionMantenimiento.frecuencia x = "quincenal" ->
  ProgramacionMantenimiento.dia_semana x = Some ds -> ds <> 0 ->
  exists d,
    ProgramacionMantenimiento._calcular_proxima_fecha x hoy = Return (Some d)
    /\ valid d
    /\ weekday d = (ds - 1) mod 7
    /\ 0 <= sub_days d hoy <= 13
    /\ (ProgramacionMantenimiento.ultima_generacion x = None -> sub_days d hoy <= 6)
    /\ forall u, ProgramacionMantenimiento.ultima_generacion x = Some u ->
         (sub_days d hoy <= 6 -> 14 <= sub_days d u)
         /\ (7 <= sub_days d hoy -> sub_days d u < 21)
         /\ (toordinal u <= toordinal hoy -> 7 <= sub_days d u).
Proof.
  intros Hv Hy Hf Hds Hnz.
  destruct (semanal_spec hoy ds Hv Hy) as (p & Hr & Hvp & Hle & Hsub & Hwd & _).
  pose proof (toordinal_before_last_year hoy Hv Hy) as Hmax.
  pose proof (valid_wf hoy Hv) as [Hwf _].
  pose proof (valid_wf p Hvp) as [Hwfp _].
  apply toordinal_leb in Hle; [|assumption|assumption].
  unfold sub_days in *.
  unfold ProgramacionMantenimiento._calcular_proxima_fecha.
  rewrite Hf, Hds. eval_closed.
  replace (int_truthy ds) with true
    by (symmetry; unfold int_truthy; now apply negb_true_iff, Z.eqb_neq).
  cbn [negb]. rewrite Hr.
  destruct (ProgramacionMantenimiento.ultima_generacion x) as [u|].
  - unfold sub_days.
    destruct (Z.ltb_spec (toordinal p - toordinal u) 14) as [Hlt|Hge].
    + destruct (mas_siete p Hvp) as (d & -> & Hvd & Hod & Hwdd); [lia|].
      exists d. split; [reflexivity|]. split; [exact Hvd|].
      split; [now rewrite Hwdd|]. rewrite Hod.
      split; [lia|]. split; [discriminate|].
      intros u' [= <-]. repeat split; lia.
    + exists p. split; [reflexivity|]. split; [exact Hvp|].
      split; [exact Hwd|]. split; [lia|]. split; [discriminate|].
      intros u' [= <-]. repeat split; lia.
  - exists p. split; [reflexivity|]. split; [exact Hvp|].
    split; [exact Hwd|]. split; [lia|]. split; [intros _; lia|].
    intros u [=].
Qed.

Lemma quincenal_spec_witness :
  valid fin_de_enero /\ year fin_de_enero < MAXYEAR
  /\ exists d,
       ProgramacionMantenimiento._calcular_proxima_fecha programacion_quincenal
         fin_de_enero = Return (Some d)
       /\ weekday d = 0
       /\ 7 <= sub_days d fin_de_enero.
Proof.
  assert (Hv : valid fin_de_enero) by reflexivity.
  assert (Hy : year fin_de_enero < MAXYEAR) by reflexivity.
  split; [exact Hv|]. split; [exact Hy|].
  destruct (quincenal_spec programacion_quincenal fin_de_enero 1 Hv Hy
              eq_refl eq_refl ltac:(discriminate))
    as (d & Hr & _ & Hw & _ & _ & Hu).
  exists d. split; [exact Hr|]. split; [exact Hw|].
  destruct (Hu fin_de_enero eq_refl) as (_ & _ & H7). now apply H7.
Defined.
Local Close Scope Z_scope.

(** A new job in estado "programado" without incident is inserted as it
    is. *)
Lemma Mantenimiento_save_nuevo (ahora : datetime) (y : Mantenimiento.t)
    (d : Mantenimiento.db) :
  Mantenimiento.pk y = None ->
  Mantenimiento.incidencia y = None ->
  Mantenimiento.estado y = "programado" ->
  Mantenimiento.save ahora (y, d)
  = Ok tt (Mantenimiento.set_pk (Django.next_pk (Mantenimiento.mantenimientos d)) y,
           Mantenimiento.set_mantenimientos
             (Mantenimiento.mantenimientos d
              ++ [Mantenimiento.set_pk
                    (Django.next_pk (Mantenimiento.mantenimientos d)) y]) d).
Proof.
  intros Hk Hi He. unfold Mantenimiento.save. run.
  destruct y as [k inc prov tit fp fi ff cf est obs]. cbn in Hk, Hi, He. subst.
  cbn. now rewrite super_save_insert by reflexivity.
Qed.

(** X24. [generar_proximo_mantenimiento].  A programme that is not active
    or that already generated today returns [None]; every [None] leaves
    the programme and the tables as they were.  When a job is returned it
    is a new stored job in estado "programado", with the title of the
    programme and the preferred provider, due today or later; the ledger
    is untouched, the programme is stored with today as its last
    generation, and a second call on the same day returns [None].  An
    active daily programme that has not generated today always returns a
    job, due today. *)
Theorem generar_proximo_mantenimiento_spec (ahora : datetime)
    (proveedor_preferido : option nat) (x : ProgramacionMantenimiento.t)
    (d : Mantenimientos.db) :
  let hoy := dt_date ahora in
  let r := Mantenimientos.generar_proximo_mantenimiento ahora proveedor_preferido
             (x, d) in
  (ProgramacionMantenimiento.activa x = false
   \/ ProgramacionMantenimiento.ultima_generacion x = Some hoy ->
   r = Ok None (x, d))
  /\ (forall s, r = Ok None s -> s = (x, d))
  /\ (forall m s, r = Ok (Some m) s ->
      ProgramacionMantenimiento.ultima_generacion (fst s) = Some hoy
      /\ In (fst s) (Mantenimientos.programaciones (snd s))
      /\ Mantenimiento.mantenimientos (Mantenimientos.mantenimiento_db (snd s))
         = Mantenimiento.mantenimientos (Mantenimientos.mantenimiento_db d) ++ [m]
      /\ Mantenimiento.ingresos (Mantenimientos.mantenimiento_db (snd s))
         = Mantenimiento.ingresos (Mantenimientos.mantenimiento_db d)
      /\ Mantenimiento.estado m = "programado"
      /\ Mantenimiento.titulo m = ProgramacionMantenimiento.titulo x
      /\ Mantenimiento.proveedor m = proveedor_preferido
      /\ PyDate.leb hoy (Mantenimiento.fecha_programada m) = true
      /\ Mantenimientos.generar_proximo_mantenimiento ahora proveedor_preferido s
         = Ok None s)
  /\ (ProgramacionMantenimiento.frecuencia x = "diaria" ->
      ProgramacionMantenimiento.activa x = true ->
      ProgramacionMantenimiento.ultima_generacion x <> Some hoy ->
      exists m s, r = Ok (Some m) s /\ Mantenimiento.fecha_programada m = hoy).
Proof.
  cbv zeta.
  assert (Hgen : forall p,
    exists m x' progs',
      (mantenimiento ← call Mantenimientos.mantenimiento_db
                         Mantenimientos.set_mantenimiento_db
                         (Mantenimiento.mk None None proveedor_preferido
                            (ProgramacionMantenimiento.titulo x) p None None None
                            "programado" None)
                         (Mantenimiento.save ahora);
       x ← self;
       set_self (Mantenimientos.set_ultima_generacion (dt_date ahora) x);;
       on_self Mantenimientos.programaciones Mantenimientos.set_programaciones
         Django.super_save;;
       mret (Some mantenimiento)) (x, d)
      = Ok (Some m)
          (x', Mantenimientos.mkdb progs'
                 (Mantenimiento.set_mantenimientos
                    (Mantenimiento.mantenimientos (Mantenimientos.mantenimiento_db d)
                     ++ [m]) (Mantenimientos.mantenimiento_db d)))
      /\ In x' progs'
      /\ ProgramacionMantenimiento.ultima_generacion x' = Some (dt_date ahora)
      /\ ProgramacionMantenimiento.activa x' = ProgramacionMantenimiento.activa x
      /\ Mantenimiento.estado m = "programado"
      /\ Mantenimiento.titulo m = ProgramacionMantenimiento.titulo x
      /\ Mantenimiento.proveedor m = proveedor_preferido
      /\ Mantenimiento.fecha_programada m = p).
  { intros p. run.
    rewrite Mantenimiento_save_nuevo by reflexivity. cbv beta iota.
    match goal with |- context [Django.super_save (?y, ?t)] =>
      destruct (super_save_ok y t)
        as (x' & progs' & -> & Hin & [(k & _ & ->) | [_ ->]])
    end;
    eexists _, _, _; (split; [reflexivity|]); (split; [exact Hin|]);
    now repeat split. }
  assert (Hhoy : PyDate.eqb (dt_date ahora) (dt_date ahora) = true)
    by now apply date_eqb_eq.
  unfold Mantenimientos.generar_proximo_mantenimiento. run.
  destruct (ProgramacionMantenimiento.activa x) eqn:Hact; cbn [negb].
  2: { split; [reflexivity|]. split; [now intros s [= <-]|].
       split; [intros m s [=]|]. intros _ [=]. }
  destruct (match ProgramacionMantenimiento.ultima_generacion x with
            | Some u => PyDate.eqb u (dt_date ahora)
            | None => false
            end) eqn:Hult.
  { split; [reflexivity|]. split; [now intros s [= <-]|].
    split; [intros m s [=]|]. intros _ _ Hne. exfalso. apply Hne.
    destruct (ProgramacionMantenimiento.ultima_generacion x) as [u|];
      [|discriminate Hult].
    apply date_eqb_eq in Hult. now subst. }
  assert (Hnot : ~ (true = false
                    \/ ProgramacionMantenimiento.ultima_generacion x
                       = Some (dt_date ahora))).
  { intros [H|H]; [discriminate H|]. rewrite H, Hhoy in Hult. discriminate Hult. }
  assert (Hok : forall p,
             PyDate.leb (dt_date ahora) p = true ->
             forall r,
             r = (mantenimiento ← call Mantenimientos.mantenimiento_db
                         Mantenimientos.set_mantenimiento_db
                         (Mantenimiento.mk None None proveedor_preferido
                            (ProgramacionMantenimiento.titulo x) p None None None
                            "programado" None)
                         (Mantenimiento.save ahora);
                  x ← self;
                  set_self (Mantenimientos.set_ultima_generacion (dt_date ahora) x);;
                  on_self Mantenimientos.programaciones
                    Mantenimientos.set_programaciones Django.super_save;;
                  mret (Some mantenimiento)) (x, d) ->
             (forall s, r = Ok None s -> s = (x, d))
             /\ (forall m s, r = Ok (Some m) s ->
      ProgramacionMantenimiento.ultima_generacion (fst s) = Some (dt_date ahora)
      /\ In (fst s) (Mantenimientos.programaciones (snd s))
      /\ Mantenimiento.mantenimientos (Mantenimientos.mantenimiento_db (snd s))
         = Mantenimiento.mantenimientos (Mantenimientos.mantenimiento_db d) ++ [m]
      /\ Mantenimiento.ingresos (Mantenimientos.mantenimiento_db (snd s))
         = Mantenimiento.ingresos (Mantenimientos.mantenimiento_db d)
      /\ Mantenimiento.estado m = "programado"
      /\ Mantenimiento.titulo m = ProgramacionMantenimiento.titulo x
      /\ Mantenimiento.proveedor m = proveedor_preferido
      /\ PyDate.leb (dt_date ahora) (Mantenimiento.fecha_programada m) = true
      /\ Mantenimientos.generar_proximo_mantenimiento ahora proveedor_preferido s
         = Ok None s)
             /\ exists m s, r = Ok (Some m) s /\ Mantenimiento.fecha_programada m = p).
  { intros p Hle r ->. run.
    destruct (Hgen p) as (m & x' & progs' & -> & Hin & Hug & Hact' & He & Ht & Hp & Hfp).
    split; [intros s [=]|]. split; [|now exists m; eexists].
    intros m0 s [= <- <-]. cbn [fst snd Mantenimientos.programaciones
                                Mantenimientos.mantenimiento_db
                                Mantenimiento.mantenimientos Mantenimiento.ingresos
                                Mantenimiento.set_mantenimientos].
    rewrite Hfp. repeat (split; [assumption || reflexivity|]).
    unfold Mantenimientos.generar_proximo_mantenimiento. run.
    now rewrite Hact', Hug, Hhoy. }
  split; [intros H; now destruct (Hnot H)|].
  destruct (ProgramacionMantenimiento._calcular_proxima_fecha x (dt_date ahora))
    as [[p|]|e] eqn:Hcalc.
  - destruct (PyDate.leb (dt_date ahora) p) eqn:Hle.
    + destruct (Hok p Hle _ eq_refl) as (H1 & H2 & H3).
      split; [exact H1|]. split; [exact H2|].
      intros Hf _ _. unfold ProgramacionMantenimiento._calcular_proxima_fecha in Hcalc.
      rewrite Hf in Hcalc. cbn in Hcalc. injection Hcalc as <-. exact H3.
    + split; [now intros s [= <-]|]. split; [intros m s [=]|].
      intros Hf _ _. unfold ProgramacionMantenimiento._calcular_proxima_fecha in Hcalc.
      rewrite Hf in Hcalc. cbn in Hcalc. injection Hcalc as <-.
      unfold PyDate.leb, PyDate.ltb in Hle. now rewrite tuple_ltb_irrefl in Hle.
  - split; [now intros s [= <-]|]. split; [intros m s [=]|].
    intros Hf _ _. unfold ProgramacionMantenimiento._calcular_proxima_fecha in Hcalc.
    rewrite Hf in Hcalc. discriminate Hcalc.
  - split; [intros s [=]|]. split; [intros m s [=]|].
    intros Hf _ _. unfold ProgramacionMantenimiento._calcular_proxima_fecha in Hcalc.
    rewrite Hf in Hcalc. discriminate Hcalc.
Qed.

Lemma generar_proximo_mantenimiento_spec_witness :
  exists m s,
    Mantenimientos.generar_proximo_mantenimiento mediodia None
      (programacion_diaria, db_programaciones) = Ok (Some m) s
    /\ Mantenimiento.fecha_programada m = dia
    /\ Mantenimientos.generar_proximo_mantenimiento mediodia None s = Ok None s.
Proof.
  destruct (generar_proximo_mantenimiento_spec mediodia None programacion_diaria
              db_programaciones) as (_ & _ & Hsome & Hdiaria).
  destruct (Hdiaria eq_refl eq_refl ltac:(discriminate)) as (m & s & Hr & Hf).
  exists m, s. split; [exact Hr|]. split; [exact Hf|].
  exact (proj2 (proj2 (proj2 (proj2 (proj2 (proj2 (proj2 (proj2 (Hsome m s Hr))))))))).
Defined.

(** ** Pending fees of a house *)

(** X26. [get_pagos_pendientes] of a stored house lists the fees due by
    today for which the table holds no payment of the house, latest
    period first.  The estado of a payment plays no part: a fee with a
    payment of the house, a rejected one included, is not listed. *)
Theorem get_pagos_pendientes_spec (x : Vivienda.t) (k : nat)
    (cuotas : list CuotaAdministracion.t) (pagos : list PagoAdministracion.t)
    (hoy : date) :
  Vivienda.pk x = Some k ->
  (forall c,
     In c (Viviendas.get_pagos_pendientes x cuotas pagos hoy)
     <-> In c cuotas
         /\ PyDate.leb (CuotaAdministracion.fecha_vencimiento c) hoy = true
         /\ forall p, In p pagos ->
                      Vivienda.pk (PagoAdministracion.vivienda p) = Some k ->
                      CuotaAdministracion.pk (PagoAdministracion.cuota p)
                      <> CuotaAdministracion.pk c)
  /\ (forall p c,
        In p pagos ->
        Vivienda.pk (PagoAdministracion.vivienda p) = Some k ->
        PagoAdministracion.cuota p = c ->
        ~ In c (Viviendas.get_pagos_pendientes x cuotas pagos hoy))
  /\ Sorted
       (fun a b =>
          tuple_ltb [CuotaAdministracion.año a; CuotaAdministracion.mes a]
                    [CuotaAdministracion.año b; CuotaAdministracion.mes b] = false)
       (Viviendas.get_pagos_pendientes x cuotas pagos hoy).
Proof.
  intros Hk.
  assert (Hchar : forall c,
     In c (Viviendas.get_pagos_pendientes x cuotas pagos hoy)
     <-> In c cuotas
         /\ PyDate.leb (CuotaAdministracion.fecha_vencimiento c) hoy = true
         /\ forall p, In p pagos ->
                      Vivienda.pk (PagoAdministracion.vivienda p) = Some k ->
                      CuotaAdministracion.pk (PagoAdministracion.cuota p)
                      <> CuotaAdministracion.pk c).
  { intros c. unfold Viviendas.get_pagos_pendientes. cbv zeta.
    rewrite filter_In_bool.
    match goal with |- In c (Consultas.order_by ?antes ?l) /\ _ <-> _ =>
      assert (Hperm : In c (Consultas.order_by antes l) <-> In c l)
        by (split; apply Permutation_in;
            [apply order_by_perm|symmetry; apply order_by_perm])
    end.
    rewrite Hperm, filter_In_bool, negb_true_iff, Hk.
    split.
    - intros [[Hc Hle] Hno]. split; [exact Hc|]. split; [exact Hle|].
      intros p Hp Hv Hcu.
      assert (Hex : existsb
                (fun p => bool_decide (Vivienda.pk (PagoAdministracion.vivienda p) = Some k)
                          && bool_decide (CuotaAdministracion.pk (PagoAdministracion.cuota p)
                                          = CuotaAdministracion.pk c)) pagos = true).
      { apply existsb_exists. exists p. split; [exact Hp|].
        now rewrite !bool_decide_eq_true_2. }
      congruence.
    - intros (Hc & Hle & Hno). split; [now split|].
      destruct (existsb _ pagos) eqn:Hex; [|reflexivity]. exfalso.
      apply existsb_exists in Hex as (p & Hp & Hb).
      apply andb_true_iff in Hb as [Hv Hcu].
      apply bool_decide_eq_true_1 in Hv, Hcu. exact (Hno p Hp Hv Hcu). }
  split; [exact Hchar|]. split.
  - intros p c Hp Hv Hc Hin. apply Hchar in Hin as (_ & _ & Hno).
    apply (Hno p Hp Hv). now rewrite Hc.
  - unfold Viviendas.get_pagos_pendientes. cbv zeta.
    match goal with |- Sorted ?R (filter ?P (Consultas.order_by ?antes ?l)) =>
      pose proof (order_by_sorted antes l) as Hs;
      assert (Htr : forall a b c0, R a b -> R b c0 -> R a c0)
    end.
    { cbv beta. intros a b c0.
      generalize [CuotaAdministracion.año a; CuotaAdministracion.mes a]
                 [CuotaAdministracion.año b; CuotaAdministracion.mes b]
                 [CuotaAdministracion.año c0; CuotaAdministracion.mes c0].
      intros la lb. revert la. induction lb as [|y lb IH]; intros [|xa la] [|z lc];
        cbn; try congruence.
      intros H1 H2.
      apply orb_false_elim in H1 as [H1 H1'], H2 as [H2 H2'].
      apply Z.ltb_ge in H1, H2.
      apply orb_false_intro; [apply Z.ltb_ge; lia|].
      destruct (Z.eqb_spec xa z) as [->|Hne]; [|reflexivity]. cbn.
      assert (y = z) by lia. subst y. rewrite Z.eqb_refl in H1', H2'. cbn in H1', H2'.
      now apply IH. }
    specialize (Hs (fun a b => tuple_ltb_asym _ _)).
    apply Sorted_StronglySorted in Hs; [|exact Htr].
    apply StronglySorted_Sorted.
    induction Hs as [|a l Hs IH Hall]; [rewrite filter_nil; constructor|].
    rewrite filter_cons. destruct (decide _); [|exact IH].
    constructor; [exact IH|].
    rewrite List.Forall_forall. intros b Hb.
    rewrite List.Forall_forall in Hall. apply Hall.
    rewrite <- list_elem_of_In in Hb. apply list_elem_of_filter in Hb as [_ Hb].
    now apply list_elem_of_In.
Qed.

Lemma get_pagos_pendientes_spec_witness :
  Vivienda.pk casa = Some 1%nat
  /\ ~ In cuota_mayo
         (Viviendas.get_pagos_pendientes casa [cuota_mayo] [pago_rechazado]
            (mkdate 2024 6 1)).
Proof.
  split; [reflexivity|].
  exact (proj1 (proj2 (get_pagos_pendientes_spec casa 1%nat [cuota_mayo]
                         [pago_rechazado] (mkdate 2024 6 1) eq_refl))
           pago_rechazado cuota_mayo (or_introl eq_refl) eq_refl eq_refl).
Defined.
